(** * Board support for the OMAP5430/5432 EVM: a model of
    [arch/arm/mach-omap2/board-omap5evm.c]

    The board file consists of static hardware descriptors and of the
    machine-init routine [omap_54xx_init] with the routines it reaches.
    The descriptors are transcribed as records and lists; the routines
    are functions in a small monad that threads the mutable statics of
    the file and a counter of kernel calls, and that writes the sequence
    of kernel calls and log messages the routine performs. *)

From Stdlib Require Import ZArith List String Ascii Bool Arith Lia.
Import ListNotations.
Local Open Scope string_scope.
Local Open Scope list_scope.
Local Open Scope Z_scope.

Set Implicit Arguments.

(** ** C conventions *)

(** [ARRAY_SIZE(t)]. *)
Definition ARRAY_SIZE {A : Type} (t : list A) : Z := Z.of_nat (List.length t).

(** Pointers to data are addresses; [NULL] is address 0. *)
Definition NULL : Z := 0.

(** [EINVAL] of errno-base.h; the tables use [-EINVAL] for "no GPIO". *)
Definition EINVAL : Z := 22.

(** ** LEDs (source lines 75-119) *)

Record gpio_led : Type := {
  led_name : string;
  default_trigger : string;
  led_gpio : Z
}.

Definition gpio_leds : list gpio_led := [
  {| led_name := "red";  default_trigger := "heartbeat";   led_gpio := 273 |};
  {| led_name := "usr1"; default_trigger := "default-off"; led_gpio := 258 |};
  {| led_name := "usr2"; default_trigger := "default-off"; led_gpio := 259 |};
  {| led_name := "usr3"; default_trigger := "default-off"; led_gpio := 260 |};
  {| led_name := "usr4"; default_trigger := "default-off"; led_gpio := 261 |};
  {| led_name := "usr5"; default_trigger := "default-off"; led_gpio := 262 |}
].

Record gpio_led_platform_data : Type := {
  leds : list gpio_led;
  num_leds : Z
}.

Definition gpio_led_info : gpio_led_platform_data :=
  {| leds := gpio_leds; num_leds := ARRAY_SIZE gpio_leds |}.

(** ** Keypads (source lines 121-293)

    The key codes of linux/input.h are kept as names, and an entry
    [KEY(row, col, code)] of a keymap as the triple it is written as. *)

Inductive keycode : Type :=
  | KEY_RESERVED | KEY_VOLUMEUP | KEY_VOLUMEDOWN | KEY_SEND | KEY_HOME | KEY_END
  | KEY_SEARCH | KEY_F7 | KEY_ESC | KEY_F4 | KEY_G | KEY_H
  | KEY_CYCLEWINDOWS | KEY_BACKSPACE | KEY_F11 | KEY_FORWARD | KEY_INSERT | KEY_RIGHTSHIFT
  | KEY_W | KEY_Q | KEY_E | KEY_R | KEY_U | KEY_I
  | KEY_UP | KEY_O | KEY_P | KEY_LEFT | KEY_2 | KEY_1
  | KEY_3 | KEY_4 | KEY_7 | KEY_8 | KEY_RIGHTALT | KEY_DOWN
  | KEY_9 | KEY_0 | KEY_RIGHT | KEY_RIGHTCTRL | KEY_S | KEY_A
  | KEY_D | KEY_F | KEY_J | KEY_K | KEY_ENTER | KEY_L
  | KEY_SEMICOLON | KEY_LEFTSHIFT | KEY_X | KEY_Z | KEY_C | KEY_V
  | KEY_M | KEY_COMMA | KEY_SPACE | KEY_DOT | KEY_SLASH | KEY_LEFTCTRL
  | KEY_F6 | KEY_TAB | KEY_F3 | KEY_T | KEY_Y | KEY_LEFTBRACE
  | KEY_F10 | KEY_RIGHTBRACE | KEY_F5 | KEY_F2 | KEY_5 | KEY_FN
  | KEY_6 | KEY_MENU | KEY_BACKSLASH | KEY_F9 | KEY_F8 | KEY_CAPSLOCK
  | KEY_F1 | KEY_B | KEY_N | KEY_LEFTALT | KEY_F12 | KEY_DELETE.


Inductive keymap_entry : Type :=
  KEY (row col : Z) (code : keycode).

Definition key_row (e : keymap_entry) : Z := let 'KEY r _ _ := e in r.
Definition key_col (e : keymap_entry) : Z := let 'KEY _ c _ := e in c.

Definition evm5430_keymap : list keymap_entry := [
    KEY 0 0 KEY_RESERVED; KEY 0 1 KEY_RESERVED; KEY 0 2 KEY_RESERVED; KEY 0 3 KEY_RESERVED;
    KEY 0 4 KEY_RESERVED; KEY 0 5 KEY_RESERVED; KEY 0 6 KEY_RESERVED; KEY 0 7 KEY_RESERVED;
    KEY 1 0 KEY_RESERVED; KEY 1 1 KEY_RESERVED; KEY 1 2 KEY_RESERVED; KEY 1 3 KEY_RESERVED;
    KEY 1 4 KEY_RESERVED; KEY 1 5 KEY_RESERVED; KEY 1 6 KEY_RESERVED; KEY 1 7 KEY_RESERVED;
    KEY 2 0 KEY_RESERVED; KEY 2 1 KEY_RESERVED; KEY 2 2 KEY_VOLUMEUP; KEY 2 3 KEY_VOLUMEDOWN;
    KEY 2 4 KEY_SEND; KEY 2 5 KEY_HOME; KEY 2 6 KEY_END; KEY 2 7 KEY_SEARCH;
    KEY 3 0 KEY_RESERVED; KEY 3 1 KEY_RESERVED; KEY 3 2 KEY_RESERVED; KEY 3 3 KEY_RESERVED;
    KEY 3 4 KEY_RESERVED; KEY 3 5 KEY_RESERVED; KEY 3 6 KEY_RESERVED; KEY 3 7 KEY_RESERVED;
    KEY 4 0 KEY_RESERVED; KEY 4 1 KEY_RESERVED; KEY 4 2 KEY_RESERVED; KEY 4 3 KEY_RESERVED;
    KEY 4 4 KEY_RESERVED; KEY 4 5 KEY_RESERVED; KEY 4 6 KEY_RESERVED; KEY 4 7 KEY_RESERVED;
    KEY 5 0 KEY_RESERVED; KEY 5 1 KEY_RESERVED; KEY 5 2 KEY_RESERVED; KEY 5 3 KEY_RESERVED;
    KEY 5 4 KEY_RESERVED; KEY 5 5 KEY_RESERVED; KEY 5 6 KEY_RESERVED; KEY 5 7 KEY_RESERVED;
    KEY 6 0 KEY_RESERVED; KEY 6 1 KEY_RESERVED; KEY 6 2 KEY_RESERVED; KEY 6 3 KEY_RESERVED;
    KEY 6 4 KEY_RESERVED; KEY 6 5 KEY_RESERVED; KEY 6 6 KEY_RESERVED; KEY 6 7 KEY_RESERVED;
    KEY 7 0 KEY_RESERVED; KEY 7 1 KEY_RESERVED; KEY 7 2 KEY_RESERVED; KEY 7 3 KEY_RESERVED;
    KEY 7 4 KEY_RESERVED; KEY 7 5 KEY_RESERVED; KEY 7 6 KEY_RESERVED; KEY 7 7 KEY_RESERVED
].

Record matrix_keymap_data : Type := {
  keymap : list keymap_entry;
  keymap_size : Z
}.

Definition evm5430_keymap_data : matrix_keymap_data :=
  {| keymap := evm5430_keymap; keymap_size := ARRAY_SIZE evm5430_keymap |}.

Record omap4_keypad_platform_data : Type := {
  kp4_keymap_data : matrix_keymap_data;
  kp4_rows : Z;
  kp4_cols : Z
}.

Definition evm5430_keypad_data : omap4_keypad_platform_data :=
  {| kp4_keymap_data := evm5430_keymap_data; kp4_rows := 8; kp4_cols := 8 |}.

Definition board_keymap : list keymap_entry := [
    KEY 0 0 KEY_RESERVED; KEY 0 1 KEY_RESERVED;
    KEY 0 2 KEY_F7; KEY 0 3 KEY_ESC;
    KEY 0 4 KEY_F4; KEY 0 5 KEY_G;
    KEY 0 6 KEY_RESERVED; KEY 0 7 KEY_H;
    KEY 0 8 KEY_RESERVED; KEY 0 9 KEY_CYCLEWINDOWS;
    KEY 0 10 KEY_RESERVED; KEY 0 11 KEY_RESERVED;
    KEY 0 12 KEY_BACKSPACE; KEY 0 13 KEY_F11;
    KEY 0 14 KEY_FORWARD; KEY 0 15 KEY_INSERT;
    KEY 1 0 KEY_RIGHTSHIFT; KEY 1 1 KEY_RESERVED;
    KEY 1 2 KEY_W; KEY 1 3 KEY_Q;
    KEY 1 4 KEY_E; KEY 1 5 KEY_R;
    KEY 1 6 KEY_RESERVED; KEY 1 7 KEY_U;
    KEY 1 8 KEY_I; KEY 1 9 KEY_RESERVED;
    KEY 1 10 KEY_RESERVED; KEY 1 11 KEY_RESERVED;
    KEY 1 12 KEY_UP; KEY 1 13 KEY_O;
    KEY 1 14 KEY_P; KEY 1 15 KEY_LEFT;
    KEY 2 0 KEY_RESERVED; KEY 2 1 KEY_RESERVED;
    KEY 2 2 KEY_2; KEY 2 3 KEY_1;
    KEY 2 4 KEY_3; KEY 2 5 KEY_4;
    KEY 2 6 KEY_RESERVED; KEY 2 7 KEY_7;
    KEY 2 8 KEY_8; KEY 2 9 KEY_RESERVED;
    KEY 2 10 KEY_RESERVED; KEY 2 11 KEY_RIGHTALT;
    KEY 2 12 KEY_DOWN; KEY 2 13 KEY_9;
    KEY 2 14 KEY_0; KEY 2 15 KEY_RIGHT;
    KEY 3 0 KEY_RESERVED; KEY 3 1 KEY_RIGHTCTRL;
    KEY 3 2 KEY_S; KEY 3 3 KEY_A;
    KEY 3 4 KEY_D; KEY 3 5 KEY_F;
    KEY 3 6 KEY_RESERVED; KEY 3 7 KEY_J;
    KEY 3 8 KEY_K; KEY 3 9 KEY_RESERVED;
    KEY 3 10 KEY_RESERVED; KEY 3 11 KEY_RESERVED;
    KEY 3 12 KEY_ENTER; KEY 3 13 KEY_L;
    KEY 3 14 KEY_SEMICOLON; KEY 3 15 KEY_RESERVED;
    KEY 4 0 KEY_LEFTSHIFT; KEY 4 1 KEY_RESERVED;
    KEY 4 2 KEY_X; KEY 4 3 KEY_Z;
    KEY 4 4 KEY_C; KEY 4 5 KEY_V;
    KEY 4 6 KEY_RESERVED; KEY 4 7 KEY_M;
    KEY 4 8 KEY_COMMA; KEY 4 9 KEY_RESERVED;
    KEY 4 10 KEY_RESERVED; KEY 4 11 KEY_RESERVED;
    KEY 4 12 KEY_SPACE; KEY 4 13 KEY_DOT;
    KEY 4 14 KEY_SLASH; KEY 4 15 KEY_END;
    KEY 5 0 KEY_RESERVED; KEY 5 1 KEY_LEFTCTRL;
    KEY 5 2 KEY_F6; KEY 5 3 KEY_TAB;
    KEY 5 4 KEY_F3; KEY 5 5 KEY_T;
    KEY 5 6 KEY_RESERVED; KEY 5 7 KEY_Y;
    KEY 5 8 KEY_LEFTBRACE; KEY 5 9 KEY_RESERVED;
    KEY 5 10 KEY_RESERVED; KEY 5 11 KEY_RESERVED;
    KEY 5 12 KEY_RESERVED; KEY 5 13 KEY_F10;
    KEY 5 14 KEY_RIGHTBRACE; KEY 5 15 KEY_HOME;
    KEY 6 0 KEY_RESERVED; KEY 6 1 KEY_RESERVED;
    KEY 6 2 KEY_F5; KEY 6 3 KEY_RESERVED;
    KEY 6 4 KEY_F2; KEY 6 5 KEY_5;
    KEY 6 6 KEY_FN; KEY 6 7 KEY_6;
    KEY 6 8 KEY_RESERVED; KEY 6 9 KEY_RESERVED;
    KEY 6 10 KEY_MENU; KEY 6 11 KEY_RESERVED;
    KEY 6 12 KEY_BACKSLASH; KEY 6 13 KEY_F9;
    KEY 6 14 KEY_RESERVED; KEY 6 15 KEY_RESERVED;
    KEY 7 0 KEY_RESERVED; KEY 7 1 KEY_RESERVED;
    KEY 7 2 KEY_F8; KEY 7 3 KEY_CAPSLOCK;
    KEY 7 4 KEY_F1; KEY 7 5 KEY_B;
    KEY 7 6 KEY_RESERVED; KEY 7 7 KEY_N;
    KEY 7 8 KEY_RESERVED; KEY 7 9 KEY_RESERVED;
    KEY 7 10 KEY_RESERVED; KEY 7 11 KEY_LEFTALT;
    KEY 7 12 KEY_RESERVED; KEY 7 13 KEY_F12;
    KEY 7 14 KEY_RESERVED; KEY 7 15 KEY_DELETE
].

Definition board_map_data : matrix_keymap_data :=
  {| keymap := board_keymap; keymap_size := ARRAY_SIZE board_keymap |}.

Record smsc_keypad_data : Type := {
  smsc_keymap_data : matrix_keymap_data;
  smsc_rows : Z;
  smsc_cols : Z;
  smsc_rep : Z
}.

Definition omap5_kp_data : smsc_keypad_data :=
  {| smsc_keymap_data := board_map_data;
     smsc_rows := 8; smsc_cols := 16; smsc_rep := 1 |}.

(** ** Regulator constraints (source lines 469-734 and 1202-1212)

    The flag values of linux/regulator/machine.h and consumer.h are not
    part of this file: they are taken as a parameter. *)

Record regulator_flags : Type := {
  REGULATOR_MODE_NORMAL : Z;
  REGULATOR_MODE_STANDBY : Z;
  REGULATOR_CHANGE_VOLTAGE : Z;
  REGULATOR_CHANGE_MODE : Z;
  REGULATOR_CHANGE_STATUS : Z
}.

(** [REGULATOR_SUPPLY(name, dev_name)]. *)
Record regulator_consumer_supply : Type := REGULATOR_SUPPLY {
  supply : string;
  dev_name : string
}.

Record regulation_constraints : Type := {
  min_uV : Z;
  max_uV : Z;
  valid_modes_mask : Z;
  valid_ops_mask : Z;
  always_on : bool;
  apply_uV : bool
}.

Record regulator_init_data : Type := {
  constraints : regulation_constraints;
  num_consumer_supplies : Z;
  consumer_supplies : list regulator_consumer_supply
}.

Definition omap5_adac_supply : list regulator_consumer_supply :=
  [REGULATOR_SUPPLY "vcc" "soc-audio"].

Definition omap5_vbus_supply : list regulator_consumer_supply :=
  [REGULATOR_SUPPLY "vbus" "1-0048"].

Definition omap5evm_lcd_panel_supply : list regulator_consumer_supply :=
  [REGULATOR_SUPPLY "panel_supply" "omapdss_dsi.0"].

Definition omap5_dss_phy_supply : list regulator_consumer_supply :=
  [REGULATOR_SUPPLY "vdds_dsi" "omapdss";
   REGULATOR_SUPPLY "vdds_dsi" "omapdss_dsi.0";
   REGULATOR_SUPPLY "vdds_dsi" "omapdss_dsi.1";
   REGULATOR_SUPPLY "vdds_hdmi" "omapdss_hdmi"].

Definition omap5_mmc1_io_supply : list regulator_consumer_supply :=
  [REGULATOR_SUPPLY "vmmc_aux" "omap_hsmmc.0"].

Definition omap5_sdp5430_vmmc3_supply : list regulator_consumer_supply :=
  [REGULATOR_SUPPLY "vmmc" "omap_hsmmc.2"].

(** The C operator [a | b] on masks. *)
Infix ".|" := Z.lor (at level 40, left associativity).

(** The C test [mask & flag]. *)
Definition has_flag (mask flag : Z) : bool := negb (Z.land mask flag =? 0).

Section Regulators.
Variable F : regulator_flags.

Let REGULATOR_MODE_NORMAL := REGULATOR_MODE_NORMAL F.
Let REGULATOR_MODE_STANDBY := REGULATOR_MODE_STANDBY F.
Let REGULATOR_CHANGE_VOLTAGE := REGULATOR_CHANGE_VOLTAGE F.
Let REGULATOR_CHANGE_MODE := REGULATOR_CHANGE_MODE F.
Let REGULATOR_CHANGE_STATUS := REGULATOR_CHANGE_STATUS F.

Definition omap5_smps12 : regulator_init_data :=
  {| constraints :=
       {| min_uV := 600000;
          max_uV := 1310000;
          valid_modes_mask := REGULATOR_MODE_NORMAL .| REGULATOR_MODE_STANDBY;
          valid_ops_mask := REGULATOR_CHANGE_VOLTAGE .| REGULATOR_CHANGE_MODE .| REGULATOR_CHANGE_STATUS;
          always_on := false;
          apply_uV := false |};
     num_consumer_supplies := 0;
     consumer_supplies := [] |}.

Definition omap5_smps45 : regulator_init_data :=
  {| constraints :=
       {| min_uV := 600000;
          max_uV := 1310000;
          valid_modes_mask := REGULATOR_MODE_NORMAL .| REGULATOR_MODE_STANDBY;
          valid_ops_mask := REGULATOR_CHANGE_VOLTAGE .| REGULATOR_CHANGE_MODE .| REGULATOR_CHANGE_STATUS;
          always_on := false;
          apply_uV := false |};
     num_consumer_supplies := 0;
     consumer_supplies := [] |}.

Definition omap5_smps6 : regulator_init_data :=
  {| constraints :=
       {| min_uV := 1200000;
          max_uV := 1200000;
          valid_modes_mask := REGULATOR_MODE_NORMAL .| REGULATOR_MODE_STANDBY;
          valid_ops_mask := REGULATOR_CHANGE_MODE .| REGULATOR_CHANGE_STATUS;
          always_on := false;
          apply_uV := false |};
     num_consumer_supplies := 0;
     consumer_supplies := [] |}.

Definition omap5_smps7 : regulator_init_data :=
  {| constraints :=
       {| min_uV := 1800000;
          max_uV := 1800000;
          valid_modes_mask := REGULATOR_MODE_NORMAL .| REGULATOR_MODE_STANDBY;
          valid_ops_mask := REGULATOR_CHANGE_MODE .| REGULATOR_CHANGE_STATUS;
          always_on := false;
          apply_uV := false |};
     num_consumer_supplies := 0;
     consumer_supplies := [] |}.

Definition omap5_smps8 : regulator_init_data :=
  {| constraints :=
       {| min_uV := 600000;
          max_uV := 1310000;
          valid_modes_mask := REGULATOR_MODE_NORMAL .| REGULATOR_MODE_STANDBY;
          valid_ops_mask := REGULATOR_CHANGE_VOLTAGE .| REGULATOR_CHANGE_MODE .| REGULATOR_CHANGE_STATUS;
          always_on := false;
          apply_uV := false |};
     num_consumer_supplies := 0;
     consumer_supplies := [] |}.

Definition omap5_smps9 : regulator_init_data :=
  {| constraints :=
       {| min_uV := 2100000;
          max_uV := 2100000;
          valid_modes_mask := REGULATOR_MODE_NORMAL .| REGULATOR_MODE_STANDBY;
          valid_ops_mask := REGULATOR_CHANGE_MODE .| REGULATOR_CHANGE_STATUS;
          always_on := true;
          apply_uV := false |};
     num_consumer_supplies := ARRAY_SIZE omap5_adac_supply;
     consumer_supplies := omap5_adac_supply |}.

Definition omap5_smps10 : regulator_init_data :=
  {| constraints :=
       {| min_uV := 5000000;
          max_uV := 5000000;
          valid_modes_mask := REGULATOR_MODE_NORMAL .| REGULATOR_MODE_STANDBY;
          valid_ops_mask := REGULATOR_CHANGE_MODE .| REGULATOR_CHANGE_STATUS;
          always_on := false;
          apply_uV := false |};
     num_consumer_supplies := ARRAY_SIZE omap5_vbus_supply;
     consumer_supplies := omap5_vbus_supply |}.

Definition omap5_ldo1 : regulator_init_data :=
  {| constraints :=
       {| min_uV := 2800000;
          max_uV := 2800000;
          valid_modes_mask := REGULATOR_MODE_NORMAL .| REGULATOR_MODE_STANDBY;
          valid_ops_mask := REGULATOR_CHANGE_MODE .| REGULATOR_CHANGE_STATUS;
          always_on := true;
          apply_uV := false |};
     num_consumer_supplies := 0;
     consumer_supplies := [] |}.

Definition omap5_ldo2 : regulator_init_data :=
  {| constraints :=
       {| min_uV := 2900000;
          max_uV := 2900000;
          valid_modes_mask := REGULATOR_MODE_NORMAL .| REGULATOR_MODE_STANDBY;
          valid_ops_mask := REGULATOR_CHANGE_MODE .| REGULATOR_CHANGE_STATUS;
          always_on := true;
          apply_uV := true |};
     num_consumer_supplies := ARRAY_SIZE omap5evm_lcd_panel_supply;
     consumer_supplies := omap5evm_lcd_panel_supply |}.

Definition omap5_ldo3 : regulator_init_data :=
  {| constraints :=
       {| min_uV := 3000000;
          max_uV := 3000000;
          valid_modes_mask := REGULATOR_MODE_NORMAL .| REGULATOR_MODE_STANDBY;
          valid_ops_mask := REGULATOR_CHANGE_MODE .| REGULATOR_CHANGE_STATUS;
          always_on := false;
          apply_uV := false |};
     num_consumer_supplies := 0;
     consumer_supplies := [] |}.

Definition omap5_ldo4 : regulator_init_data :=
  {| constraints :=
       {| min_uV := 2200000;
          max_uV := 2200000;
          valid_modes_mask := REGULATOR_MODE_NORMAL .| REGULATOR_MODE_STANDBY;
          valid_ops_mask := REGULATOR_CHANGE_MODE .| REGULATOR_CHANGE_STATUS;
          always_on := false;
          apply_uV := false |};
     num_consumer_supplies := 0;
     consumer_supplies := [] |}.

Definition omap5_ldo5 : regulator_init_data :=
  {| constraints :=
       {| min_uV := 1800000;
          max_uV := 1800000;
          valid_modes_mask := REGULATOR_MODE_NORMAL .| REGULATOR_MODE_STANDBY;
          valid_ops_mask := REGULATOR_CHANGE_MODE .| REGULATOR_CHANGE_STATUS;
          always_on := false;
          apply_uV := false |};
     num_consumer_supplies := 0;
     consumer_supplies := [] |}.

Definition omap5_ldo6 : regulator_init_data :=
  {| constraints :=
       {| min_uV := 1500000;
          max_uV := 1500000;
          valid_modes_mask := REGULATOR_MODE_NORMAL .| REGULATOR_MODE_STANDBY;
          valid_ops_mask := REGULATOR_CHANGE_MODE .| REGULATOR_CHANGE_STATUS;
          always_on := false;
          apply_uV := false |};
     num_consumer_supplies := 0;
     consumer_supplies := [] |}.

Definition omap5_ldo7 : regulator_init_data :=
  {| constraints :=
       {| min_uV := 1500000;
          max_uV := 1500000;
          valid_modes_mask := REGULATOR_MODE_NORMAL .| REGULATOR_MODE_STANDBY;
          valid_ops_mask := REGULATOR_CHANGE_MODE .| REGULATOR_CHANGE_STATUS;
          always_on := false;
          apply_uV := true |};
     num_consumer_supplies := ARRAY_SIZE omap5_dss_phy_supply;
     consumer_supplies := omap5_dss_phy_supply |}.

Definition omap5_ldo8 : regulator_init_data :=
  {| constraints :=
       {| min_uV := 1500000;
          max_uV := 1500000;
          valid_modes_mask := REGULATOR_MODE_NORMAL .| REGULATOR_MODE_STANDBY;
          valid_ops_mask := REGULATOR_CHANGE_MODE .| REGULATOR_CHANGE_STATUS;
          always_on := false;
          apply_uV := false |};
     num_consumer_supplies := 0;
     consumer_supplies := [] |}.

Definition omap5_ldo9 : regulator_init_data :=
  {| constraints :=
       {| min_uV := 1800000;
          max_uV := 3000000;
          valid_modes_mask := REGULATOR_MODE_NORMAL .| REGULATOR_MODE_STANDBY;
          valid_ops_mask := REGULATOR_CHANGE_VOLTAGE .| REGULATOR_CHANGE_MODE .| REGULATOR_CHANGE_STATUS;
          always_on := false;
          apply_uV := false |};
     num_consumer_supplies := ARRAY_SIZE omap5_mmc1_io_supply;
     consumer_supplies := omap5_mmc1_io_supply |}.

Definition omap5_ldoln : regulator_init_data :=
  {| constraints :=
       {| min_uV := 1800000;
          max_uV := 1800000;
          valid_modes_mask := REGULATOR_MODE_NORMAL .| REGULATOR_MODE_STANDBY;
          valid_ops_mask := REGULATOR_CHANGE_MODE .| REGULATOR_CHANGE_STATUS;
          always_on := false;
          apply_uV := false |};
     num_consumer_supplies := 0;
     consumer_supplies := [] |}.

Definition omap5_ldousb : regulator_init_data :=
  {| constraints :=
       {| min_uV := 3250000;
          max_uV := 3250000;
          valid_modes_mask := REGULATOR_MODE_NORMAL .| REGULATOR_MODE_STANDBY;
          valid_ops_mask := REGULATOR_CHANGE_MODE .| REGULATOR_CHANGE_STATUS;
          always_on := false;
          apply_uV := false |};
     num_consumer_supplies := 0;
     consumer_supplies := [] |}.

(** [NULL] entries are the regulators not used in this configuration. *)
Definition palmas_omap5_reg : list (option regulator_init_data) := [
  Some omap5_smps12;
  None; (* SMPS123 *)
  None; (* SMPS3 *)
  Some omap5_smps45;
  None; (* SMPS457 *)
  Some omap5_smps6;
  Some omap5_smps7;
  Some omap5_smps8;
  Some omap5_smps9;
  Some omap5_smps10;
  Some omap5_ldo1;
  Some omap5_ldo2;
  Some omap5_ldo3;
  Some omap5_ldo4;
  Some omap5_ldo5;
  Some omap5_ldo6;
  Some omap5_ldo7;
  Some omap5_ldo8;
  Some omap5_ldo9;
  Some omap5_ldoln;
  Some omap5_ldousb
].

Definition sdp5430_vmmc3 : regulator_init_data :=
  {| constraints :=
       {| min_uV := 0;
          max_uV := 0;
          valid_modes_mask := 0;
          valid_ops_mask := REGULATOR_CHANGE_STATUS;
          always_on := false;
          apply_uV := false |};
     num_consumer_supplies := ARRAY_SIZE omap5_sdp5430_vmmc3_supply;
     consumer_supplies := omap5_sdp5430_vmmc3_supply |}.

End Regulators.

(** ** Build configuration

    The preprocessor symbols that select code in this file, and the
    pieces of other kernel files the init path uses: the macro
    [OMAP_GPIO_IRQ] and the length of the LPDDR2 timings table. *)

Record build : Type := {
  CONFIG_OMAP5_SEVM_PALMAS : bool;
  CONFIG_WL12XX_PLATFORM_DATA : bool;
  CONFIG_OMAP_MUX : bool;
  OMAP_GPIO_IRQ : Z -> Z;
  lpddr2_elpida_4G_S4_timings_size : Z
}.

(** ** GPIO numbers (source lines 65-71, 329, 1273-1279) *)

Definition OMAP5_TOUCH_IRQ_1 : Z := 179.
Definition OMAP5_TOUCH_RESET : Z := 230.
Definition GPIO_WIFI_PMENA : Z := 140.
Definition HDMI_OE_GPIO : Z := 256.
Definition HDMI_HPD_EN_GPIO : Z := 257.
Definition HDMI_GPIO_HPD : Z := 193.
Definition GPIO_ETH_NRESET_SEVM : Z := 172.
Definition GPIO_ETH_NRESET_UEVM : Z := 15.
Definition GPIO_HUB_NRESET_SEVM : Z := 173.
Definition GPIO_HUB_NRESET_UEVM : Z := 80.

(** ** Addresses of static objects

    A pointer to a static object of this file (or to an external table
    the file passes on) is the name of that object. *)

Inductive static_ref : Type :=
  | addr_gpio_led_info
  | addr_palmas_omap5
  | addr_twl6040_codec
  | addr_twl6040_vibra
  | addr_twl6040_data
  | addr_omap5evm_abe_audio_data
  | addr_i2c_gpio_pdata
  | addr_omap5_kp_data
  | addr_omap_5430evm_gpio_expander_info_0
  | addr_sdp5430_vwlan
  | addr_omap5_sdp5430_wlan_data
  | addr_board_mux
  | addr_omap5432_common_mux
  | addr_omap5432_sevm_mux
  | addr_omap5432_uevm_mux
  | addr_omap5evm_fixup_mac_device_paths
  | addr_omap5evm_devices
  | addr_omap5evm_dss_data
  | addr_evm5430_keypad_data
  | addr_keypad_data
  | addr_omap5evm_rprm_regulators
  | addr_custom_configs
  | addr_lpddr2_elpida_4G_S4_x2_info
  | addr_lpddr2_elpida_4G_S4_timings
  | addr_lpddr2_elpida_S4_min_tck.

(** ** Platform devices (source lines 113-119, 810-857, 877-881, 1224-1230) *)

Record platform_device : Type := {
  pdev_name : string;
  pdev_id : Z;
  pdev_platform_data : option static_ref
}.

Definition leds_gpio : platform_device :=
  {| pdev_name := "leds-gpio"; pdev_id := -1;
     pdev_platform_data := Some addr_gpio_led_info |}.

Definition omap5evm_dmic_codec : platform_device :=
  {| pdev_name := "dmic-codec"; pdev_id := -1; pdev_platform_data := None |}.

Definition omap5evm_abe_audio : platform_device :=
  {| pdev_name := "omap-abe-twl6040"; pdev_id := -1;
     pdev_platform_data := Some addr_omap5evm_abe_audio_data |}.

Definition omap5evm_hdmi_audio_codec : platform_device :=
  {| pdev_name := "hdmi-audio-codec"; pdev_id := -1;
     pdev_platform_data := None |}.

Definition omap5evm_devices : list platform_device :=
  [omap5evm_dmic_codec; omap5evm_hdmi_audio_codec; omap5evm_abe_audio;
   leds_gpio].

Definition hdmi_edid_device : platform_device :=
  {| pdev_name := "i2c-gpio"; pdev_id := -1;
     pdev_platform_data := Some addr_i2c_gpio_pdata |}.

Definition omap_vwlan_device : platform_device :=
  {| pdev_name := "reg-fixed-voltage"; pdev_id := 1;
     pdev_platform_data := Some addr_sdp5430_vwlan |}.

(** ** Audio codec data (source lines 803-808) *)

Inductive irq_base_name : Type := TWL6040_CODEC_IRQ_BASE.

Record twl6040_platform_data : Type := {
  codec : static_ref;
  vibra : static_ref;
  audpwron_gpio : Z;
  irq_base : irq_base_name
}.

Definition twl6040_data_init : twl6040_platform_data :=
  {| codec := addr_twl6040_codec;
     vibra := addr_twl6040_vibra;
     audpwron_gpio := 145;
     irq_base := TWL6040_CODEC_IRQ_BASE |}.

(** ** I2C device tables (source lines 859-897, 1109-1127) *)

(** An interrupt line is a number or one of the two named lines of
    the OMAP4/5 interrupt map; a field left out is [IRQ 0]. *)
Inductive irq_line : Type :=
  | IRQ (n : Z)
  | OMAP44XX_IRQ_SYS_1N
  | OMAP44XX_IRQ_SYS_2N.

(** [I2C_BOARD_INFO(type, addr)] with the optional fields. *)
Record i2c_board_info : Type := {
  i2c_type : string;
  i2c_addr : Z;
  i2c_platform_data : option static_ref;
  i2c_irq : irq_line
}.

(** The EDID EEPROM of a monitor answers at address 0x50 (source lines
    859-862). *)
Definition DDC_ADDR : Z := 0x50.

Definition hdmi_i2c_eeprom : list i2c_board_info :=
  [ {| i2c_type := "eeprom"; i2c_addr := DDC_ADDR;
       i2c_platform_data := None; i2c_irq := IRQ 0 |} ].

Definition omap5evm_i2c_1_boardinfo (cfg : build) : list i2c_board_info :=
  (if CONFIG_OMAP5_SEVM_PALMAS cfg
   then [ {| i2c_type := "twl6035"; i2c_addr := 0x48;
             i2c_platform_data := Some addr_palmas_omap5;
             i2c_irq := OMAP44XX_IRQ_SYS_1N |} ]
   else [])
  ++ [ {| i2c_type := "twl6040"; i2c_addr := 0x4b;
          i2c_platform_data := Some addr_twl6040_data;
          i2c_irq := OMAP44XX_IRQ_SYS_2N |} ].

Definition omap5evm_i2c_5_boardinfo : list i2c_board_info :=
  [ {| i2c_type := "smsc"; i2c_addr := 0x38;
       i2c_platform_data := Some addr_omap5_kp_data;
       i2c_irq := IRQ 151 |};
    {| i2c_type := "tca6424"; i2c_addr := 0x22;
       i2c_platform_data := Some addr_omap_5430evm_gpio_expander_info_0;
       i2c_irq := IRQ 0 |} ].

(** ** I2C bus board data (source lines 302-324)

    The three fields of [struct omap_i2c_bus_board_data] the file
    writes.  The five static objects are zero until initialised. *)

Inductive kernel_fn : Type :=
  | fn_hwspin_lock_timeout
  | fn_hwspin_unlock.

Record omap_i2c_bus_board_data : Type := {
  handle : Z;
  hwspin_lock_timeout : option kernel_fn;
  hwspin_unlock : option kernel_fn
}.

Definition zero_bus_pdata : omap_i2c_bus_board_data :=
  {| handle := NULL; hwspin_lock_timeout := None; hwspin_unlock := None |}.

Inductive i2c_bus_pdata_ref : Type :=
  | addr_sdp4430_i2c_1_bus_pdata
  | addr_sdp4430_i2c_2_bus_pdata
  | addr_sdp4430_i2c_3_bus_pdata
  | addr_sdp4430_i2c_4_bus_pdata
  | addr_sdp4430_i2c_5_bus_pdata.

(** ** MMC controllers (source lines 1172-1199) *)

Inductive mmc_cap : Type :=
  | MMC_CAP_4_BIT_DATA | MMC_CAP_8_BIT_DATA | MMC_CAP_1_8V_DDR
  | MMC_CAP_UHS_SDR12 | MMC_CAP_UHS_SDR25 | MMC_CAP_UHS_DDR50
  | MMC_CAP_POWER_OFF_CARD.

Inductive mmc_vdd : Type := MMC_VDD_29_30 | MMC_VDD_165_195.

Record omap2_hsmmc_info : Type := {
  mmc_ctrl : Z;
  caps : list mmc_cap;
  gpio_cd : Z;
  gpio_wp : Z;
  nonremovable : bool;
  ocr_mask : option mmc_vdd;
  no_off_init : bool
}.

Definition mmc_terminator : omap2_hsmmc_info :=
  {| mmc_ctrl := 0; caps := []; gpio_cd := 0; gpio_wp := 0;
     nonremovable := false; ocr_mask := None; no_off_init := false |}.

Definition mmc_init : list omap2_hsmmc_info := [
  {| mmc_ctrl := 2;
     caps := [MMC_CAP_4_BIT_DATA; MMC_CAP_8_BIT_DATA; MMC_CAP_1_8V_DDR];
     gpio_cd := - EINVAL;
     gpio_wp := - EINVAL;
     nonremovable := true;
     ocr_mask := Some MMC_VDD_29_30;
     no_off_init := true |};
  {| mmc_ctrl := 1;
     caps := [MMC_CAP_4_BIT_DATA; MMC_CAP_UHS_SDR12; MMC_CAP_UHS_SDR25;
              MMC_CAP_UHS_DDR50];
     gpio_cd := 67;
     gpio_wp := - EINVAL;
     nonremovable := false;
     ocr_mask := None;
     no_off_init := false |};
  {| mmc_ctrl := 3;
     caps := [MMC_CAP_4_BIT_DATA; MMC_CAP_POWER_OFF_CARD];
     gpio_cd := - EINVAL;
     gpio_wp := - EINVAL;
     nonremovable := true;
     ocr_mask := Some MMC_VDD_165_195;
     no_off_init := false |};
  mmc_terminator
].

(** ** WLAN (source lines 1201-1255) *)

Inductive wl12xx_clock : Type :=
  | WL12XX_CLOCK_UNSET | WL12XX_REFCLOCK_26 | WL12XX_TCXOCLOCK_26.

Record wl12xx_platform_data : Type := {
  wl_irq : Z;
  board_ref_clock : wl12xx_clock;
  board_tcxo_clock : wl12xx_clock
}.

Definition omap5_sdp5430_wlan_data_init : wl12xx_platform_data :=
  {| wl_irq := 0;
     board_ref_clock := WL12XX_REFCLOCK_26;
     board_tcxo_clock := WL12XX_TCXOCLOCK_26 |}.

Record fixed_voltage_config : Type := {
  supply_name : string;
  microvolts : Z;
  fv_gpio : Z;
  startup_delay : Z;
  enable_high : bool;
  enabled_at_boot : bool
}.

Definition sdp5430_vwlan : fixed_voltage_config :=
  {| supply_name := "vwl1271";
     microvolts := 1800000;
     fv_gpio := GPIO_WIFI_PMENA;
     startup_delay := 70000;
     enable_high := true;
     enabled_at_boot := false |}.

(** ** USB host (source lines 1273-1289) *)

Inductive usbhs_port_mode : Type :=
  | OMAP_USBHS_PORT_MODE_UNUSED
  | OMAP_EHCI_PORT_MODE_HSIC.

Record usbhs_omap_board_data : Type := {
  port_mode : list usbhs_port_mode;
  phy_reset : bool;
  reset_gpio_port : list Z
}.

Definition usbhs_bdata_init : usbhs_omap_board_data :=
  {| port_mode := [OMAP_USBHS_PORT_MODE_UNUSED; OMAP_EHCI_PORT_MODE_HSIC;
                   OMAP_EHCI_PORT_MODE_HSIC];
     phy_reset := true;
     reset_gpio_port := [- EINVAL; GPIO_HUB_NRESET_SEVM;
                         GPIO_ETH_NRESET_SEVM] |}.

(** ** Pin multiplexing tables (source lines 1296-1369, 1549-1560,
    1603-1694)

    A mode is the bitwise OR of named flags of mux.h, kept as the list
    of the flags. *)

Inductive mux_flag : Type :=
  | OMAP_PIN_INPUT | OMAP_PIN_INPUT_PULLUP | OMAP_PIN_OUTPUT
  | OMAP_PIN_OFF_WAKEUPENABLE | OMAP_MUX_MODE0 | OMAP_MUX_MODE6.

Record omap_mux_setting : Type := {
  mux_name : string;
  mux_mode : list mux_flag
}.

Definition omap5432_common_mux : list omap_mux_setting := [
  {| mux_name := "emmc_clk.emmc_clk";
     mux_mode := [OMAP_PIN_INPUT_PULLUP; OMAP_MUX_MODE0] |};
  {| mux_name := "emmc_cmd.emmc_cmd";
     mux_mode := [OMAP_PIN_INPUT_PULLUP; OMAP_MUX_MODE0] |};
  {| mux_name := "emmc_data0.emmc_data0";
     mux_mode := [OMAP_PIN_INPUT_PULLUP; OMAP_MUX_MODE0] |};
  {| mux_name := "emmc_data1.emmc_data1";
     mux_mode := [OMAP_PIN_INPUT_PULLUP; OMAP_MUX_MODE0] |};
  {| mux_name := "emmc_data2.emmc_data2";
     mux_mode := [OMAP_PIN_INPUT_PULLUP; OMAP_MUX_MODE0] |};
  {| mux_name := "emmc_data3.emmc_data3";
     mux_mode := [OMAP_PIN_INPUT_PULLUP; OMAP_MUX_MODE0] |};
  {| mux_name := "emmc_data4.emmc_data4";
     mux_mode := [OMAP_PIN_INPUT_PULLUP; OMAP_MUX_MODE0] |};
  {| mux_name := "emmc_data5.emmc_data5";
     mux_mode := [OMAP_PIN_INPUT_PULLUP; OMAP_MUX_MODE0] |};
  {| mux_name := "emmc_data6.emmc_data6";
     mux_mode := [OMAP_PIN_INPUT_PULLUP; OMAP_MUX_MODE0] |};
  {| mux_name := "emmc_data7.emmc_data7";
     mux_mode := [OMAP_PIN_INPUT_PULLUP; OMAP_MUX_MODE0] |};
  {| mux_name := "abemcpdm_lb_clk.abemcpdm_lb_clk";
     mux_mode := [OMAP_PIN_INPUT; OMAP_MUX_MODE0] |};
  {| mux_name := "abemcpdm_frame.abemcpdm_frame";
     mux_mode := [OMAP_PIN_INPUT; OMAP_MUX_MODE0] |};
  {| mux_name := "abemcpdm_dl_data.abemcpdm_dl_data";
     mux_mode := [OMAP_PIN_INPUT; OMAP_MUX_MODE0] |};
  {| mux_name := "abemcpdm_ul_data.abemcpdm_ul_data";
     mux_mode := [OMAP_PIN_INPUT; OMAP_MUX_MODE0] |};
  {| mux_name := "abe_clks.abe_clks";
     mux_mode := [OMAP_PIN_INPUT; OMAP_MUX_MODE0] |}
].

Definition omap5432_sevm_mux : list omap_mux_setting := [
  {| mux_name := "rfbi_data6.gpio6_172";
     mux_mode := [OMAP_PIN_OUTPUT; OMAP_MUX_MODE6] |};
  {| mux_name := "rfbi_data7.gpio6_173";
     mux_mode := [OMAP_PIN_OUTPUT; OMAP_MUX_MODE6] |}
].

Definition omap5432_uevm_mux : list omap_mux_setting := [
  {| mux_name := "i2c1_pmic_scl.i2c1_pmic_scl";
     mux_mode := [OMAP_PIN_INPUT_PULLUP; OMAP_MUX_MODE0] |};
  {| mux_name := "i2c1_pmic_sda.i2c1_pmic_sda";
     mux_mode := [OMAP_PIN_INPUT_PULLUP; OMAP_MUX_MODE0] |};
  {| mux_name := "i2c5_scl.i2c5_scl";
     mux_mode := [OMAP_PIN_INPUT_PULLUP; OMAP_MUX_MODE0] |};
  {| mux_name := "i2c5_sda.i2c5_sda";
     mux_mode := [OMAP_PIN_INPUT_PULLUP; OMAP_MUX_MODE0] |};
  {| mux_name := "uart6_rts.gpio5_152";
     mux_mode := [OMAP_PIN_INPUT_PULLUP; OMAP_MUX_MODE6] |};
  {| mux_name := "hsi2_caflag.gpio3_80";
     mux_mode := [OMAP_PIN_OUTPUT] |};
  {| mux_name := "llib_wakereqin.gpio1_wk15";
     mux_mode := [OMAP_PIN_OUTPUT; OMAP_MUX_MODE6] |};
  {| mux_name := "hdmi_cec.hdmi_cec";
     mux_mode := [OMAP_PIN_INPUT; OMAP_MUX_MODE0] |};
  {| mux_name := "hdmi_hpd.gpio7_193";
     mux_mode := [OMAP_PIN_INPUT; OMAP_MUX_MODE6] |};
  {| mux_name := "hdmi_ddc_scl.gpio7_194";
     mux_mode := [OMAP_PIN_INPUT_PULLUP; OMAP_MUX_MODE6] |};
  {| mux_name := "hdmi_ddc_sda.gpio7_195";
     mux_mode := [OMAP_PIN_INPUT_PULLUP; OMAP_MUX_MODE6] |};
  {| mux_name := "usbb2_hsic_strobe.usbb2_hsic_strobe";
     mux_mode := [OMAP_PIN_INPUT; OMAP_MUX_MODE0] |};
  {| mux_name := "usbb2_hsic_data.usbb2_hsic_data";
     mux_mode := [OMAP_PIN_INPUT; OMAP_MUX_MODE0] |};
  {| mux_name := "usbb3_hsic_strobe.usbb3_hsic_strobe";
     mux_mode := [OMAP_PIN_INPUT; OMAP_MUX_MODE0] |};
  {| mux_name := "usbb3_hsic_data.usbb3_hsic_data";
     mux_mode := [OMAP_PIN_INPUT; OMAP_MUX_MODE0] |};
  {| mux_name := "fref_clk1_out.fref_clk1_out";
     mux_mode := [OMAP_PIN_OUTPUT] |};
  {| mux_name := "fref_clk0_out.fref_clk0_out";
     mux_mode := [OMAP_PIN_OUTPUT] |};
  {| mux_name := "mcspi1_somi.gpio5_141";
     mux_mode := [OMAP_PIN_OUTPUT; OMAP_MUX_MODE6] |}
].

(** [board_mux] is a table (holding only the terminator) under
    [CONFIG_OMAP_MUX] and [NULL] otherwise. *)
Definition board_mux (cfg : build) : option static_ref :=
  if CONFIG_OMAP_MUX cfg then Some addr_board_mux else None.

(** ** MAC fix-up paths and camera regulators (source lines 1371-1379,
    1563-1573) *)

Definition omap5evm_fixup_mac_device_paths : list string :=
  ["1-3:1.0"; "mmc2:0001:2"].

Record omap_rprm_regulator : Type := {
  rprm_name : string;
  rprm_fixed : bool
}.

Definition omap5evm_rprm_regulators : list omap_rprm_regulator :=
  [ {| rprm_name := "cam2pwr"; rprm_fixed := true |};
    {| rprm_name := "cam2csi"; rprm_fixed := true |} ].

(** ** Display (source lines 1381-1383, 1424-1511) *)

Record panel_lg4591_data : Type := {
  reset_gpio : Z;
  num_pins : Z;
  pins : list Z
}.

Definition dsi_panel : panel_lg4591_data :=
  {| reset_gpio := 183; num_pins := 8; pins := [0; 1; 2; 3; 4; 5; 6; 7] |}.

Inductive omap_display_type : Type :=
  | OMAP_DISPLAY_TYPE_DSI | OMAP_DISPLAY_TYPE_HDMI.

Inductive omap_channel : Type :=
  | OMAP_DSS_CHANNEL_LCD | OMAP_DSS_CHANNEL_DIGIT.

Record omap_dss_device : Type := {
  dss_name : string;
  driver_name : string;
  dss_type : omap_display_type;
  dss_channel : omap_channel
}.

Definition omap5evm_lcd_device : omap_dss_device :=
  {| dss_name := "lcd"; driver_name := "lg4591";
     dss_type := OMAP_DISPLAY_TYPE_DSI;
     dss_channel := OMAP_DSS_CHANNEL_LCD |}.

Definition omap5evm_hdmi_device : omap_dss_device :=
  {| dss_name := "hdmi"; driver_name := "hdmi_panel";
     dss_type := OMAP_DISPLAY_TYPE_HDMI;
     dss_channel := OMAP_DSS_CHANNEL_DIGIT |}.

(** Pointers to the two display devices. *)
Inductive dss_device_ref : Type :=
  | addr_omap5evm_lcd_device
  | addr_omap5evm_hdmi_device.

Definition dss_device_at (p : dss_device_ref) : omap_dss_device :=
  match p with
  | addr_omap5evm_lcd_device => omap5evm_lcd_device
  | addr_omap5evm_hdmi_device => omap5evm_hdmi_device
  end.

Definition omap5evm_dss_devices : list dss_device_ref :=
  [addr_omap5evm_lcd_device; addr_omap5evm_hdmi_device].

Record omap_dss_board_info : Type := {
  num_devices : Z;
  devices : list dss_device_ref;
  default_device : dss_device_ref
}.

Definition omap5evm_dss_data : omap_dss_board_info :=
  {| num_devices := ARRAY_SIZE omap5evm_dss_devices;
     devices := omap5evm_dss_devices;
     default_device := addr_omap5evm_hdmi_device |}.

(** ** The mutable statics

    The static objects of the file that some routine assigns to.  Every
    other table above is never assigned in the file and is a constant. *)

Record statics : Type := {
  gpio_wlan_irq : Z;
  sdp4430_i2c_1_bus_pdata : omap_i2c_bus_board_data;
  sdp4430_i2c_2_bus_pdata : omap_i2c_bus_board_data;
  sdp4430_i2c_3_bus_pdata : omap_i2c_bus_board_data;
  sdp4430_i2c_4_bus_pdata : omap_i2c_bus_board_data;
  sdp4430_i2c_5_bus_pdata : omap_i2c_bus_board_data;
  twl6040_data : twl6040_platform_data;
  mmc : list omap2_hsmmc_info;
  omap5_sdp5430_wlan_data : wl12xx_platform_data;
  usbhs_bdata : usbhs_omap_board_data
}.

(** The statics as their initialisers leave them. *)
Definition boot : statics :=
  {| gpio_wlan_irq := 9;
     sdp4430_i2c_1_bus_pdata := zero_bus_pdata;
     sdp4430_i2c_2_bus_pdata := zero_bus_pdata;
     sdp4430_i2c_3_bus_pdata := zero_bus_pdata;
     sdp4430_i2c_4_bus_pdata := zero_bus_pdata;
     sdp4430_i2c_5_bus_pdata := zero_bus_pdata;
     twl6040_data := twl6040_data_init;
     mmc := mmc_init;
     omap5_sdp5430_wlan_data := omap5_sdp5430_wlan_data_init;
     usbhs_bdata := usbhs_bdata_init |}.

(** [*pdata] and [*pdata = d]. *)
Definition load_bus_pdata (p : i2c_bus_pdata_ref) (sd : statics)
  : omap_i2c_bus_board_data :=
  match p with
  | addr_sdp4430_i2c_1_bus_pdata => sdp4430_i2c_1_bus_pdata sd
  | addr_sdp4430_i2c_2_bus_pdata => sdp4430_i2c_2_bus_pdata sd
  | addr_sdp4430_i2c_3_bus_pdata => sdp4430_i2c_3_bus_pdata sd
  | addr_sdp4430_i2c_4_bus_pdata => sdp4430_i2c_4_bus_pdata sd
  | addr_sdp4430_i2c_5_bus_pdata => sdp4430_i2c_5_bus_pdata sd
  end.

Definition store_bus_pdata (p : i2c_bus_pdata_ref)
    (d : omap_i2c_bus_board_data) (sd : statics) : statics :=
  {| gpio_wlan_irq := gpio_wlan_irq sd;
     sdp4430_i2c_1_bus_pdata :=
       match p with addr_sdp4430_i2c_1_bus_pdata => d
                  | _ => sdp4430_i2c_1_bus_pdata sd end;
     sdp4430_i2c_2_bus_pdata :=
       match p with addr_sdp4430_i2c_2_bus_pdata => d
                  | _ => sdp4430_i2c_2_bus_pdata sd end;
     sdp4430_i2c_3_bus_pdata :=
       match p with addr_sdp4430_i2c_3_bus_pdata => d
                  | _ => sdp4430_i2c_3_bus_pdata sd end;
     sdp4430_i2c_4_bus_pdata :=
       match p with addr_sdp4430_i2c_4_bus_pdata => d
                  | _ => sdp4430_i2c_4_bus_pdata sd end;
     sdp4430_i2c_5_bus_pdata :=
       match p with addr_sdp4430_i2c_5_bus_pdata => d
                  | _ => sdp4430_i2c_5_bus_pdata sd end;
     twl6040_data := twl6040_data sd;
     mmc := mmc sd;
     omap5_sdp5430_wlan_data := omap5_sdp5430_wlan_data sd;
     usbhs_bdata := usbhs_bdata sd |}.

(** Field assignments. *)
Definition set_handle (h : Z) (d : omap_i2c_bus_board_data) :=
  {| handle := h;
     hwspin_lock_timeout := hwspin_lock_timeout d;
     hwspin_unlock := hwspin_unlock d |}.

Definition set_hwspin_lock_timeout (f : option kernel_fn)
    (d : omap_i2c_bus_board_data) :=
  {| handle := handle d;
     hwspin_lock_timeout := f;
     hwspin_unlock := hwspin_unlock d |}.

Definition set_hwspin_unlock (f : option kernel_fn)
    (d : omap_i2c_bus_board_data) :=
  {| handle := handle d;
     hwspin_lock_timeout := hwspin_lock_timeout d;
     hwspin_unlock := f |}.

Definition set_gpio_wlan_irq (v : Z) (sd : statics) : statics :=
  {| gpio_wlan_irq := v;
     sdp4430_i2c_1_bus_pdata := sdp4430_i2c_1_bus_pdata sd;
     sdp4430_i2c_2_bus_pdata := sdp4430_i2c_2_bus_pdata sd;
     sdp4430_i2c_3_bus_pdata := sdp4430_i2c_3_bus_pdata sd;
     sdp4430_i2c_4_bus_pdata := sdp4430_i2c_4_bus_pdata sd;
     sdp4430_i2c_5_bus_pdata := sdp4430_i2c_5_bus_pdata sd;
     twl6040_data := twl6040_data sd;
     mmc := mmc sd;
     omap5_sdp5430_wlan_data := omap5_sdp5430_wlan_data sd;
     usbhs_bdata := usbhs_bdata sd |}.

Definition set_twl6040_data (v : twl6040_platform_data) (sd : statics)
  : statics :=
  {| gpio_wlan_irq := gpio_wlan_irq sd;
     sdp4430_i2c_1_bus_pdata := sdp4430_i2c_1_bus_pdata sd;
     sdp4430_i2c_2_bus_pdata := sdp4430_i2c_2_bus_pdata sd;
     sdp4430_i2c_3_bus_pdata := sdp4430_i2c_3_bus_pdata sd;
     sdp4430_i2c_4_bus_pdata := sdp4430_i2c_4_bus_pdata sd;
     sdp4430_i2c_5_bus_pdata := sdp4430_i2c_5_bus_pdata sd;
     twl6040_data := v;
     mmc := mmc sd;
     omap5_sdp5430_wlan_data := omap5_sdp5430_wlan_data sd;
     usbhs_bdata := usbhs_bdata sd |}.

Definition set_mmc (v : list omap2_hsmmc_info) (sd : statics) : statics :=
  {| gpio_wlan_irq := gpio_wlan_irq sd;
     sdp4430_i2c_1_bus_pdata := sdp4430_i2c_1_bus_pdata sd;
     sdp4430_i2c_2_bus_pdata := sdp4430_i2c_2_bus_pdata sd;
     sdp4430_i2c_3_bus_pdata := sdp4430_i2c_3_bus_pdata sd;
     sdp4430_i2c_4_bus_pdata := sdp4430_i2c_4_bus_pdata sd;
     sdp4430_i2c_5_bus_pdata := sdp4430_i2c_5_bus_pdata sd;
     twl6040_data := twl6040_data sd;
     mmc := v;
     omap5_sdp5430_wlan_data := omap5_sdp5430_wlan_data sd;
     usbhs_bdata := usbhs_bdata sd |}.

Definition set_omap5_sdp5430_wlan_data (v : wl12xx_platform_data)
    (sd : statics) : statics :=
  {| gpio_wlan_irq := gpio_wlan_irq sd;
     sdp4430_i2c_1_bus_pdata := sdp4430_i2c_1_bus_pdata sd;
     sdp4430_i2c_2_bus_pdata := sdp4430_i2c_2_bus_pdata sd;
     sdp4430_i2c_3_bus_pdata := sdp4430_i2c_3_bus_pdata sd;
     sdp4430_i2c_4_bus_pdata := sdp4430_i2c_4_bus_pdata sd;
     sdp4430_i2c_5_bus_pdata := sdp4430_i2c_5_bus_pdata sd;
     twl6040_data := twl6040_data sd;
     mmc := mmc sd;
     omap5_sdp5430_wlan_data := v;
     usbhs_bdata := usbhs_bdata sd |}.

Definition set_usbhs_bdata (v : usbhs_omap_board_data) (sd : statics)
  : statics :=
  {| gpio_wlan_irq := gpio_wlan_irq sd;
     sdp4430_i2c_1_bus_pdata := sdp4430_i2c_1_bus_pdata sd;
     sdp4430_i2c_2_bus_pdata := sdp4430_i2c_2_bus_pdata sd;
     sdp4430_i2c_3_bus_pdata := sdp4430_i2c_3_bus_pdata sd;
     sdp4430_i2c_4_bus_pdata := sdp4430_i2c_4_bus_pdata sd;
     sdp4430_i2c_5_bus_pdata := sdp4430_i2c_5_bus_pdata sd;
     twl6040_data := twl6040_data sd;
     mmc := mmc sd;
     omap5_sdp5430_wlan_data := omap5_sdp5430_wlan_data sd;
     usbhs_bdata := v |}.

(** [t[i] = v] on an array; the indices used in the file are constants
    inside the array. *)
Fixpoint array_set {A : Type} (i : nat) (v : A) (t : list A) : list A :=
  match t, i with
  | [], _ => []
  | _ :: r, O => v :: r
  | x :: r, S j => x :: array_set j v r
  end.

Definition array_upd {A : Type} (i : nat) (f : A -> A) (t : list A)
  : list A :=
  match nth_error t i with
  | Some x => array_set i (f x) t
  | None => t
  end.

Definition set_gpio_cd (v : Z) (c : omap2_hsmmc_info) : omap2_hsmmc_info :=
  {| mmc_ctrl := mmc_ctrl c; caps := caps c; gpio_cd := v;
     gpio_wp := gpio_wp c; nonremovable := nonremovable c;
     ocr_mask := ocr_mask c; no_off_init := no_off_init c |}.

Definition set_reset_gpio_port (i : nat) (v : Z)
    (b : usbhs_omap_board_data) : usbhs_omap_board_data :=
  {| port_mode := port_mode b; phy_reset := phy_reset b;
     reset_gpio_port := array_set i v (reset_gpio_port b) |}.

Definition set_audpwron_gpio (v : Z) (d : twl6040_platform_data)
  : twl6040_platform_data :=
  {| codec := codec d; vibra := vibra d; audpwron_gpio := v;
     irq_base := irq_base d |}.

Definition set_wl_irq (v : Z) (d : wl12xx_platform_data)
  : wl12xx_platform_data :=
  {| wl_irq := v; board_ref_clock := board_ref_clock d;
     board_tcxo_clock := board_tcxo_clock d |}.

(** ** Kernel calls, their results and the trace *)

Inductive gpiof : Type :=
  | GPIOF_IN | GPIOF_DIR_IN | GPIOF_DIR_OUT | GPIOF_OUT_INIT_HIGH.

Inductive omap_package : Type := OMAP_PACKAGE_CBL.

(** What [clk_get] returns: an error pointer [ERR_PTR(errno)] or the
    address of a clock. *)
Inductive clk_ptr : Type :=
  | ERR_PTR (errno : Z)
  | clk_at (addr : Z).

Definition IS_ERR (c : clk_ptr) : bool :=
  match c with ERR_PTR _ => true | clk_at _ => false end.

(** The calls into the rest of the kernel, with their arguments.
    Constant tables are passed by name or by value; [mmc],
    [usbhs_bdata] and the WLAN data are passed as they are at the time
    of the call. *)
Inductive kcall : Type :=
  | call_omap5_mux_init (board_subset board_wkup : option static_ref)
      (package : omap_package)
  | call_omap_mux_init_array (tbl : static_ref) (n : Z)
  | call_omap_mux_init_gpio (gpio : Z) (flags : list mux_flag)
  | call_omap_mux_init_signal (muxname : string) (flags : list mux_flag)
  | call_omap_writel (v addr : Z)
  | call_gpio_request (gpio : Z) (label : string)
  | call_gpio_request_one (gpio : Z) (flags : gpiof) (label : string)
  | call_gpio_direction_input (gpio : Z)
  | call_gpio_direction_output (gpio value : Z)
  | call_gpio_set_value_cansleep (gpio value : Z)
  | call_gpio_free (gpio : Z)
  | call_mdelay (ms : Z)
  | call_omap5evm_sensor_init
  | call_hwspin_lock_request
  | call_hwspin_lock_request_specific (id : Z)
  | call_omap_register_i2c_bus_board_data (bus : Z)
      (pdata : i2c_bus_pdata_ref)
  | call_omap_register_i2c_bus (bus khz : Z)
      (info : option (list i2c_board_info)) (len : Z)
  | call_wl12xx_set_platform_data (data : wl12xx_platform_data)
  | call_platform_device_register (dev : platform_device)
  | call_platform_add_devices (devs : list platform_device) (n : Z)
  | call_omap_emif_set_device_details (emif : Z)
      (info timings : static_ref) (len : Z) (min_tck custom : static_ref)
  | call_omap_register_mac_device_fixup_paths (paths : list string) (n : Z)
  | call_omap_serial_board_init (info : option static_ref) (port : Z)
  | call_omap_sdrc_init (sdrc_cs0 sdrc_cs1 : option static_ref)
  | call_omap_hsmmc_init (controllers : list omap2_hsmmc_info)
  | call_i2c_register_board_info (busnum : Z)
      (info : list i2c_board_info) (len : Z)
  | call_usbhs_init (bdata : usbhs_omap_board_data)
  | call_omap_hdmi_init (flags : Z)
  | call_omap_display_init (board_data : static_ref)
  | call_omap4_keyboard_init (kp bdata : static_ref)
  | call_omap_rprm_regulator_init (regs : list omap_rprm_regulator) (n : Z)
  | call_clk_get (dev : Z) (con_id : string)
  | call_clk_set_rate (clk : clk_ptr) (rate : Z)
  | call_clk_enable (clk : clk_ptr).

(** The result of a call, where the file looks at it or a claim is
    about it; [RVoid] for the other calls. *)
Inductive kret : Type :=
  | RVoid
  | RInt (r : Z)
  | RPtr (p : Z)
  | RClk (c : clk_ptr).

(** The routines of this file. *)
Inductive routine : Type :=
  | rt_omap_i2c_hwspinlock_init
  | rt_omap_5430evm_i2c_init
  | rt_omap5evm_touch_init
  | rt_omap5_sdp5430_wifi_mux_init
  | rt_omap5_sdp5430_wifi_init
  | rt_omap_ehci_ohci_init
  | rt_omap5evm_lcd_init
  | rt_omap5evm_hdmi_init
  | rt_omap5evm_display_init
  | rt_omap5evm_panel_enable_hdmi
  | rt_omap5evm_panel_disable_hdmi
  | rt_omap54xx_common_init
  | rt_omap_5430_sevm_init
  | rt_omap_5432_uevm_init
  | rt_omap_54xx_init.

Inductive log_level : Type := KERN_ERR | KERN_INFO.

Inductive log_arg : Type :=
  | arg_int (n : Z)
  | arg_str (s : string).

(** One step of a run: a routine of the file is entered, the kernel is
    called and answers, or a message is logged.  Format strings are
    kept as they are written in the source. *)
Inductive event : Type :=
  | Enter (f : routine)
  | KCall (c : kcall) (r : kret)
  | Log (lvl : log_level) (fmt : string) (args : list log_arg).

(** The answers of the kernel.  The first argument is the number of
    kernel calls made before this one, so that the same request may be
    answered differently at different times.  A call into the kernel
    does not write the statics of this file. *)
Record kernel : Type := {
  ret_gpio_request : nat -> Z -> string -> Z;
  ret_gpio_request_one : nat -> Z -> gpiof -> string -> Z;
  ret_hwspin_lock_request : nat -> Z;
  ret_hwspin_lock_request_specific : nat -> Z -> Z;
  ret_wl12xx_set_platform_data : nat -> Z;
  ret_omap4_keyboard_init : nat -> Z;
  ret_clk_get : nat -> string -> clk_ptr
}.

(** ** The monad

    A routine maps the statics and the number of kernel calls made so
    far to its result, the new statics, the new count, and the events
    it produced. *)

Record outcome (A : Type) : Type := mkOutcome {
  value : A;
  mem : statics;
  ticks : nat;
  events : list event
}.

Definition M (A : Type) : Type := statics -> nat -> outcome A.

Definition ret {A : Type} (a : A) : M A :=
  fun sd n => mkOutcome a sd n [].

Definition bind {A B : Type} (m : M A) (f : A -> M B) : M B :=
  fun sd n =>
    let r1 := m sd n in
    let r2 := f (value r1) (mem r1) (ticks r1) in
    mkOutcome (value r2) (mem r2) (ticks r2) (events r1 ++ events r2).

Declare Scope board_scope.
Delimit Scope board_scope with board.
Notation "x <- m ;; k" := (bind m (fun x => k))
  (at level 61, m at next level, right associativity) : board_scope.
Notation "m ;; k" := (bind m (fun _ => k))
  (at level 61, right associativity) : board_scope.
Local Open Scope board_scope.

Definition gets {A : Type} (f : statics -> A) : M A :=
  fun sd n => mkOutcome (f sd) sd n [].

Definition modify (f : statics -> statics) : M unit :=
  fun sd n => mkOutcome tt (f sd) n [].

Definition emit (e : event) : M unit :=
  fun sd n => mkOutcome tt sd n [e].

Definition when (b : bool) (m : M unit) : M unit :=
  if b then m else ret tt.

Definition enter (f : routine) : M unit := emit (Enter f).

Definition pr_err (fmt : string) (args : list log_arg) : M unit :=
  emit (Log KERN_ERR fmt args).

Definition pr_info (fmt : string) (args : list log_arg) : M unit :=
  emit (Log KERN_INFO fmt args).

Definition printk (lvl : log_level) (fmt : string) (args : list log_arg)
  : M unit :=
  emit (Log lvl fmt args).

(** A call whose result the file does not use. *)
Definition kcall_void (c : kcall) : M unit :=
  fun sd n => mkOutcome tt sd (S n) [KCall c RVoid].

Definition kcall_int (c : kcall) (answer : nat -> Z) : M Z :=
  fun sd n => mkOutcome (answer n) sd (S n) [KCall c (RInt (answer n))].

Definition kcall_ptr (c : kcall) (answer : nat -> Z) : M Z :=
  fun sd n => mkOutcome (answer n) sd (S n) [KCall c (RPtr (answer n))].

Definition kcall_clk (c : kcall) (answer : nat -> clk_ptr) : M clk_ptr :=
  fun sd n => mkOutcome (answer n) sd (S n) [KCall c (RClk (answer n))].

(** ** C strings

    A character array is the string of its bytes, followed by a NUL
    byte; [strcmp] compares up to the first NUL. *)

Definition is_nul (c : ascii) : bool := (Z.of_nat (nat_of_ascii c) =? 0).

Fixpoint strcmp (s1 s2 : string) : Z :=
  match s1, s2 with
  | String c1 r1, String c2 r2 =>
      if Ascii.eqb c1 c2
      then (if is_nul c1 then 0 else strcmp r1 r2)
      else Z.of_nat (nat_of_ascii c1) - Z.of_nat (nat_of_ascii c2)
  | String c1 _, EmptyString => Z.of_nat (nat_of_ascii c1)
  | EmptyString, String c2 _ => - Z.of_nat (nat_of_ascii c2)
  | EmptyString, EmptyString => 0
  end.

(** The C string held in an array: the bytes before the first NUL. *)
Fixpoint c_str (s : string) : string :=
  match s with
  | EmptyString => EmptyString
  | String c r => if is_nul c then EmptyString else String c (c_str r)
  end.

(** ** The routines of the board file *)

Section Board.
Variable K : kernel.
Variable cfg : build.

(** *** The kernel interface, as the file calls it *)

Definition omap5_mux_init board_subset board_wkup package : M unit :=
  kcall_void (call_omap5_mux_init board_subset board_wkup package).
Definition omap_mux_init_array tbl n : M unit :=
  kcall_void (call_omap_mux_init_array tbl n).
Definition omap_mux_init_gpio gpio flags : M unit :=
  kcall_void (call_omap_mux_init_gpio gpio flags).
Definition omap_mux_init_signal muxname flags : M unit :=
  kcall_void (call_omap_mux_init_signal muxname flags).
Definition omap_writel v addr : M unit :=
  kcall_void (call_omap_writel v addr).
Definition gpio_request gpio label : M Z :=
  kcall_int (call_gpio_request gpio label)
            (fun n => ret_gpio_request K n gpio label).
Definition gpio_request_one gpio flags label : M Z :=
  kcall_int (call_gpio_request_one gpio flags label)
            (fun n => ret_gpio_request_one K n gpio flags label).
Definition gpio_direction_input gpio : M unit :=
  kcall_void (call_gpio_direction_input gpio).
Definition gpio_direction_output gpio v : M unit :=
  kcall_void (call_gpio_direction_output gpio v).
Definition gpio_set_value_cansleep gpio v : M unit :=
  kcall_void (call_gpio_set_value_cansleep gpio v).
Definition gpio_free gpio : M unit :=
  kcall_void (call_gpio_free gpio).
Definition mdelay ms : M unit :=
  kcall_void (call_mdelay ms).
Definition omap5evm_sensor_init : M unit :=
  kcall_void call_omap5evm_sensor_init.
Definition hwspin_lock_request : M Z :=
  kcall_ptr call_hwspin_lock_request (ret_hwspin_lock_request K).
Definition hwspin_lock_request_specific id : M Z :=
  kcall_ptr (call_hwspin_lock_request_specific id)
            (fun n => ret_hwspin_lock_request_specific K n id).
Definition omap_register_i2c_bus_board_data bus pdata : M unit :=
  kcall_void (call_omap_register_i2c_bus_board_data bus pdata).
Definition omap_register_i2c_bus bus khz info len : M unit :=
  kcall_void (call_omap_register_i2c_bus bus khz info len).
Definition wl12xx_set_platform_data data : M Z :=
  kcall_int (call_wl12xx_set_platform_data data)
            (ret_wl12xx_set_platform_data K).
Definition platform_device_register dev : M unit :=
  kcall_void (call_platform_device_register dev).
Definition platform_add_devices devs n : M unit :=
  kcall_void (call_platform_add_devices devs n).
Definition omap_emif_set_device_details emif info timings len min_tck custom
  : M unit :=
  kcall_void
    (call_omap_emif_set_device_details emif info timings len min_tck custom).
Definition omap_register_mac_device_fixup_paths paths n : M unit :=
  kcall_void (call_omap_register_mac_device_fixup_paths paths n).
Definition omap_serial_board_init info port : M unit :=
  kcall_void (call_omap_serial_board_init info port).
Definition omap_sdrc_init cs0 cs1 : M unit :=
  kcall_void (call_omap_sdrc_init cs0 cs1).
Definition omap_hsmmc_init controllers : M unit :=
  kcall_void (call_omap_hsmmc_init controllers).
Definition i2c_register_board_info busnum info len : M unit :=
  kcall_void (call_i2c_register_board_info busnum info len).
Definition usbhs_init bdata : M unit :=
  kcall_void (call_usbhs_init bdata).
Definition omap_hdmi_init flags : M unit :=
  kcall_void (call_omap_hdmi_init flags).
Definition omap_display_init board_data : M unit :=
  kcall_void (call_omap_display_init board_data).
Definition omap4_keyboard_init kp bdata : M Z :=
  kcall_int (call_omap4_keyboard_init kp bdata) (ret_omap4_keyboard_init K).
Definition omap_rprm_regulator_init regs n : M unit :=
  kcall_void (call_omap_rprm_regulator_init regs n).
Definition clk_get dev con_id : M clk_ptr :=
  kcall_clk (call_clk_get dev con_id) (fun n => ret_clk_get K n con_id).
Definition clk_set_rate clk rate : M unit :=
  kcall_void (call_clk_set_rate clk rate).
Definition clk_enable clk : M unit :=
  kcall_void (call_clk_enable clk).

(** *** I2C (source lines 302-318 and 1129-1155) *)

Definition omap_i2c_hwspinlock_init (bus_id spinlock_id : Z)
    (pdata : i2c_bus_pdata_ref) : M unit :=
  enter rt_omap_i2c_hwspinlock_init ;;
  (* spinlock_id should be -1 for a generic lock request *)
  (if spinlock_id <? 0
   then h <- hwspin_lock_request ;;
        modify (fun sd =>
          store_bus_pdata pdata (set_handle h (load_bus_pdata pdata sd)) sd)
   else h <- hwspin_lock_request_specific spinlock_id ;;
        modify (fun sd =>
          store_bus_pdata pdata (set_handle h (load_bus_pdata pdata sd)) sd))
  ;;
  h <- gets (fun sd => handle (load_bus_pdata pdata sd)) ;;
  if negb (h =? NULL)
  then modify (fun sd =>
         store_bus_pdata pdata
           (set_hwspin_lock_timeout (Some fn_hwspin_lock_timeout)
              (load_bus_pdata pdata sd)) sd) ;;
       modify (fun sd =>
         store_bus_pdata pdata
           (set_hwspin_unlock (Some fn_hwspin_unlock)
              (load_bus_pdata pdata sd)) sd)
  else pr_err "I2C hwspinlock request failed for bus %d\n" [arg_int bus_id].

Definition omap_5430evm_i2c_init : M Z :=
  enter rt_omap_5430evm_i2c_init ;;
  omap_i2c_hwspinlock_init 1 0 addr_sdp4430_i2c_1_bus_pdata ;;
  omap_i2c_hwspinlock_init 2 1 addr_sdp4430_i2c_2_bus_pdata ;;
  omap_i2c_hwspinlock_init 3 2 addr_sdp4430_i2c_3_bus_pdata ;;
  omap_i2c_hwspinlock_init 4 3 addr_sdp4430_i2c_4_bus_pdata ;;
  omap_i2c_hwspinlock_init 5 4 addr_sdp4430_i2c_5_bus_pdata ;;

  omap_register_i2c_bus_board_data 1 addr_sdp4430_i2c_1_bus_pdata ;;
  omap_register_i2c_bus_board_data 2 addr_sdp4430_i2c_2_bus_pdata ;;
  omap_register_i2c_bus_board_data 3 addr_sdp4430_i2c_3_bus_pdata ;;
  omap_register_i2c_bus_board_data 4 addr_sdp4430_i2c_4_bus_pdata ;;
  omap_register_i2c_bus_board_data 5 addr_sdp4430_i2c_5_bus_pdata ;;

  (if CONFIG_OMAP5_SEVM_PALMAS cfg
   then omap_register_i2c_bus 1 400 (Some (omap5evm_i2c_1_boardinfo cfg))
          (ARRAY_SIZE (omap5evm_i2c_1_boardinfo cfg))
   else omap_register_i2c_bus 1 400 None 0) ;;
  omap_register_i2c_bus 2 400 None 0 ;;
  omap_register_i2c_bus 3 400 None 0 ;;
  omap_register_i2c_bus 4 400 None 0 ;;
  omap_register_i2c_bus 5 400 (Some omap5evm_i2c_5_boardinfo)
    (ARRAY_SIZE omap5evm_i2c_5_boardinfo) ;;
  ret 0.

(** *** Touch screen (source lines 1157-1170) *)

Definition omap5evm_touch_init : M Z :=
  enter rt_omap5evm_touch_init ;;
  gpio_request OMAP5_TOUCH_IRQ_1 "atmel touch irq" ;;
  gpio_direction_input OMAP5_TOUCH_IRQ_1 ;;

  gpio_request OMAP5_TOUCH_RESET "atmel reset" ;;
  gpio_direction_output OMAP5_TOUCH_RESET 1 ;;
  mdelay 100 ;;
  gpio_direction_output OMAP5_TOUCH_RESET 0 ;;
  mdelay 100 ;;
  gpio_direction_output OMAP5_TOUCH_RESET 1 ;;

  ret 0.

(** *** WLAN (source lines 1232-1270) *)

Definition omap5_sdp5430_wifi_mux_init : M unit :=
  enter rt_omap5_sdp5430_wifi_mux_init ;;
  irq <- gets gpio_wlan_irq ;;
  omap_mux_init_gpio irq [OMAP_PIN_INPUT; OMAP_PIN_OFF_WAKEUPENABLE] ;;
  omap_mux_init_gpio GPIO_WIFI_PMENA [OMAP_PIN_OUTPUT] ;;

  omap_mux_init_signal "wlsdio_cmd.wlsdio_cmd"
    [OMAP_MUX_MODE0; OMAP_PIN_INPUT_PULLUP] ;;
  omap_mux_init_signal "wlsdio_clk.wlsdio_clk"
    [OMAP_MUX_MODE0; OMAP_PIN_INPUT_PULLUP] ;;
  omap_mux_init_signal "wlsdio_data0.wlsdio_data0"
    [OMAP_MUX_MODE0; OMAP_PIN_INPUT_PULLUP] ;;
  omap_mux_init_signal "wlsdio_data1.wlsdio_data1"
    [OMAP_MUX_MODE0; OMAP_PIN_INPUT_PULLUP] ;;
  omap_mux_init_signal "wlsdio_data2.wlsdio_data2"
    [OMAP_MUX_MODE0; OMAP_PIN_INPUT_PULLUP] ;;
  omap_mux_init_signal "wlsdio_data3.wlsdio_data3"
    [OMAP_MUX_MODE0; OMAP_PIN_INPUT_PULLUP].

Definition omap5_sdp5430_wifi_init : M unit :=
  enter rt_omap5_sdp5430_wifi_init ;;
  omap5_sdp5430_wifi_mux_init ;;

  modify (fun sd =>
    set_omap5_sdp5430_wlan_data
      (set_wl_irq (OMAP_GPIO_IRQ cfg (gpio_wlan_irq sd))
                  (omap5_sdp5430_wlan_data sd)) sd) ;;

  irq <- gets gpio_wlan_irq ;;
  r <- gpio_request_one irq GPIOF_IN "wlan" ;;
  when (negb (r =? 0))
    (printk KERN_INFO "wlan: IRQ gpio request failure in board file\n" []) ;;

  data <- gets omap5_sdp5430_wlan_data ;;
  r <- wl12xx_set_platform_data data ;;
  when (negb (r =? 0)) (pr_err "Error setting wl12xx data\n" []) ;;

  platform_device_register omap_vwlan_device.

(** *** USB host (source lines 1291-1294) *)

Definition omap_ehci_ohci_init : M unit :=
  enter rt_omap_ehci_ohci_init ;;
  bdata <- gets usbhs_bdata ;;
  usbhs_init bdata.

(** *** Display (source lines 1384-1418 and 1462-1486) *)

Definition omap5evm_lcd_init : M unit :=
  enter rt_omap5evm_lcd_init ;;
  r <- gpio_request_one (reset_gpio dsi_panel) GPIOF_DIR_OUT
         "lcd1_reset_gpio" ;;
  when (negb (r =? 0))
    (pr_err "%s: Could not get lcd1_reset_gpio\n"
            [arg_str "omap5evm_lcd_init"]).

Definition omap5evm_hdmi_init : M unit :=
  enter rt_omap5evm_hdmi_init ;;
  r <- gpio_request_one HDMI_GPIO_HPD GPIOF_DIR_IN "hdmi_gpio_hpd" ;;
  when (negb (r =? 0))
    (pr_err "%s: Could not get HDMI\n" [arg_str "omap5evm_hdmi_init"]) ;;

  (* Requesting HDMI HPD_EN GPIO and enable it, at bootup *)
  r <- gpio_request_one HDMI_HPD_EN_GPIO GPIOF_OUT_INIT_HIGH "HDMI_HPD_EN" ;;
  when (negb (r =? 0)) (pr_err "Failed to get HDMI HPD EN GPIO\n" []) ;;

  (* Need to configure HPD as a gpio in mux *)
  omap_hdmi_init 0.

Definition omap5evm_display_init : M unit :=
  enter rt_omap5evm_display_init ;;
  omap5evm_lcd_init ;;
  omap5evm_hdmi_init ;;
  omap_display_init addr_omap5evm_dss_data.

(** The two callbacks of the HDMI display device; they are installed in
    [omap5evm_hdmi_device] and do not run during machine init. *)
Definition omap5evm_panel_enable_hdmi : M Z :=
  enter rt_omap5evm_panel_enable_hdmi ;;
  pr_info "omap5evm_panel_enable_hdmi\n" [] ;;

  r <- gpio_request_one HDMI_HPD_EN_GPIO GPIOF_OUT_INIT_HIGH "HDMI_HPD_EN" ;;

  r <- gpio_request_one HDMI_OE_GPIO GPIOF_OUT_INIT_HIGH "HDMI_OE" ;;
  when (negb (r =? 0)) (pr_err "Failed to get HDMI OE GPIO\n" []) ;;

  ret 0.

Definition omap5evm_panel_disable_hdmi : M unit :=
  enter rt_omap5evm_panel_disable_hdmi ;;
  pr_info "omap5evm_panel_disable_hdmi\n" [] ;;

  gpio_set_value_cansleep HDMI_OE_GPIO 0 ;;

  gpio_free HDMI_OE_GPIO.

(** *** The part of machine init common to both boards (source lines
    1513-1547) *)

Definition omap54xx_common_init : M unit :=
  enter rt_omap54xx_common_init ;;
  omap_mux_init_array addr_omap5432_common_mux
    (ARRAY_SIZE omap5432_common_mux) ;;

  omap_5430evm_i2c_init ;;
  when (CONFIG_WL12XX_PLATFORM_DATA cfg) omap5_sdp5430_wifi_init ;;
  omap_emif_set_device_details 1 addr_lpddr2_elpida_4G_S4_x2_info
    addr_lpddr2_elpida_4G_S4_timings
    (lpddr2_elpida_4G_S4_timings_size cfg)
    addr_lpddr2_elpida_S4_min_tck
    addr_custom_configs ;;

  omap_emif_set_device_details 2 addr_lpddr2_elpida_4G_S4_x2_info
    addr_lpddr2_elpida_4G_S4_timings
    (lpddr2_elpida_4G_S4_timings_size cfg)
    addr_lpddr2_elpida_S4_min_tck
    addr_custom_configs ;;

  omap_register_mac_device_fixup_paths omap5evm_fixup_mac_device_paths
    (ARRAY_SIZE omap5evm_fixup_mac_device_paths) ;;

  omap_serial_board_init None 2 ;;
  omap_serial_board_init None 4 ;;
  omap_sdrc_init None None ;;
  controllers <- gets mmc ;;
  omap_hsmmc_init controllers ;;
  i2c_register_board_info 0 hdmi_i2c_eeprom (ARRAY_SIZE hdmi_i2c_eeprom) ;;
  platform_device_register hdmi_edid_device ;;
  omap_ehci_ohci_init ;;

  platform_add_devices omap5evm_devices (ARRAY_SIZE omap5evm_devices) ;;
  omap5evm_display_init.

(** *** The two board variants (source lines 1575-1601 and 1697-1728) *)

Definition omap_5430_sevm_init : M unit :=
  enter rt_omap_5430_sevm_init ;;
  pr_info "Starting 5430 sEVM setup\n" [] ;;

  omap_mux_init_array addr_omap5432_sevm_mux (ARRAY_SIZE omap5432_sevm_mux) ;;

  (* Disable pulls on DCC lines - necessary for EDID detection *)
  omap_writel 0x50000000 0x4A002E20 ;;

  omap5evm_touch_init ;;
  omap5evm_sensor_init ;;

  omap54xx_common_init ;;

  status <- omap4_keyboard_init addr_evm5430_keypad_data addr_keypad_data ;;
  when (negb (status =? 0))
    (pr_err "Keypad initialization failed: %d\n" [arg_int status]) ;;

  (* Disable pulls on DCC lines - necessary for EDID detection *)
  omap_writel 0x50000000 0x4A002E20 ;;

  (* camera regulators *)
  omap_rprm_regulator_init omap5evm_rprm_regulators
    (ARRAY_SIZE omap5evm_rprm_regulators).

Definition omap_5432_uevm_init : M unit :=
  enter rt_omap_5432_uevm_init ;;
  pr_info "Starting 5432 uEVM setup" [] ;;

  (* SD Card Detect *)
  modify (fun sd => set_mmc (array_upd 1 (set_gpio_cd 152) (mmc sd)) sd) ;;

  (* uEVM-specific ethernet resets *)
  modify (fun sd =>
    set_usbhs_bdata
      (set_reset_gpio_port 1 GPIO_HUB_NRESET_UEVM (usbhs_bdata sd)) sd) ;;
  modify (fun sd =>
    set_usbhs_bdata
      (set_reset_gpio_port 2 GPIO_ETH_NRESET_UEVM (usbhs_bdata sd)) sd) ;;

  omap_mux_init_array addr_omap5432_uevm_mux (ARRAY_SIZE omap5432_uevm_mux) ;;

  (* FREF_CLK1 provides the 19.2 MHz reference clock to the PHY *)
  phy_ref_clk <- clk_get NULL "auxclk1_ck" ;;
  (if IS_ERR phy_ref_clk
   then pr_err "Cannot request auxclk1\n" []
   else clk_set_rate phy_ref_clk 19200000 ;;
        clk_enable phy_ref_clk) ;;

  (* WLAN module IRQ *)
  modify (set_gpio_wlan_irq 14) ;;

  (* AUDPWRON gpio *)
  modify (fun sd =>
    set_twl6040_data (set_audpwron_gpio 141 (twl6040_data sd)) sd) ;;

  omap54xx_common_init.

(** *** Machine init (source lines 1730-1750) *)

Definition omap_54xx_init (dt_selected_model : string) : M unit :=
  enter rt_omap_54xx_init ;;
  omap5_mux_init (board_mux cfg) None OMAP_PACKAGE_CBL ;;

  if strcmp dt_selected_model "TI OMAP5 uEVM" =? 0
  then omap_5432_uevm_init
  else omap_5430_sevm_init.

End Board.

(** ** Observations on a trace *)

(** The trace without the log messages and without the answers of the
    kernel: which routines were entered and which calls were made. *)
Fixpoint skeleton (tr : list event) : list event :=
  match tr with
  | [] => []
  | Enter f :: rest => Enter f :: skeleton rest
  | KCall c _ :: rest => KCall c RVoid :: skeleton rest
  | Log _ _ _ :: rest => skeleton rest
  end.

(** The kernel calls of a trace, in order. *)
Fixpoint kernel_calls (tr : list event) : list kcall :=
  match tr with
  | [] => []
  | KCall c _ :: rest => c :: kernel_calls rest
  | _ :: rest => kernel_calls rest
  end.

Definition routine_index (f : routine) : nat :=
  match f with
  | rt_omap_i2c_hwspinlock_init => 0
  | rt_omap_5430evm_i2c_init => 1
  | rt_omap5evm_touch_init => 2
  | rt_omap5_sdp5430_wifi_mux_init => 3
  | rt_omap5_sdp5430_wifi_init => 4
  | rt_omap_ehci_ohci_init => 5
  | rt_omap5evm_lcd_init => 6
  | rt_omap5evm_hdmi_init => 7
  | rt_omap5evm_display_init => 8
  | rt_omap5evm_panel_enable_hdmi => 9
  | rt_omap5evm_panel_disable_hdmi => 10
  | rt_omap54xx_common_init => 11
  | rt_omap_5430_sevm_init => 12
  | rt_omap_5432_uevm_init => 13
  | rt_omap_54xx_init => 14
  end%nat.

(** How many times routine [f] was entered. *)
Fixpoint entries (f : routine) (tr : list event) : nat :=
  match tr with
  | [] => 0
  | Enter g :: rest =>
      (if Nat.eqb (routine_index f) (routine_index g) then 1 else 0)
      + entries f rest
  | _ :: rest => entries f rest
  end%nat.

(** The log messages of a trace. *)
Fixpoint logs (tr : list event) : list event :=
  match tr with
  | [] => []
  | Log lvl fmt args :: rest => Log lvl fmt args :: logs rest
  | _ :: rest => logs rest
  end.

Definition starts_with_log (tr : list event) : bool :=
  match tr with
  | Log _ _ _ :: _ => true
  | _ => false
  end.

(** Every call that [failed] is followed at once by a log message. *)
Fixpoint followed_by_log (failed : kcall -> kret -> bool)
    (tr : list event) : bool :=
  match tr with
  | [] => true
  | KCall c r :: rest =>
      (if failed c r then starts_with_log rest else true)
      && followed_by_log failed rest
  | _ :: rest => followed_by_log failed rest
  end.

Definition nonzero (r : kret) : bool :=
  match r with
  | RInt z => negb (z =? 0)
  | _ => false
  end.


(** The same, but for the requests whose result the file tests:
    [gpio_request_one] and the keypad registration. *)
Definition tested_request_failed (c : kcall) (r : kret) : bool :=
  match c with
  | call_gpio_request_one _ _ _ => nonzero r
  | call_omap4_keyboard_init _ _ => nonzero r
  | _ => false
  end.

(** The GPIO numbers requested, in order. *)
Fixpoint requested_gpios (cs : list kcall) : list Z :=
  match cs with
  | [] => []
  | call_gpio_request gpio _ :: rest => gpio :: requested_gpios rest
  | call_gpio_request_one gpio _ _ :: rest => gpio :: requested_gpios rest
  | _ :: rest => requested_gpios rest
  end.


Fixpoint distinct (l : list Z) : bool :=
  match l with
  | [] => true
  | x :: rest => negb (existsb (Z.eqb x) rest) && distinct rest
  end.

Definition is_clk_call (c : kcall) : bool :=
  match c with
  | call_clk_get _ _ | call_clk_set_rate _ _ | call_clk_enable _ => true
  | _ => false
  end.

(** ** Relations between runs *)

(** Two values of the statics agree outside the I2C bus board data. *)
Definition same_config (a b : statics) : Prop :=
  gpio_wlan_irq a = gpio_wlan_irq b /\
  twl6040_data a = twl6040_data b /\
  mmc a = mmc b /\
  omap5_sdp5430_wlan_data a = omap5_sdp5430_wlan_data b /\
  usbhs_bdata a = usbhs_bdata b.

(** Two routines make the same calls and leave the same configuration,
    whatever the kernel answered. *)
Definition sim {A : Type} (m m0 : M A) : Prop :=
  forall sd sd0 n, same_config sd sd0 ->
    same_config (mem (m sd n)) (mem (m0 sd0 n)) /\
    ticks (m sd n) = ticks (m0 sd0 n) /\
    skeleton (events (m sd n)) = skeleton (events (m0 sd0 n)).

Definition simv {A : Type} (m m0 : M A) : Prop :=
  forall sd sd0 n, same_config sd sd0 -> value (m sd n) = value (m0 sd0 n).

(** Every failed tested request of a routine is logged at once. *)
Definition logs_ok {A : Type} (m : M A) : Prop :=
  forall sd n, followed_by_log tested_request_failed (events (m sd n)) = true.

(** What [omap_i2c_hwspinlock_init] leaves in the board data of a bus
    when the kernel answered [h]. *)
Definition lock_outcome (h : Z) (old : omap_i2c_bus_board_data)
  : omap_i2c_bus_board_data :=
  if h =? NULL
  then {| handle := NULL;
          hwspin_lock_timeout := hwspin_lock_timeout old;
          hwspin_unlock := hwspin_unlock old |}
  else {| handle := h;
          hwspin_lock_timeout := Some fn_hwspin_lock_timeout;
          hwspin_unlock := Some fn_hwspin_unlock |}.

(** [Q] holds of the result, the statics and the call count a routine
    ends with. *)
Definition wp {A : Type} (m : M A) (Q : A -> statics -> nat -> Prop)
    (sd : statics) (n : nat) : Prop :=
  Q (value (m sd n)) (mem (m sd n)) (ticks (m sd n)).

(** ** Particular kernels and builds *)

(** The kernel in which every request succeeds and [clk_get] answers
    as [g] says. *)
Definition calm (g : nat -> string -> clk_ptr) : kernel :=
  {| ret_gpio_request := fun _ _ _ => 0;
     ret_gpio_request_one := fun _ _ _ _ => 0;
     ret_hwspin_lock_request := fun _ => 0x1000;
     ret_hwspin_lock_request_specific := fun _ id => 0x1000 + id;
     ret_wl12xx_set_platform_data := fun _ => 0;
     ret_omap4_keyboard_init := fun _ => 0;
     ret_clk_get := g |}.

Definition kernel_ok : kernel := calm (fun _ _ => clk_at 0x2000).

(** A kernel in which the GPIOs asked for with [gpio_request] are
    taken ([-EBUSY]). *)
Definition kernel_busy : kernel :=
  {| ret_gpio_request := fun _ _ _ => -16;
     ret_gpio_request_one := fun _ _ _ _ => 0;
     ret_hwspin_lock_request := fun _ => 0x1000;
     ret_hwspin_lock_request_specific := fun _ id => 0x1000 + id;
     ret_wl12xx_set_platform_data := fun _ => 0;
     ret_omap4_keyboard_init := fun _ => 0;
     ret_clk_get := fun _ _ => clk_at 0x2000 |}.

(** A kernel without the clock [auxclk1_ck] ([-ENOENT]). *)
Definition kernel_noclk : kernel := calm (fun _ _ => ERR_PTR (-2)).

(** A kernel without hardware spinlocks. *)
Definition kernel_nolock : kernel :=
  {| ret_gpio_request := fun _ _ _ => 0;
     ret_gpio_request_one := fun _ _ _ _ => 0;
     ret_hwspin_lock_request := fun _ => NULL;
     ret_hwspin_lock_request_specific := fun _ _ => NULL;
     ret_wl12xx_set_platform_data := fun _ => 0;
     ret_omap4_keyboard_init := fun _ => 0;
     ret_clk_get := fun _ _ => clk_at 0x2000 |}.

(** A build with every option on; GPIO interrupts start at 160. *)
Definition build_full : build :=
  {| CONFIG_OMAP5_SEVM_PALMAS := true;
     CONFIG_WL12XX_PLATFORM_DATA := true;
     CONFIG_OMAP_MUX := true;
     OMAP_GPIO_IRQ := fun nr => 160 + nr;
     lpddr2_elpida_4G_S4_timings_size := 4 |}.

(** The values these flags have in mainline Linux. *)
Definition linux_regulator_flags : regulator_flags :=
  {| REGULATOR_MODE_NORMAL := 0x2;
     REGULATOR_MODE_STANDBY := 0x8;
     REGULATOR_CHANGE_VOLTAGE := 0x1;
     REGULATOR_CHANGE_MODE := 0x4;
     REGULATOR_CHANGE_STATUS := 0x8 |}.

(** The flags a regulator table needs to tell apart: changing the
    voltage is a bit of its own. *)
Definition voltage_flag_apart (F : regulator_flags) : Prop :=
  REGULATOR_CHANGE_VOLTAGE F <> 0 /\
  Z.land (REGULATOR_CHANGE_MODE F) (REGULATOR_CHANGE_VOLTAGE F) = 0 /\
  Z.land (REGULATOR_CHANGE_STATUS F) (REGULATOR_CHANGE_VOLTAGE F) = 0.

(** The regulators the board declares: the entries of
    [palmas_omap5_reg] that are not [NULL], and the WLAN supply. *)
Definition declared_regulators (F : regulator_flags)
  : list regulator_init_data :=
  flat_map (fun o => match o with Some r => [r] | None => [] end)
           (palmas_omap5_reg F)
  ++ [sdp5430_vmmc3 F].

(** The voltage range of a regulator is well formed, and the voltage
    may be changed exactly when the range is not a single point. *)
Definition voltage_range_ok (F : regulator_flags)
    (r : regulator_init_data) : Prop :=
  min_uV (constraints r) <= max_uV (constraints r) /\
  (has_flag (valid_ops_mask (constraints r)) (REGULATOR_CHANGE_VOLTAGE F)
     = true
   <-> min_uV (constraints r) < max_uV (constraints r)).

(** The five fields a board variant overrides, and the rest of the
    mutable statics with those fields blanked. *)
Definition variant_fields (sd : statics) : list Z :=
  [ gpio_cd (nth 1 (mmc sd) mmc_terminator);
    nth 1 (reset_gpio_port (usbhs_bdata sd)) 0;
    nth 2 (reset_gpio_port (usbhs_bdata sd)) 0;
    gpio_wlan_irq sd;
    audpwron_gpio (twl6040_data sd) ].

Definition blank_variant_fields (sd : statics) : statics :=
  set_gpio_wlan_irq 0
    (set_twl6040_data (set_audpwron_gpio 0 (twl6040_data sd))
      (set_usbhs_bdata
         (set_reset_gpio_port 1 0
            (set_reset_gpio_port 2 0 (usbhs_bdata sd)))
         (set_mmc (array_upd 1 (set_gpio_cd 0) (mmc sd)) sd))).

(** The I2C bus board data and the WLAN interrupt blanked as well. *)
Definition blank_runtime_fields (sd : statics) : statics :=
  set_omap5_sdp5430_wlan_data (set_wl_irq 0 (omap5_sdp5430_wlan_data sd))
    (store_bus_pdata addr_sdp4430_i2c_1_bus_pdata zero_bus_pdata
      (store_bus_pdata addr_sdp4430_i2c_2_bus_pdata zero_bus_pdata
        (store_bus_pdata addr_sdp4430_i2c_3_bus_pdata zero_bus_pdata
          (store_bus_pdata addr_sdp4430_i2c_4_bus_pdata zero_bus_pdata
            (store_bus_pdata addr_sdp4430_i2c_5_bus_pdata zero_bus_pdata
               sd))))).

(** ** More of the board's tables *)

(** *** PMIC register initialisation (source lines 341-467) *)

Record palmas_reg_init : Type := {
  warm_reset : Z;
  roof_floor : Z;
  mode_sleep : Z;
  tstep : Z;
  vsel : Z;
  no_bypass : Z
}.

Definition omap5_smps12_init : palmas_reg_init :=
  {| warm_reset := 0; roof_floor := 0; mode_sleep := 0;
     tstep := 0; vsel := 0; no_bypass := 0 |}.

Definition omap5_smps45_init : palmas_reg_init :=
  {| warm_reset := 0; roof_floor := 0; mode_sleep := 0;
     tstep := 0; vsel := 0; no_bypass := 0 |}.

Definition omap5_smps6_init : palmas_reg_init :=
  {| warm_reset := 0; roof_floor := 0; mode_sleep := 1;
     tstep := 0; vsel := 0; no_bypass := 0 |}.

Definition omap5_smps7_init : palmas_reg_init :=
  {| warm_reset := 0; roof_floor := 0; mode_sleep := 1;
     tstep := 0; vsel := 0; no_bypass := 0 |}.

Definition omap5_smps8_init : palmas_reg_init :=
  {| warm_reset := 0; roof_floor := 0; mode_sleep := 0;
     tstep := 0; vsel := 0; no_bypass := 0 |}.

Definition omap5_smps9_init : palmas_reg_init :=
  {| warm_reset := 0; roof_floor := 0; mode_sleep := 0;
     tstep := 0; vsel := 0xbd; no_bypass := 0 |}.

Definition omap5_smps10_init : palmas_reg_init :=
  {| warm_reset := 0; roof_floor := 0; mode_sleep := 0;
     tstep := 0; vsel := 0; no_bypass := 0 |}.

Definition omap5_ldo1_init : palmas_reg_init :=
  {| warm_reset := 0; roof_floor := 0; mode_sleep := 0;
     tstep := 0; vsel := 0; no_bypass := 0 |}.

Definition omap5_ldo2_init : palmas_reg_init :=
  {| warm_reset := 0; roof_floor := 0; mode_sleep := 0;
     tstep := 0; vsel := 0; no_bypass := 0 |}.

Definition omap5_ldo3_init : palmas_reg_init :=
  {| warm_reset := 0; roof_floor := 0; mode_sleep := 0;
     tstep := 0; vsel := 0; no_bypass := 0 |}.

Definition omap5_ldo4_init : palmas_reg_init :=
  {| warm_reset := 0; roof_floor := 0; mode_sleep := 0;
     tstep := 0; vsel := 0; no_bypass := 0 |}.

Definition omap5_ldo5_init : palmas_reg_init :=
  {| warm_reset := 0; roof_floor := 0; mode_sleep := 0;
     tstep := 0; vsel := 0; no_bypass := 0 |}.

Definition omap5_ldo6_init : palmas_reg_init :=
  {| warm_reset := 0; roof_floor := 0; mode_sleep := 0;
     tstep := 0; vsel := 0; no_bypass := 0 |}.

Definition omap5_ldo7_init : palmas_reg_init :=
  {| warm_reset := 0; roof_floor := 0; mode_sleep := 0;
     tstep := 0; vsel := 0; no_bypass := 0 |}.

Definition omap5_ldo8_init : palmas_reg_init :=
  {| warm_reset := 0; roof_floor := 0; mode_sleep := 0;
     tstep := 0; vsel := 0; no_bypass := 0 |}.

Definition omap5_ldo9_init : palmas_reg_init :=
  {| warm_reset := 0; roof_floor := 0; mode_sleep := 0;
     tstep := 0; vsel := 0; no_bypass := 1 |}.

Definition omap5_ldoln_init : palmas_reg_init :=
  {| warm_reset := 0; roof_floor := 0; mode_sleep := 0;
     tstep := 0; vsel := 0; no_bypass := 0 |}.

Definition omap5_ldousb_init : palmas_reg_init :=
  {| warm_reset := 0; roof_floor := 0; mode_sleep := 0;
     tstep := 0; vsel := 0; no_bypass := 0 |}.

Definition palmas_omap_reg_init : list (option palmas_reg_init) := [
  Some omap5_smps12_init;
  None;
  None;
  Some omap5_smps45_init;
  None;
  Some omap5_smps6_init;
  Some omap5_smps7_init;
  Some omap5_smps8_init;
  Some omap5_smps9_init;
  Some omap5_smps10_init;
  Some omap5_ldo1_init;
  Some omap5_ldo2_init;
  Some omap5_ldo3_init;
  Some omap5_ldo4_init;
  Some omap5_ldo5_init;
  Some omap5_ldo6_init;
  Some omap5_ldo7_init;
  Some omap5_ldo8_init;
  Some omap5_ldo9_init;
  Some omap5_ldoln_init;
  Some omap5_ldousb_init
].

(** *** The bit-banged I2C bus of the HDMI EDID (source lines 869-875) *)

Record i2c_gpio_platform_data : Type := {
  sda_pin : Z;
  sda_is_open_drain : bool;
  scl_pin : Z;
  scl_is_open_drain : bool;
  udelay : Z
}.

Definition i2c_gpio_pdata : i2c_gpio_platform_data :=
  {| sda_pin := 195; sda_is_open_drain := false;
     scl_pin := 194; scl_is_open_drain := false;
     udelay := 2 |}.

(** *** Views of the tables *)

(** The positions of a keypad matrix, row by row. *)
Definition matrix_positions (rows cols : Z) : list (Z * Z) :=
  flat_map (fun r => map (fun c => (Z.of_nat r, Z.of_nat c))
                         (seq 0 (Z.to_nat cols)))
           (seq 0 (Z.to_nat rows)).

Definition key_position (e : keymap_entry) : Z * Z := (key_row e, key_col e).

(** [gpio_is_valid]: a GPIO field holds a line unless it is negative. *)
Definition gpio_is_valid (gpio : Z) : bool := 0 <=? gpio.

(** The controllers of an MMC table: the entries before the terminator,
    which has [mmc = 0]. *)
Fixpoint mmc_controllers (t : list omap2_hsmmc_info) : list omap2_hsmmc_info :=
  match t with
  | [] => []
  | c :: rest => if mmc_ctrl c =? 0 then [] else c :: mmc_controllers rest
  end.

(** Every GPIO line the board file assigns to a function, with the
    mutable fields read from the statics. *)
Definition gpio_lines (sd : statics) : list Z :=
  map led_gpio gpio_leds
  ++ [ OMAP5_TOUCH_IRQ_1; OMAP5_TOUCH_RESET; GPIO_WIFI_PMENA;
       gpio_wlan_irq sd; HDMI_OE_GPIO; HDMI_HPD_EN_GPIO; HDMI_GPIO_HPD;
       reset_gpio dsi_panel; sda_pin i2c_gpio_pdata; scl_pin i2c_gpio_pdata;
       audpwron_gpio (twl6040_data sd) ]
  ++ filter gpio_is_valid
       (flat_map (fun c => [gpio_cd c; gpio_wp c]) (mmc_controllers (mmc sd)))
  ++ filter gpio_is_valid (reset_gpio_port (usbhs_bdata sd)).

Definition is_some {A : Type} (o : option A) : bool :=
  match o with Some _ => true | None => false end.

(** ** More observations on a trace *)

(** The failures the file looks for: a non-zero answer to
    [gpio_request_one], [omap4_keyboard_init] or
    [wl12xx_set_platform_data], a NULL hardware spinlock, an error
    pointer from [clk_get]. *)
Definition detected_failure (c : kcall) (r : kret) : bool :=
  match c, r with
  | call_gpio_request_one _ _ _, _ => nonzero r
  | call_omap4_keyboard_init _ _, _ => nonzero r
  | call_wl12xx_set_platform_data _, _ => nonzero r
  | call_hwspin_lock_request, RPtr p => p =? NULL
  | call_hwspin_lock_request_specific _, RPtr p => p =? NULL
  | call_clk_get _ _, RClk p => IS_ERR p
  | _, _ => false
  end.

(** The log messages that do not come right after a detected failure. *)
Fixpoint stray_logs (tr : list event) : list event :=
  match tr with
  | [] => []
  | KCall c r :: rest =>
      if detected_failure c r
      then match rest with
           | Log _ _ _ :: rest' => stray_logs rest'
           | _ => stray_logs rest
           end
      else stray_logs rest
  | Log lvl fmt args :: rest => Log lvl fmt args :: stray_logs rest
  | Enter _ :: rest => stray_logs rest
  end.

(** A routine logs each failure it detects at once, and besides that
    exactly the messages [s]. *)
Definition reports {A : Type} (m : M A) (s : list event) : Prop :=
  forall sd n,
    followed_by_log detected_failure (events (m sd n)) = true /\
    stray_logs (events (m sd n)) = s.

(** The GPIO lines given back with [gpio_free]. *)
Fixpoint freed_gpios (cs : list kcall) : list Z :=
  match cs with
  | [] => []
  | call_gpio_free gpio :: rest => gpio :: freed_gpios rest
  | _ :: rest => freed_gpios rest
  end.

(** The tables handed to the MMC, USB host and WLAN drivers. *)
Fixpoint registered_mmc (cs : list kcall) : list (list omap2_hsmmc_info) :=
  match cs with
  | [] => []
  | call_omap_hsmmc_init t :: rest => t :: registered_mmc rest
  | _ :: rest => registered_mmc rest
  end.

Fixpoint registered_usbhs (cs : list kcall) : list usbhs_omap_board_data :=
  match cs with
  | [] => []
  | call_usbhs_init b :: rest => b :: registered_usbhs rest
  | _ :: rest => registered_usbhs rest
  end.

Fixpoint registered_wlan (cs : list kcall) : list wl12xx_platform_data :=
  match cs with
  | [] => []
  | call_wl12xx_set_platform_data d :: rest => d :: registered_wlan rest
  | _ :: rest => registered_wlan rest
  end.

(** The GPIO lines muxed with [omap_mux_init_gpio]. *)
Fixpoint muxed_gpios (cs : list kcall) : list Z :=
  match cs with
  | [] => []
  | call_omap_mux_init_gpio gpio _ :: rest => gpio :: muxed_gpios rest
  | _ :: rest => muxed_gpios rest
  end.

(** The calls only the sEVM variant makes. *)
Definition sevm_only_call (c : kcall) : bool :=
  match c with
  | call_gpio_request _ _ | call_gpio_direction_input _
  | call_gpio_direction_output _ _ | call_mdelay _
  | call_omap5evm_sensor_init | call_omap_writel _ _
  | call_omap4_keyboard_init _ _ | call_omap_rprm_regulator_init _ _ => true
  | _ => false
  end.

(** ** The I2C bus board data as a whole *)

Definition bus_board_data (sd : statics) : list omap_i2c_bus_board_data :=
  [ sdp4430_i2c_1_bus_pdata sd; sdp4430_i2c_2_bus_pdata sd;
    sdp4430_i2c_3_bus_pdata sd; sdp4430_i2c_4_bus_pdata sd;
    sdp4430_i2c_5_bus_pdata sd ].

(** The lock callbacks are installed exactly when there is a lock. *)
Definition bus_pdata_consistent (d : omap_i2c_bus_board_data) : bool :=
  if handle d =? NULL
  then negb (is_some (hwspin_lock_timeout d))
       && negb (is_some (hwspin_unlock d))
  else match hwspin_lock_timeout d, hwspin_unlock d with
       | Some fn_hwspin_lock_timeout, Some fn_hwspin_unlock => true
       | _, _ => false
       end.

(** A routine leaves the I2C bus board data alone. *)
Definition keeps_bus_pdata {A : Type} (m : M A) : Prop :=
  forall sd n, bus_board_data (mem (m sd n)) = bus_board_data sd.

(** The board data once the locks 0 to 4 were requested, the first of
    them as kernel call number [t0]. *)
Definition bus_data_after_locks (K : kernel) (t0 : nat)
    (old : list omap_i2c_bus_board_data) : list omap_i2c_bus_board_data :=
  map (fun '(i, d) =>
         lock_outcome
           (ret_hwspin_lock_request_specific K (i + t0) (Z.of_nat i)) d)
      (combine (seq 0 5) old).

(** A routine requests the five locks once and touches the I2C bus
    board data in no other way. *)
Definition locks_bus_data (K : kernel) {A : Type} (m : M A) : Prop :=
  forall sd n, exists t0,
    bus_board_data (mem (m sd n))
    = bus_data_after_locks K t0 (bus_board_data sd).

(** The routines of the file, for counting. *)
Definition all_routines : list routine :=
  [ rt_omap_54xx_init; rt_omap_5432_uevm_init; rt_omap_5430_sevm_init;
    rt_omap54xx_common_init; rt_omap_5430evm_i2c_init;
    rt_omap_i2c_hwspinlock_init; rt_omap5_sdp5430_wifi_init;
    rt_omap5_sdp5430_wifi_mux_init; rt_omap_ehci_ohci_init;
    rt_omap5evm_display_init; rt_omap5evm_lcd_init; rt_omap5evm_hdmi_init;
    rt_omap5evm_touch_init; rt_omap5evm_panel_enable_hdmi;
    rt_omap5evm_panel_disable_hdmi ].

(** A USB host port is in use unless its mode is "unused". *)
Definition port_in_use (m : usbhs_port_mode) : bool :=
  match m with
  | OMAP_USBHS_PORT_MODE_UNUSED => false
  | OMAP_EHCI_PORT_MODE_HSIC => true
  end.

(** An MMC table ends in one terminator, an entry with every field
    zero, and names each controller once; a USB host table gives a
    reset line exactly to the ports in use. *)
Definition is_terminator (c : omap2_hsmmc_info) : bool :=
  (mmc_ctrl c =? 0)
  && match caps c with [] => true | _ :: _ => false end
  && (gpio_cd c =? 0)
  && (gpio_wp c =? 0)
  && negb (nonremovable c)
  && negb (is_some (ocr_mask c))
  && negb (no_off_init c).

Definition mmc_table_ok (t : list omap2_hsmmc_info) : bool :=
  (List.length t =? S (List.length (mmc_controllers t)))%nat
  && distinct (map mmc_ctrl (mmc_controllers t))
  && forallb is_terminator (skipn (List.length (mmc_controllers t)) t).

Definition usbhs_table_ok (b : usbhs_omap_board_data) : bool :=
  (List.length (port_mode b) =? 3)%nat
  && (List.length (reset_gpio_port b) =? 3)%nat
  && forallb (fun '(m, g) => Bool.eqb (port_in_use m) (gpio_is_valid g))
             (combine (port_mode b) (reset_gpio_port b)).

(** The model string with bytes left in the array behind its end. *)
Definition uevm_model_with_tail : string :=
  ("TI OMAP5 uEVM" ++ String zero "left over")%string.



(** * Properties *)

(** ** Table sizes *)

Lemma keymap_within (rows cols : Z) (t : list keymap_entry) :
  forallb (fun e => (0 <=? key_row e) && (key_row e <? rows)
                    && (0 <=? key_col e) && (key_col e <? cols)) t = true ->
  Forall (fun e => 0 <= key_row e < rows /\ 0 <= key_col e < cols) t.
Proof.
  intros H. apply Forall_forall. intros e He.
  rewrite forallb_forall in H. specialize (H e He).
  rewrite !andb_true_iff in H. lia.
Qed.

(** C9: every declared table size agrees with its table: the 8x8 keypad
    has a keymap of 64 entries, the 8x16 keypad one of 128 entries,
    [num_leds] is the number of LEDs (6), and [num_devices] is the
    number of display devices (2), the default device being one of
    them. *)
Theorem table_sizes_consistent :
  kp4_rows evm5430_keypad_data = 8 /\
  kp4_cols evm5430_keypad_data = 8 /\
  List.length (keymap (kp4_keymap_data evm5430_keypad_data)) = 64%nat /\
  keymap_size (kp4_keymap_data evm5430_keypad_data)
    = kp4_rows evm5430_keypad_data * kp4_cols evm5430_keypad_data /\
  smsc_rows omap5_kp_data = 8 /\
  smsc_cols omap5_kp_data = 16 /\
  List.length (keymap (smsc_keymap_data omap5_kp_data)) = 128%nat /\
  keymap_size (smsc_keymap_data omap5_kp_data)
    = smsc_rows omap5_kp_data * smsc_cols omap5_kp_data /\
  num_leds gpio_led_info = Z.of_nat (List.length gpio_leds) /\
  num_leds gpio_led_info = 6 /\
  leds gpio_led_info = gpio_leds /\
  num_devices omap5evm_dss_data
    = Z.of_nat (List.length omap5evm_dss_devices) /\
  num_devices omap5evm_dss_data = 2 /\
  devices omap5evm_dss_data = omap5evm_dss_devices /\
  In (default_device omap5evm_dss_data) omap5evm_dss_devices.
Proof.
  repeat split; try reflexivity.
  cbn. right. left. reflexivity.
Qed.

(** The entries of both keymaps lie inside the declared matrix. *)
Lemma keymaps_within_matrix :
  Forall (fun e => 0 <= key_row e < kp4_rows evm5430_keypad_data /\
                   0 <= key_col e < kp4_cols evm5430_keypad_data)
         evm5430_keymap /\
  Forall (fun e => 0 <= key_row e < smsc_rows omap5_kp_data /\
                   0 <= key_col e < smsc_cols omap5_kp_data)
         board_keymap.
Proof.
  split; apply keymap_within; vm_compute; reflexivity.
Qed.

(** ** Regulator constraints *)

Section RegulatorFacts.
Variable F : regulator_flags.
Hypothesis apart : voltage_flag_apart F.

Lemma has_voltage_flag (rest : Z) :
  has_flag (REGULATOR_CHANGE_VOLTAGE F .| rest) (REGULATOR_CHANGE_VOLTAGE F)
  = true.
Proof.
  destruct apart as (Hnz & _). unfold has_flag.
  rewrite Z.land_comm, Z.land_lor_distr_r, Z.land_diag.
  apply negb_true_iff, Z.eqb_neq. intros H.
  apply Z.lor_eq_0_iff in H. tauto.
Qed.

Lemma has_voltage_flag3 :
  has_flag (REGULATOR_CHANGE_VOLTAGE F .| REGULATOR_CHANGE_MODE F
            .| REGULATOR_CHANGE_STATUS F) (REGULATOR_CHANGE_VOLTAGE F)
  = true.
Proof.
  rewrite <- Z.lor_assoc. apply has_voltage_flag.
Qed.

Lemma no_voltage_flag2 :
  has_flag (REGULATOR_CHANGE_MODE F .| REGULATOR_CHANGE_STATUS F)
           (REGULATOR_CHANGE_VOLTAGE F) = false.
Proof.
  destruct apart as (_ & Hm & Hs). unfold has_flag.
  rewrite Z.land_lor_distr_l, Hm, Hs. reflexivity.
Qed.

Lemma no_voltage_flag1 :
  has_flag (REGULATOR_CHANGE_STATUS F) (REGULATOR_CHANGE_VOLTAGE F) = false.
Proof.
  destruct apart as (_ & _ & Hs). unfold has_flag. rewrite Hs. reflexivity.
Qed.

Lemma range_ok_variable (r : regulator_init_data) :
  valid_ops_mask (constraints r)
    = REGULATOR_CHANGE_VOLTAGE F .| REGULATOR_CHANGE_MODE F
      .| REGULATOR_CHANGE_STATUS F ->
  min_uV (constraints r) < max_uV (constraints r) ->
  voltage_range_ok F r.
Proof.
  intros Hm Hlt. unfold voltage_range_ok. rewrite Hm, has_voltage_flag3.
  split; [lia | tauto].
Qed.

Lemma range_ok_fixed (r : regulator_init_data) :
  has_flag (valid_ops_mask (constraints r)) (REGULATOR_CHANGE_VOLTAGE F)
    = false ->
  min_uV (constraints r) = max_uV (constraints r) ->
  voltage_range_ok F r.
Proof.
  intros Hm Heq. unfold voltage_range_ok. rewrite Hm, Heq.
  split; [lia | split; [discriminate | lia]].
Qed.

(** C7: every regulator reachable from [palmas_omap5_reg], and the
    WLAN supply [sdp5430_vmmc3], declares [min_uV <= max_uV], and its
    [valid_ops_mask] contains [REGULATOR_CHANGE_VOLTAGE] exactly when
    [min_uV < max_uV]. *)
Theorem regulator_voltage_ranges :
  Forall (voltage_range_ok F) (declared_regulators F).
Proof.
  unfold declared_regulators, palmas_omap5_reg. cbn [flat_map app].
  repeat apply Forall_cons; try apply Forall_nil;
    first [ apply range_ok_variable; [reflexivity | cbn; lia]
          | apply range_ok_fixed;
            [first [apply no_voltage_flag2 | apply no_voltage_flag1]
            | reflexivity] ].
Qed.

End RegulatorFacts.

Lemma regulator_voltage_ranges_witness :
  voltage_flag_apart linux_regulator_flags /\
  Forall (voltage_range_ok linux_regulator_flags)
         (declared_regulators linux_regulator_flags).
Proof.
  assert (H : voltage_flag_apart linux_regulator_flags).
  { unfold voltage_flag_apart. cbn. split; [lia | split; reflexivity]. }
  split; [exact H | exact (regulator_voltage_ranges H)].
Defined.

(** The regulators meant are the eighteen of the PMIC table and the
    WLAN supply. *)
Lemma declared_regulators_count (F : regulator_flags) :
  List.length (palmas_omap5_reg F) = 21%nat /\
  List.length (declared_regulators F) = 19%nat.
Proof.
  split; reflexivity.
Qed.

(** ** The model string *)

Lemma is_nul_zero (c : ascii) : is_nul c = true <-> c = zero.
Proof.
  unfold is_nul. rewrite Z.eqb_eq. split.
  - intros H. rewrite <- (ascii_nat_embedding c).
    replace (nat_of_ascii c) with 0%nat by lia. reflexivity.
  - intros ->. reflexivity.
Qed.

Lemma ascii_code_inj (a b : ascii) :
  Z.of_nat (nat_of_ascii a) = Z.of_nat (nat_of_ascii b) -> a = b.
Proof.
  intros H. apply Nat2Z.inj in H.
  rewrite <- (ascii_nat_embedding a), <- (ascii_nat_embedding b), H.
  reflexivity.
Qed.

(** [strcmp] answers 0 exactly on arrays that hold the same C string. *)
Lemma strcmp_zero_iff (s1 s2 : string) :
  strcmp s1 s2 = 0 <-> c_str s1 = c_str s2.
Proof.
  revert s2. induction s1 as [|c1 r1 IH]; intros [|c2 r2]; cbn.
  - tauto.
  - destruct (is_nul c2) eqn:E.
    + apply is_nul_zero in E. subst c2. cbn. tauto.
    + split; [|discriminate]. intros H.
      assert (is_nul c2 = true) by (unfold is_nul; apply Z.eqb_eq; lia).
      congruence.
  - destruct (is_nul c1) eqn:E.
    + apply is_nul_zero in E. subst c1. cbn. tauto.
    + split; [|discriminate]. intros H.
      assert (is_nul c1 = true) by (unfold is_nul; apply Z.eqb_eq; lia).
      congruence.
  - destruct (Ascii.eqb_spec c1 c2) as [->|Hne].
    + destruct (is_nul c2); [tauto|].
      rewrite IH. split; [congruence|]. intros H. now inversion H.
    + split.
      * intros H. exfalso. apply Hne, ascii_code_inj. lia.
      * intros H. exfalso.
        destruct (is_nul c1) eqn:E1, (is_nul c2) eqn:E2;
          try discriminate.
        -- apply is_nul_zero in E1, E2. congruence.
        -- inversion H. contradiction.
Qed.

Lemma uevm_model_test (dt_selected_model : string) :
  (strcmp dt_selected_model "TI OMAP5 uEVM" =? 0) = true
  <-> c_str dt_selected_model = "TI OMAP5 uEVM".
Proof.
  rewrite Z.eqb_eq, strcmp_zero_iff. reflexivity.
Qed.

(** ** The touch screen *)

(** C4, as amended: no routine of the file returns an error code for
    a failed GPIO request.  [omap5evm_touch_init] returns 0 whatever
    its two [gpio_request] calls answer: it makes the same eight kernel
    calls, logs nothing, and leaves the statics alone.  The HDMI enable
    callback, the other routine with a result that requests GPIOs,
    returns 0 as well. *)
Theorem touch_init_always_zero (K : kernel) (sd : statics) (n : nat) :
  let r := omap5evm_touch_init K sd n in
  value r = 0 /\
  mem r = sd /\
  logs (events r) = [] /\
  kernel_calls (events r) =
    [ call_gpio_request 179 "atmel touch irq";
      call_gpio_direction_input 179;
      call_gpio_request 230 "atmel reset";
      call_gpio_direction_output 230 1;
      call_mdelay 100;
      call_gpio_direction_output 230 0;
      call_mdelay 100;
      call_gpio_direction_output 230 1 ] /\
  value (omap5evm_panel_enable_hdmi K sd n) = 0.
Proof.
  repeat split; reflexivity.
Qed.

(** C4, as stated, fails: with both GPIOs busy the two requests answer
    [-EBUSY] and [omap5evm_touch_init] still returns 0. *)
Lemma touch_init_hides_failure :
  let r := omap5evm_touch_init kernel_busy boot 0%nat in
  In (KCall (call_gpio_request 179 "atmel touch irq") (RInt (-16)))
     (events r) /\
  In (KCall (call_gpio_request 230 "atmel reset") (RInt (-16)))
     (events r) /\
  value r = 0.
Proof.
  vm_compute. repeat split; tauto.
Qed.

(** ** The hardware spinlock of an I2C bus *)

(** The whole effect of [omap_i2c_hwspinlock_init]. *)
Lemma hwspinlock_init_effect (K : kernel) (bus_id spinlock_id : Z)
    (pdata : i2c_bus_pdata_ref) (sd : statics) (n : nat) :
  let r := omap_i2c_hwspinlock_init K bus_id spinlock_id pdata sd n in
  let h := if spinlock_id <? 0
           then ret_hwspin_lock_request K n
           else ret_hwspin_lock_request_specific K n spinlock_id in
  let old := load_bus_pdata pdata sd in
  kernel_calls (events r) =
    [ if spinlock_id <? 0
      then call_hwspin_lock_request
      else call_hwspin_lock_request_specific spinlock_id ] /\
  ticks r = S n /\
  mem r =
    store_bus_pdata pdata
      (if h =? NULL
       then {| handle := NULL;
               hwspin_lock_timeout := hwspin_lock_timeout old;
               hwspin_unlock := hwspin_unlock old |}
       else {| handle := h;
               hwspin_lock_timeout := Some fn_hwspin_lock_timeout;
               hwspin_unlock := Some fn_hwspin_unlock |}) sd /\
  logs (events r) =
    (if h =? NULL
     then [ Log KERN_ERR "I2C hwspinlock request failed for bus %d\n"
                [arg_int bus_id] ]
     else []).
Proof.
  unfold omap_i2c_hwspinlock_init, hwspin_lock_request,
    hwspin_lock_request_specific.
  destruct (spinlock_id <? 0); cbn.
  - destruct pdata, sd; cbn;
      destruct (Z.eqb_spec (ret_hwspin_lock_request K n) NULL) as [->|];
      cbn; repeat split; reflexivity.
  - destruct pdata, sd; cbn;
      destruct (Z.eqb_spec
                  (ret_hwspin_lock_request_specific K n spinlock_id) NULL)
        as [->|];
      cbn; repeat split; reflexivity.
Qed.

(** C8: [omap_i2c_hwspinlock_init] makes one kernel call, the generic
    request exactly when [spinlock_id] is negative and the request of
    lock [spinlock_id] otherwise; it stores the answer in
    [pdata->handle]; with a non-NULL answer it installs the two
    callbacks and logs nothing; with a NULL answer it logs one error
    and leaves the two callback fields as they were.  Nothing else in
    the statics changes. *)
Theorem hwspinlock_init_spec (K : kernel) (bus_id spinlock_id : Z)
    (pdata : i2c_bus_pdata_ref) (sd : statics) (n : nat) :
  let r := omap_i2c_hwspinlock_init K bus_id spinlock_id pdata sd n in
  let h := if spinlock_id <? 0
           then ret_hwspin_lock_request K n
           else ret_hwspin_lock_request_specific K n spinlock_id in
  let old := load_bus_pdata pdata sd in
  kernel_calls (events r) =
    [ if spinlock_id <? 0
      then call_hwspin_lock_request
      else call_hwspin_lock_request_specific spinlock_id ] /\
  ticks r = S n /\
  mem r =
    store_bus_pdata pdata
      (if h =? NULL
       then {| handle := NULL;
               hwspin_lock_timeout := hwspin_lock_timeout old;
               hwspin_unlock := hwspin_unlock old |}
       else {| handle := h;
               hwspin_lock_timeout := Some fn_hwspin_lock_timeout;
               hwspin_unlock := Some fn_hwspin_unlock |}) sd /\
  logs (events r) =
    (if h =? NULL
     then [ Log KERN_ERR "I2C hwspinlock request failed for bus %d\n"
                [arg_int bus_id] ]
     else []).
Proof.
  exact (hwspinlock_init_effect K bus_id spinlock_id pdata sd n).
Qed.

(** ** Traces of composed routines *)

Lemma skeleton_app (a b : list event) :
  skeleton (a ++ b) = skeleton a ++ skeleton b.
Proof.
  induction a as [|[f|c r|l f s] a IH]; cbn; congruence.
Qed.

Lemma kernel_calls_app (a b : list event) :
  kernel_calls (a ++ b) = kernel_calls a ++ kernel_calls b.
Proof.
  induction a as [|[f|c r|l f s] a IH]; cbn; congruence.
Qed.

Lemma kernel_calls_skeleton (tr : list event) :
  kernel_calls (skeleton tr) = kernel_calls tr.
Proof.
  induction tr as [|[f|c r|l f s] tr IH]; cbn; congruence.
Qed.

Lemma entries_skeleton (f : routine) (tr : list event) :
  entries f (skeleton tr) = entries f tr.
Proof.
  induction tr as [|[g|c r|l fm s] tr IH]; cbn; congruence.
Qed.

Lemma same_skeleton_calls (a b : list event) :
  skeleton a = skeleton b -> kernel_calls a = kernel_calls b.
Proof.
  intros H. rewrite <- (kernel_calls_skeleton a), H.
  apply kernel_calls_skeleton.
Qed.

Lemma same_skeleton_entries (f : routine) (a b : list event) :
  skeleton a = skeleton b -> entries f a = entries f b.
Proof.
  intros H. rewrite <- (entries_skeleton f a), H. apply entries_skeleton.
Qed.

Lemma followed_by_log_app (failed : kcall -> kret -> bool)
    (a b : list event) :
  followed_by_log failed a = true ->
  followed_by_log failed b = true ->
  followed_by_log failed (a ++ b) = true.
Proof.
  induction a as [|e a IH]; cbn; [tauto|].
  destruct e as [f|c r|l f s]; auto.
  rewrite !andb_true_iff. intros [H1 H2] Hb. split; [|auto].
  destruct (failed c r); [|reflexivity].
  destruct a as [|[f|c' r'|l f s] a]; cbn in *; congruence.
Qed.

Lemma same_config_refl (sd : statics) : same_config sd sd.
Proof.
  repeat split.
Qed.

(** ** Rules for [sim] *)

Lemma sim_ret {A : Type} (a a0 : A) : sim (ret a) (ret a0).
Proof.
  intros sd sd0 n H. cbn. auto.
Qed.

Lemma sim_bind {A B : Type} (m m0 : M A) (f f0 : A -> M B) :
  sim m m0 -> (forall a a0, sim (f a) (f0 a0)) ->
  sim (bind m f) (bind m0 f0).
Proof.
  intros Hm Hf sd sd0 n H. cbn.
  destruct (Hm sd sd0 n H) as (Hc & Ht & Hs).
  destruct (Hf (value (m sd n)) (value (m0 sd0 n)) _ _ (ticks (m sd n)) Hc)
    as (Hc' & Ht' & Hs').
  rewrite <- Ht. rewrite !skeleton_app, Hs, Hs'. auto.
Qed.

Lemma sim_bind_v {A B : Type} (m m0 : M A) (f f0 : A -> M B) :
  simv m m0 -> sim m m0 -> (forall a, sim (f a) (f0 a)) ->
  sim (bind m f) (bind m0 f0).
Proof.
  intros Hv Hm Hf sd sd0 n H. cbn.
  destruct (Hm sd sd0 n H) as (Hc & Ht & Hs).
  rewrite <- (Hv sd sd0 n H), <- Ht.
  destruct (Hf (value (m sd n)) _ _ (ticks (m sd n)) Hc) as (Hc' & Ht' & Hs').
  rewrite !skeleton_app, Hs, Hs'. auto.
Qed.

Lemma sim_emit (e : event) : sim (emit e) (emit e).
Proof.
  intros sd sd0 n H. cbn. auto.
Qed.

Lemma sim_when (b : bool) (m m0 : M unit) :
  sim m m0 -> sim (when b m) (when b m0).
Proof.
  intros H. destruct b; cbn; [exact H | apply sim_ret].
Qed.

Lemma sim_when_log (b b0 : bool) lvl fmt args lvl0 fmt0 args0 :
  sim (when b (emit (Log lvl fmt args))) (when b0 (emit (Log lvl0 fmt0 args0))).
Proof.
  intros sd sd0 n H. destruct b, b0; cbn; auto.
Qed.

Lemma sim_kcall_void (c : kcall) : sim (kcall_void c) (kcall_void c).
Proof.
  intros sd sd0 n H. cbn. auto.
Qed.

Lemma sim_kcall_int (c : kcall) (o o0 : nat -> Z) :
  sim (kcall_int c o) (kcall_int c o0).
Proof.
  intros sd sd0 n H. cbn. auto.
Qed.

Lemma sim_kcall_ptr (c : kcall) (o o0 : nat -> Z) :
  sim (kcall_ptr c o) (kcall_ptr c o0).
Proof.
  intros sd sd0 n H. cbn. auto.
Qed.

Lemma sim_kcall_clk (c : kcall) (o o0 : nat -> clk_ptr) :
  sim (kcall_clk c o) (kcall_clk c o0).
Proof.
  intros sd sd0 n H. cbn. auto.
Qed.

Lemma simv_kcall_clk (c : kcall) (o o0 : nat -> clk_ptr) :
  (forall n, o n = o0 n) -> simv (kcall_clk c o) (kcall_clk c o0).
Proof.
  intros Ho sd sd0 n H. cbn. apply Ho.
Qed.

Lemma sim_gets {A : Type} (f f0 : statics -> A) : sim (gets f) (gets f0).
Proof.
  intros sd sd0 n H. cbn. auto.
Qed.

Lemma simv_gets {A : Type} (f : statics -> A) :
  (forall sd sd0, same_config sd sd0 -> f sd = f sd0) ->
  simv (gets f) (gets f).
Proof.
  intros Hf sd sd0 n H. cbn. auto.
Qed.

Lemma sim_modify (g g0 : statics -> statics) :
  (forall sd sd0, same_config sd sd0 -> same_config (g sd) (g0 sd0)) ->
  sim (modify g) (modify g0).
Proof.
  intros Hg sd sd0 n H. cbn. auto.
Qed.

Lemma same_config_store (p p0 : i2c_bus_pdata_ref)
    (d d0 : omap_i2c_bus_board_data) (sd sd0 : statics) :
  same_config sd sd0 ->
  same_config (store_bus_pdata p d sd) (store_bus_pdata p0 d0 sd0).
Proof.
  intros H. exact H.
Qed.

Ltac config_tac :=
  let H := fresh in
  intros ? ? H; try apply same_config_store;
  unfold same_config in *; cbn;
  decompose [and] H; repeat split; congruence.

Ltac unfold_kernel :=
  unfold enter, pr_err, pr_info, printk,
    omap5_mux_init, omap_mux_init_array, omap_mux_init_gpio,
    omap_mux_init_signal, omap_writel, gpio_request, gpio_request_one,
    gpio_direction_input, gpio_direction_output, gpio_set_value_cansleep,
    gpio_free, mdelay, omap5evm_sensor_init, hwspin_lock_request,
    hwspin_lock_request_specific, omap_register_i2c_bus_board_data,
    omap_register_i2c_bus, wl12xx_set_platform_data,
    platform_device_register, platform_add_devices,
    omap_emif_set_device_details, omap_register_mac_device_fixup_paths,
    omap_serial_board_init, omap_sdrc_init, omap_hsmmc_init,
    i2c_register_board_info, usbhs_init, omap_hdmi_init, omap_display_init,
    omap4_keyboard_init, omap_rprm_regulator_init, clk_get, clk_set_rate,
    clk_enable.

Create HintDb sim discriminated.

Ltac simv_tac :=
  first [ apply simv_gets; solve [config_tac]
        | apply simv_kcall_clk; intro; solve [auto] ].

Ltac sim_tac :=
  lazymatch goal with
  | |- sim (bind _ _) (bind _ _) =>
      first [ apply sim_bind_v; [ solve [simv_tac] | sim_tac | intro; sim_tac ]
            | apply sim_bind; [ sim_tac | intros; sim_tac ] ]
  | |- sim (ret _) (ret _) => apply sim_ret
  | |- sim (when _ (emit (Log _ _ _))) (when _ (emit (Log _ _ _))) =>
      apply sim_when_log
  | |- sim (when ?b _) (when ?b _) => apply sim_when; sim_tac
  | |- sim (if ?b then _ else _) (if ?b then _ else _) => destruct b; sim_tac
  | |- sim (emit _) (emit _) => apply sim_emit
  | |- sim (kcall_void _) (kcall_void _) => apply sim_kcall_void
  | |- sim (kcall_int _ _) (kcall_int _ _) => apply sim_kcall_int
  | |- sim (kcall_ptr _ _) (kcall_ptr _ _) => apply sim_kcall_ptr
  | |- sim (kcall_clk _ _) (kcall_clk _ _) => apply sim_kcall_clk
  | |- sim (gets _) (gets _) => apply sim_gets
  | |- sim (modify _) (modify _) => apply sim_modify; solve [config_tac]
  | |- _ => solve [auto with sim]
  end.

(** ** The kernel's answers do not steer machine init

    Two kernels that give the same answers to [clk_get] see the same
    calls and leave the same configuration. *)

Section Steering.
Variables K K0 : kernel.
Variable cfg : build.
Hypothesis same_clk : forall n s, ret_clk_get K n s = ret_clk_get K0 n s.

Lemma sim_hwspinlock_init bus_id spinlock_id pdata :
  sim (omap_i2c_hwspinlock_init K bus_id spinlock_id pdata)
      (omap_i2c_hwspinlock_init K0 bus_id spinlock_id pdata).
Proof.
  intros sd sd0 n H.
  destruct (hwspinlock_init_effect K bus_id spinlock_id pdata sd n)
    as (Hc & Ht & Hm & _).
  destruct (hwspinlock_init_effect K0 bus_id spinlock_id pdata sd0 n)
    as (Hc0 & Ht0 & Hm0 & _).
  rewrite Hm, Hm0, Ht, Ht0. split; [|split].
  - apply same_config_store, H.
  - reflexivity.
  - unfold omap_i2c_hwspinlock_init. unfold_kernel.
    destruct (spinlock_id <? 0); cbn;
      repeat match goal with
             | |- context [if ?c then _ else _] => destruct c; cbn
             end; reflexivity.
Qed.
#[local] Hint Resolve sim_hwspinlock_init : sim.

Lemma sim_i2c_init :
  sim (omap_5430evm_i2c_init K cfg) (omap_5430evm_i2c_init K0 cfg).
Proof.
  unfold omap_5430evm_i2c_init. unfold_kernel. sim_tac.
Qed.
#[local] Hint Resolve sim_i2c_init : sim.

Lemma sim_touch_init : sim (omap5evm_touch_init K) (omap5evm_touch_init K0).
Proof.
  unfold omap5evm_touch_init. unfold_kernel. sim_tac.
Qed.
#[local] Hint Resolve sim_touch_init : sim.

Lemma sim_wifi_mux_init :
  sim omap5_sdp5430_wifi_mux_init omap5_sdp5430_wifi_mux_init.
Proof.
  unfold omap5_sdp5430_wifi_mux_init. unfold_kernel. sim_tac.
Qed.
#[local] Hint Resolve sim_wifi_mux_init : sim.

Lemma sim_wifi_init :
  sim (omap5_sdp5430_wifi_init K cfg) (omap5_sdp5430_wifi_init K0 cfg).
Proof.
  unfold omap5_sdp5430_wifi_init. unfold_kernel. sim_tac.
Qed.
#[local] Hint Resolve sim_wifi_init : sim.

Lemma sim_ehci_ohci_init : sim omap_ehci_ohci_init omap_ehci_ohci_init.
Proof.
  unfold omap_ehci_ohci_init. unfold_kernel. sim_tac.
Qed.
#[local] Hint Resolve sim_ehci_ohci_init : sim.

Lemma sim_lcd_init : sim (omap5evm_lcd_init K) (omap5evm_lcd_init K0).
Proof.
  unfold omap5evm_lcd_init. unfold_kernel. sim_tac.
Qed.
#[local] Hint Resolve sim_lcd_init : sim.

Lemma sim_hdmi_init : sim (omap5evm_hdmi_init K) (omap5evm_hdmi_init K0).
Proof.
  unfold omap5evm_hdmi_init. unfold_kernel. sim_tac.
Qed.
#[local] Hint Resolve sim_hdmi_init : sim.

Lemma sim_display_init :
  sim (omap5evm_display_init K) (omap5evm_display_init K0).
Proof.
  unfold omap5evm_display_init. unfold_kernel. sim_tac.
Qed.
#[local] Hint Resolve sim_display_init : sim.

Lemma sim_common_init :
  sim (omap54xx_common_init K cfg) (omap54xx_common_init K0 cfg).
Proof.
  unfold omap54xx_common_init. unfold_kernel. sim_tac.
Qed.
#[local] Hint Resolve sim_common_init : sim.

Lemma sim_sevm_init :
  sim (omap_5430_sevm_init K cfg) (omap_5430_sevm_init K0 cfg).
Proof.
  unfold omap_5430_sevm_init. unfold_kernel. sim_tac.
Qed.
#[local] Hint Resolve sim_sevm_init : sim.

Lemma sim_uevm_init :
  sim (omap_5432_uevm_init K cfg) (omap_5432_uevm_init K0 cfg).
Proof.
  unfold omap_5432_uevm_init. unfold_kernel. sim_tac.
Qed.
#[local] Hint Resolve sim_uevm_init : sim.

Lemma sim_54xx_init (dt_selected_model : string) :
  sim (omap_54xx_init K cfg dt_selected_model)
      (omap_54xx_init K0 cfg dt_selected_model).
Proof.
  unfold omap_54xx_init. unfold_kernel. sim_tac.
Qed.

End Steering.

(** ** Rules for [logs_ok] *)

Lemma logs_ok_ret {A : Type} (a : A) : logs_ok (ret a).
Proof.
  intros sd n. reflexivity.
Qed.

Lemma logs_ok_bind {A B : Type} (m : M A) (f : A -> M B) :
  logs_ok m -> (forall a, logs_ok (f a)) -> logs_ok (bind m f).
Proof.
  intros Hm Hf sd n. cbn. apply followed_by_log_app; [apply Hm | apply Hf].
Qed.

Lemma logs_ok_enter (f : routine) : logs_ok (emit (Enter f)).
Proof.
  intros sd n. reflexivity.
Qed.

Lemma logs_ok_log lvl fmt args : logs_ok (emit (Log lvl fmt args)).
Proof.
  intros sd n. reflexivity.
Qed.

Lemma logs_ok_when (b : bool) (m : M unit) : logs_ok m -> logs_ok (when b m).
Proof.
  intros H. destruct b; [exact H | apply logs_ok_ret].
Qed.

Lemma logs_ok_gets {A : Type} (f : statics -> A) : logs_ok (gets f).
Proof.
  intros sd n. reflexivity.
Qed.

Lemma logs_ok_modify (g : statics -> statics) : logs_ok (modify g).
Proof.
  intros sd n. reflexivity.
Qed.

Lemma logs_ok_kcall_void (c : kcall) : logs_ok (kcall_void c).
Proof.
  intros sd n. destruct c; reflexivity.
Qed.

Lemma logs_ok_kcall_ptr (c : kcall) (o : nat -> Z) : logs_ok (kcall_ptr c o).
Proof.
  intros sd n. destruct c; reflexivity.
Qed.

Lemma logs_ok_kcall_clk (c : kcall) (o : nat -> clk_ptr) :
  logs_ok (kcall_clk c o).
Proof.
  intros sd n. destruct c; reflexivity.
Qed.

(** A call whose result is not among the tested requests. *)
Lemma logs_ok_kcall_int (c : kcall) (o : nat -> Z) :
  (forall r, tested_request_failed c r = false) -> logs_ok (kcall_int c o).
Proof.
  intros Hc sd n. cbn. rewrite Hc. reflexivity.
Qed.

(** The idiom [r = request(...); if (r) pr_err(...);]. *)
Lemma logs_ok_tested {A : Type} (c : kcall) (o : nat -> Z)
    (lvl : log_level) (fmt : string) (args : Z -> list log_arg)
    (k : M A) :
  logs_ok k ->
  logs_ok (bind (kcall_int c o)
             (fun r => bind (when (negb (r =? 0)) (emit (Log lvl fmt (args r))))
                            (fun _ => k))).
Proof.
  intros Hk sd n. cbn.
  destruct (o n =? 0) eqn:E; cbn.
  - rewrite Hk.
    replace (tested_request_failed c (RInt (o n))) with false;
      [reflexivity|].
    destruct c; cbn; rewrite ?E; reflexivity.
  - rewrite Hk. rewrite andb_true_r.
    destruct (tested_request_failed c (RInt (o n))); reflexivity.
Qed.

Lemma logs_ok_tested_last (c : kcall) (o : nat -> Z)
    (lvl : log_level) (fmt : string) (args : Z -> list log_arg) :
  logs_ok (bind (kcall_int c o)
             (fun r => when (negb (r =? 0)) (emit (Log lvl fmt (args r))))).
Proof.
  intros sd n. cbn.
  destruct (o n =? 0) eqn:E; cbn.
  - replace (tested_request_failed c (RInt (o n))) with false;
      [reflexivity|].
    destruct c; cbn; rewrite ?E; reflexivity.
  - destruct (tested_request_failed c (RInt (o n))); reflexivity.
Qed.

Create HintDb logs discriminated.

Ltac logs_tac :=
  lazymatch goal with
  | |- logs_ok (bind (kcall_int _ _) (fun r => bind (when _ _) _)) =>
      first [ apply (logs_ok_tested _ _ _ _ (fun _ => _)); logs_tac
            | apply logs_ok_tested with (args := fun r => [arg_int r]);
              logs_tac ]
  | |- logs_ok (bind (kcall_int _ _) (fun r => when _ _)) =>
      apply (logs_ok_tested_last _ _ _ _ (fun _ => _))
  | |- logs_ok (bind _ _) =>
      apply logs_ok_bind; [ logs_tac | intro; logs_tac ]
  | |- logs_ok (ret _) => apply logs_ok_ret
  | |- logs_ok (when _ _) => apply logs_ok_when; logs_tac
  | |- logs_ok (if ?b then _ else _) => destruct b; logs_tac
  | |- logs_ok (emit (Enter _)) => apply logs_ok_enter
  | |- logs_ok (emit (Log _ _ _)) => apply logs_ok_log
  | |- logs_ok (kcall_void _) => apply logs_ok_kcall_void
  | |- logs_ok (kcall_ptr _ _) => apply logs_ok_kcall_ptr
  | |- logs_ok (kcall_clk _ _) => apply logs_ok_kcall_clk
  | |- logs_ok (kcall_int _ _) =>
      apply logs_ok_kcall_int; intro; reflexivity
  | |- logs_ok (gets _) => apply logs_ok_gets
  | |- logs_ok (modify _) => apply logs_ok_modify
  | |- _ => solve [auto with logs]
  end.

(** ** Every failed tested request is logged at once *)

Section Logging.
Variable K : kernel.
Variable cfg : build.

Lemma logs_ok_hwspinlock_init bus_id spinlock_id pdata :
  logs_ok (omap_i2c_hwspinlock_init K bus_id spinlock_id pdata).
Proof.
  unfold omap_i2c_hwspinlock_init. unfold_kernel. logs_tac.
Qed.
#[local] Hint Resolve logs_ok_hwspinlock_init : logs.

Lemma logs_ok_i2c_init : logs_ok (omap_5430evm_i2c_init K cfg).
Proof.
  unfold omap_5430evm_i2c_init. unfold_kernel. logs_tac.
Qed.
#[local] Hint Resolve logs_ok_i2c_init : logs.

Lemma logs_ok_touch_init : logs_ok (omap5evm_touch_init K).
Proof.
  unfold omap5evm_touch_init. unfold_kernel. logs_tac.
Qed.
#[local] Hint Resolve logs_ok_touch_init : logs.

Lemma logs_ok_wifi_mux_init : logs_ok omap5_sdp5430_wifi_mux_init.
Proof.
  unfold omap5_sdp5430_wifi_mux_init. unfold_kernel. logs_tac.
Qed.
#[local] Hint Resolve logs_ok_wifi_mux_init : logs.

Lemma logs_ok_wifi_init : logs_ok (omap5_sdp5430_wifi_init K cfg).
Proof.
  unfold omap5_sdp5430_wifi_init. unfold_kernel. logs_tac.
Qed.
#[local] Hint Resolve logs_ok_wifi_init : logs.

Lemma logs_ok_ehci_ohci_init : logs_ok omap_ehci_ohci_init.
Proof.
  unfold omap_ehci_ohci_init. unfold_kernel. logs_tac.
Qed.
#[local] Hint Resolve logs_ok_ehci_ohci_init : logs.

Lemma logs_ok_lcd_init : logs_ok (omap5evm_lcd_init K).
Proof.
  unfold omap5evm_lcd_init. unfold_kernel. logs_tac.
Qed.
#[local] Hint Resolve logs_ok_lcd_init : logs.

Lemma logs_ok_hdmi_init : logs_ok (omap5evm_hdmi_init K).
Proof.
  unfold omap5evm_hdmi_init. unfold_kernel. logs_tac.
Qed.
#[local] Hint Resolve logs_ok_hdmi_init : logs.

Lemma logs_ok_display_init : logs_ok (omap5evm_display_init K).
Proof.
  unfold omap5evm_display_init. unfold_kernel. logs_tac.
Qed.
#[local] Hint Resolve logs_ok_display_init : logs.

Lemma logs_ok_common_init : logs_ok (omap54xx_common_init K cfg).
Proof.
  unfold omap54xx_common_init. unfold_kernel. logs_tac.
Qed.
#[local] Hint Resolve logs_ok_common_init : logs.

Lemma logs_ok_sevm_init : logs_ok (omap_5430_sevm_init K cfg).
Proof.
  unfold omap_5430_sevm_init. unfold_kernel. logs_tac.
Qed.
#[local] Hint Resolve logs_ok_sevm_init : logs.

Lemma logs_ok_uevm_init : logs_ok (omap_5432_uevm_init K cfg).
Proof.
  unfold omap_5432_uevm_init. unfold_kernel. logs_tac.
Qed.
#[local] Hint Resolve logs_ok_uevm_init : logs.


End Logging.

(** ** Reduction to the run without failures *)

Lemma calm_same_clk (K : kernel) :
  forall n s, ret_clk_get K n s = ret_clk_get (calm (ret_clk_get K)) n s.
Proof.
  reflexivity.
Qed.

Lemma init_vs_calm (K : kernel) (cfg : build) (model : string)
    (sd : statics) (n : nat) :
  let r := omap_54xx_init K cfg model sd n in
  let r0 := omap_54xx_init (calm (ret_clk_get K)) cfg model sd n in
  same_config (mem r) (mem r0) /\
  skeleton (events r) = skeleton (events r0).
Proof.
  destruct (@sim_54xx_init K (calm (ret_clk_get K)) cfg (calm_same_clk K)
              model sd sd n (same_config_refl sd))
    as (Hc & _ & Hs).
  auto.
Qed.

Ltac split_build cfg :=
  let p := fresh "palmas" in
  let w := fresh "wl12xx" in
  let m := fresh "mux" in
  destruct cfg as [p w m ? ?]; destruct p, w, m.

Ltac split_clk :=
  repeat match goal with
         | |- context [match ?c with ERR_PTR _ => _ | clk_at _ => _ end] =>
             destruct c
         end.

(** The routines entered by machine init when no request fails. *)
Lemma calm_init_entries (g : nat -> string -> clk_ptr) (cfg : build)
    (model : string) (sd : statics) (n : nat) :
  let tr := events (omap_54xx_init (calm g) cfg model sd n) in
  entries rt_omap_5432_uevm_init tr
    = (if strcmp model "TI OMAP5 uEVM" =? 0 then 1%nat else 0%nat) /\
  entries rt_omap_5430_sevm_init tr
    = (if strcmp model "TI OMAP5 uEVM" =? 0 then 0%nat else 1%nat) /\
  entries rt_omap54xx_common_init tr = 1%nat.
Proof.
  unfold omap_54xx_init.
  destruct (strcmp model "TI OMAP5 uEVM" =? 0); split_build cfg;
    vm_compute; split_clk; repeat split; reflexivity.
Qed.

Lemma init_entries (K : kernel) (cfg : build) (model : string)
    (sd : statics) (n : nat) :
  let tr := events (omap_54xx_init K cfg model sd n) in
  entries rt_omap_5432_uevm_init tr
    = (if strcmp model "TI OMAP5 uEVM" =? 0 then 1%nat else 0%nat) /\
  entries rt_omap_5430_sevm_init tr
    = (if strcmp model "TI OMAP5 uEVM" =? 0 then 0%nat else 1%nat) /\
  entries rt_omap54xx_common_init tr = 1%nat.
Proof.
  destruct (init_vs_calm K cfg model sd n) as (_ & Hs).
  destruct (calm_init_entries (ret_clk_get K) cfg model sd n)
    as (H1 & H2 & H3).
  cbv zeta.
  split; [|split];
    (etransitivity; [apply (same_skeleton_entries _ _ _ Hs) | assumption]).
Qed.

Lemma variant_vs_calm_entries (K : kernel) (cfg : build) (sd : statics)
    (n : nat) :
  entries rt_omap54xx_common_init (events (omap_5432_uevm_init K cfg sd n))
    = 1%nat /\
  entries rt_omap54xx_common_init (events (omap_5430_sevm_init K cfg sd n))
    = 1%nat.
Proof.
  destruct (@sim_uevm_init K (calm (ret_clk_get K)) cfg (calm_same_clk K)
              sd sd n (same_config_refl sd)) as (_ & _ & Hu).
  destruct (@sim_sevm_init K (calm (ret_clk_get K)) cfg
              sd sd n (same_config_refl sd)) as (_ & _ & Hs).
  split.
  - etransitivity; [apply (same_skeleton_entries _ _ _ Hu)|].
    split_build cfg; vm_compute; split_clk; reflexivity.
  - etransitivity; [apply (same_skeleton_entries _ _ _ Hs)|].
    split_build cfg; vm_compute; reflexivity.
Qed.

(** ** Selecting the board variant *)

(** C1: machine init runs [omap_5432_uevm_init] exactly when
    [dt_selected_model] holds the string "TI OMAP5 uEVM" and
    [omap_5430_sevm_init] otherwise; for every model exactly one of the
    two runs, and each of them runs [omap54xx_common_init] exactly
    once. *)
Theorem board_variant_selection (K : kernel) (cfg : build)
    (dt_selected_model : string) (sd : statics) (n : nat) :
  let tr := events (omap_54xx_init K cfg dt_selected_model sd n) in
  (entries rt_omap_5432_uevm_init tr = 1%nat
   <-> c_str dt_selected_model = "TI OMAP5 uEVM") /\
  (entries rt_omap_5430_sevm_init tr = 1%nat
   <-> c_str dt_selected_model <> "TI OMAP5 uEVM") /\
  (entries rt_omap_5432_uevm_init tr + entries rt_omap_5430_sevm_init tr
   = 1)%nat /\
  entries rt_omap54xx_common_init tr = 1%nat /\
  entries rt_omap54xx_common_init (events (omap_5432_uevm_init K cfg sd n))
    = 1%nat /\
  entries rt_omap54xx_common_init (events (omap_5430_sevm_init K cfg sd n))
    = 1%nat.
Proof.
  destruct (init_entries K cfg dt_selected_model sd n) as (Hu & Hs & Hc).
  destruct (variant_vs_calm_entries K cfg sd n) as (Hcu & Hcs).
  pose proof (uevm_model_test dt_selected_model) as Ht.
  cbv zeta in *. rewrite Hu, Hs.
  destruct (strcmp dt_selected_model "TI OMAP5 uEVM" =? 0).
  - assert (Hm : c_str dt_selected_model = "TI OMAP5 uEVM")
      by (apply Ht; reflexivity).
    repeat split; auto; try discriminate. intros H. contradiction.
  - assert (Hm : c_str dt_selected_model <> "TI OMAP5 uEVM")
      by (intros H; apply Ht in H; discriminate).
    repeat split; auto; try discriminate. intros H. contradiction.
Qed.

(** ** The I2C buses *)

Lemma wp_bind {A B : Type} (m : M A) (f : A -> M B) Q sd n :
  wp m (fun a => wp (f a) Q) sd n -> wp (bind m f) Q sd n.
Proof.
  exact (fun H => H).
Qed.

Lemma wp_ret {A : Type} (a : A) (Q : A -> statics -> nat -> Prop) sd n :
  Q a sd n -> wp (ret a) Q sd n.
Proof.
  exact (fun H => H).
Qed.

Lemma wp_emit (e : event) (Q : unit -> statics -> nat -> Prop) sd n :
  Q tt sd n -> wp (emit e) Q sd n.
Proof.
  exact (fun H => H).
Qed.

Lemma wp_kcall_void (c : kcall) (Q : unit -> statics -> nat -> Prop) sd n :
  Q tt sd (S n) -> wp (kcall_void c) Q sd n.
Proof.
  exact (fun H => H).
Qed.

Lemma wp_if {A : Type} (b : bool) (m1 m2 : M A) Q sd n :
  wp m1 Q sd n -> wp m2 Q sd n -> wp (if b then m1 else m2) Q sd n.
Proof.
  destruct b; auto.
Qed.

Lemma wp_hwspinlock_init K b id p (Q : unit -> statics -> nat -> Prop) sd n :
  Q tt
    (store_bus_pdata p
       (lock_outcome (if id <? 0 then ret_hwspin_lock_request K n
                      else ret_hwspin_lock_request_specific K n id)
                     (load_bus_pdata p sd)) sd)
    (S n) ->
  wp (omap_i2c_hwspinlock_init K b id p) Q sd n.
Proof.
  unfold wp.
  destruct (hwspinlock_init_effect K b id p sd n) as (_ & Ht & Hm & _).
  rewrite Hm, Ht. destruct (value _). exact (fun H => H).
Qed.

Ltac wp_tac :=
  repeat lazymatch goal with
         | |- wp (bind _ _) _ _ _ => apply wp_bind
         | |- wp (omap_i2c_hwspinlock_init _ _ _ _) _ _ _ =>
             apply wp_hwspinlock_init
         | |- wp (emit _) _ _ _ => apply wp_emit
         | |- wp (kcall_void _) _ _ _ => apply wp_kcall_void
         | |- wp (if _ then _ else _) _ _ _ => apply wp_if
         | |- wp (ret _) _ _ _ => apply wp_ret
         end.

(** The board data of bus [k] receives the answer to the request of
    lock [k - 1]; nothing else in the statics changes. *)
Lemma i2c_init_board_data (K : kernel) (cfg : build) (sd : statics)
    (n : nat) :
  wp (omap_5430evm_i2c_init K cfg)
     (fun _ sd' n' =>
        sdp4430_i2c_1_bus_pdata sd'
          = lock_outcome (ret_hwspin_lock_request_specific K n 0)
                         (sdp4430_i2c_1_bus_pdata sd) /\
        sdp4430_i2c_2_bus_pdata sd'
          = lock_outcome (ret_hwspin_lock_request_specific K (1 + n) 1)
                         (sdp4430_i2c_2_bus_pdata sd) /\
        sdp4430_i2c_3_bus_pdata sd'
          = lock_outcome (ret_hwspin_lock_request_specific K (2 + n) 2)
                         (sdp4430_i2c_3_bus_pdata sd) /\
        sdp4430_i2c_4_bus_pdata sd'
          = lock_outcome (ret_hwspin_lock_request_specific K (3 + n) 3)
                         (sdp4430_i2c_4_bus_pdata sd) /\
        sdp4430_i2c_5_bus_pdata sd'
          = lock_outcome (ret_hwspin_lock_request_specific K (4 + n) 4)
                         (sdp4430_i2c_5_bus_pdata sd) /\
        same_config sd' sd /\
        n' = (15 + n)%nat)
     sd n.
Proof.
  unfold omap_5430evm_i2c_init, enter, omap_register_i2c_bus_board_data,
    omap_register_i2c_bus.
  wp_tac; cbn; repeat split; reflexivity.
Qed.


(** C5: [omap_5430evm_i2c_init] requests the hardware spinlocks 0 to 4
    for the buses 1 to 5, then registers the board data of the buses 1
    to 5, then registers the five buses at 400 kHz in ascending order:
    bus 1 with the PMIC and audio codec table under
    [CONFIG_OMAP5_SEVM_PALMAS] and without a table otherwise, buses 2
    to 4 without a table, bus 5 with the keypad at 0x38 and the GPIO
    expander at 0x22; it returns 0.  The board data of bus [k] holds
    the answer to the request of lock [k - 1]. *)
Theorem i2c_init_sequence (K : kernel) (cfg : build) (sd : statics)
    (n : nat) :
  let r := omap_5430evm_i2c_init K cfg sd n in
  kernel_calls (events r) =
    [ call_hwspin_lock_request_specific 0;
      call_hwspin_lock_request_specific 1;
      call_hwspin_lock_request_specific 2;
      call_hwspin_lock_request_specific 3;
      call_hwspin_lock_request_specific 4;
      call_omap_register_i2c_bus_board_data 1 addr_sdp4430_i2c_1_bus_pdata;
      call_omap_register_i2c_bus_board_data 2 addr_sdp4430_i2c_2_bus_pdata;
      call_omap_register_i2c_bus_board_data 3 addr_sdp4430_i2c_3_bus_pdata;
      call_omap_register_i2c_bus_board_data 4 addr_sdp4430_i2c_4_bus_pdata;
      call_omap_register_i2c_bus_board_data 5 addr_sdp4430_i2c_5_bus_pdata;
      (if CONFIG_OMAP5_SEVM_PALMAS cfg
       then call_omap_register_i2c_bus 1 400
              (Some (omap5evm_i2c_1_boardinfo cfg)) 2
       else call_omap_register_i2c_bus 1 400 None 0);
      call_omap_register_i2c_bus 2 400 None 0;
      call_omap_register_i2c_bus 3 400 None 0;
      call_omap_register_i2c_bus 4 400 None 0;
      call_omap_register_i2c_bus 5 400 (Some omap5evm_i2c_5_boardinfo) 2 ] /\
  (if CONFIG_OMAP5_SEVM_PALMAS cfg
   then map (fun b => (i2c_type b, i2c_addr b)) (omap5evm_i2c_1_boardinfo cfg)
        = [("twl6035", 0x48); ("twl6040", 0x4b)]
   else True) /\
  map (fun b => (i2c_type b, i2c_addr b)) omap5evm_i2c_5_boardinfo
    = [("smsc", 0x38); ("tca6424", 0x22)] /\
  value r = 0 /\
  sdp4430_i2c_1_bus_pdata (mem r)
    = lock_outcome (ret_hwspin_lock_request_specific K n 0)
                   (sdp4430_i2c_1_bus_pdata sd) /\
  sdp4430_i2c_2_bus_pdata (mem r)
    = lock_outcome (ret_hwspin_lock_request_specific K (1 + n) 1)
                   (sdp4430_i2c_2_bus_pdata sd) /\
  sdp4430_i2c_3_bus_pdata (mem r)
    = lock_outcome (ret_hwspin_lock_request_specific K (2 + n) 2)
                   (sdp4430_i2c_3_bus_pdata sd) /\
  sdp4430_i2c_4_bus_pdata (mem r)
    = lock_outcome (ret_hwspin_lock_request_specific K (3 + n) 3)
                   (sdp4430_i2c_4_bus_pdata sd) /\
  sdp4430_i2c_5_bus_pdata (mem r)
    = lock_outcome (ret_hwspin_lock_request_specific K (4 + n) 4)
                   (sdp4430_i2c_5_bus_pdata sd).
Proof.
  destruct (@sim_i2c_init K (calm (ret_clk_get K)) cfg
              sd sd n (same_config_refl sd)) as (_ & _ & Hs).
  destruct (i2c_init_board_data K cfg sd n)
    as (H1 & H2 & H3 & H4 & H5 & _).
  cbv zeta. split; [|split; [|split; [|split]]].
  - etransitivity; [apply (same_skeleton_calls _ _ Hs)|].
    split_build cfg; vm_compute; reflexivity.
  - split_build cfg; cbn; auto.
  - reflexivity.
  - reflexivity.
  - auto 6.
Qed.

(** Without hardware spinlocks the five requests fail: five errors are
    logged, one per bus, and the buses are registered all the same. *)
Example i2c_init_without_locks :
  let r := omap_5430evm_i2c_init kernel_nolock build_full boot 0%nat in
  logs (events r) =
    map (fun bus =>
           Log KERN_ERR "I2C hwspinlock request failed for bus %d\n"
               [arg_int bus])
        [1; 2; 3; 4; 5] /\
  kernel_calls (events r)
    = kernel_calls
        (events (omap_5430evm_i2c_init kernel_ok build_full boot 0%nat)) /\
  mem r = boot.
Proof.
  vm_compute. repeat split; reflexivity.
Qed.

(** ** The reference clock of the USB PHY *)

Lemma common_init_no_clk (K : kernel) (cfg : build) (sd : statics)
    (n : nat) :
  filter is_clk_call (kernel_calls (events (omap54xx_common_init K cfg sd n)))
    = [].
Proof.
  destruct (@sim_common_init K (calm (ret_clk_get K)) cfg
              sd sd n (same_config_refl sd)) as (_ & _ & Hs).
  rewrite (same_skeleton_calls _ _ Hs).
  split_build cfg; vm_compute; reflexivity.
Qed.

(** C6: on the uEVM path [clk_get] is called once, for "auxclk1_ck".
    When it answers an error pointer, the next event is the log message
    and neither [clk_set_rate] nor [clk_enable] is called; otherwise
    the rate is set to 19200000 Hz and the clock is enabled.  Either
    way the common init follows, and it makes no clock call. *)
Theorem uevm_phy_clock (K : kernel) (cfg : build) (sd : statics) (n : nat) :
  let c := ret_clk_get K (S n) "auxclk1_ck" in
  let tr := events (omap_5432_uevm_init K cfg sd n) in
  (exists sd' n',
     tr =
       [ Enter rt_omap_5432_uevm_init;
         Log KERN_INFO "Starting 5432 uEVM setup" [];
         KCall (call_omap_mux_init_array addr_omap5432_uevm_mux 18) RVoid;
         KCall (call_clk_get NULL "auxclk1_ck") (RClk c) ]
       ++ (if IS_ERR c
           then [ Log KERN_ERR "Cannot request auxclk1\n" [] ]
           else [ KCall (call_clk_set_rate c 19200000) RVoid;
                  KCall (call_clk_enable c) RVoid ])
       ++ events (omap54xx_common_init K cfg sd' n')) /\
  filter is_clk_call (kernel_calls tr) =
    call_clk_get NULL "auxclk1_ck"
    :: (if IS_ERR c
        then []
        else [ call_clk_set_rate c 19200000; call_clk_enable c ]).
Proof.
  cbv zeta.
  assert (H : exists sd' n',
     events (omap_5432_uevm_init K cfg sd n) =
       [ Enter rt_omap_5432_uevm_init;
         Log KERN_INFO "Starting 5432 uEVM setup" [];
         KCall (call_omap_mux_init_array addr_omap5432_uevm_mux 18) RVoid;
         KCall (call_clk_get NULL "auxclk1_ck")
               (RClk (ret_clk_get K (S n) "auxclk1_ck")) ]
       ++ (if IS_ERR (ret_clk_get K (S n) "auxclk1_ck")
           then [ Log KERN_ERR "Cannot request auxclk1\n" [] ]
           else [ KCall (call_clk_set_rate
                           (ret_clk_get K (S n) "auxclk1_ck") 19200000) RVoid;
                  KCall (call_clk_enable (ret_clk_get K (S n) "auxclk1_ck"))
                        RVoid ])
       ++ events (omap54xx_common_init K cfg sd' n')).
  { unfold omap_5432_uevm_init. unfold_kernel.
    generalize (omap54xx_common_init K cfg). intros post.
    cbn. destruct (ret_clk_get K (S n) "auxclk1_ck"); cbn;
      do 2 eexists; reflexivity. }
  split; [exact H|].
  destruct H as (sd' & n' & ->).
  pose proof (common_init_no_clk K cfg sd' n') as Hpost. revert Hpost.
  generalize (events (omap54xx_common_init K cfg sd' n')). intros post Hpost.
  rewrite !kernel_calls_app, !filter_app, Hpost.
  destruct (ret_clk_get K (S n) "auxclk1_ck"); reflexivity.
Qed.

(** Without the clock, the uEVM path logs the failure and goes on. *)
Example uevm_without_clock :
  let tr :=
    events (omap_54xx_init kernel_noclk build_full "TI OMAP5 uEVM" boot 0%nat)
  in
  filter is_clk_call (kernel_calls tr) = [ call_clk_get NULL "auxclk1_ck" ] /\
  logs tr =
    [ Log KERN_INFO "Starting 5432 uEVM setup" [];
      Log KERN_ERR "Cannot request auxclk1\n" [] ] /\
  List.length (kernel_calls tr) = 46%nat.
Proof.
  vm_compute. repeat split; reflexivity.
Qed.

(** ** What the board variants change in the statics *)

Lemma same_config_fields (a b : statics) :
  same_config a b ->
  variant_fields a = variant_fields b /\
  wl_irq (omap5_sdp5430_wlan_data a) = wl_irq (omap5_sdp5430_wlan_data b) /\
  gpio_wlan_irq a = gpio_wlan_irq b /\
  blank_runtime_fields (blank_variant_fields a)
    = blank_runtime_fields (blank_variant_fields b).
Proof.
  destruct a, b. unfold same_config. cbn.
  intros (-> & -> & -> & -> & ->). repeat split.
Qed.

Lemma calm_init_statics (g : nat -> string -> clk_ptr) (cfg : build)
    (model : string) (n : nat) :
  let sd' := mem (omap_54xx_init (calm g) cfg model boot n) in
  variant_fields sd'
    = (if strcmp model "TI OMAP5 uEVM" =? 0
       then [152; 80; 15; 14; 141]
       else [67; 173; 172; 9; 145]) /\
  wl_irq (omap5_sdp5430_wlan_data sd')
    = (if CONFIG_WL12XX_PLATFORM_DATA cfg
       then OMAP_GPIO_IRQ cfg (gpio_wlan_irq sd')
       else 0) /\
  blank_runtime_fields (blank_variant_fields sd')
    = blank_runtime_fields (blank_variant_fields boot).
Proof.
  unfold omap_54xx_init.
  destruct (strcmp model "TI OMAP5 uEVM" =? 0); split_build cfg;
    vm_compute; split_clk; repeat split; reflexivity.
Qed.

(** C2, as amended: the uEVM path sets [mmc[1].gpio_cd] to 152,
    [usbhs_bdata.reset_gpio_port[1]] to 80,
    [usbhs_bdata.reset_gpio_port[2]] to 15, [gpio_wlan_irq] to 14 and
    [twl6040_data.audpwron_gpio] to 141; on the sEVM path these fields
    keep 67, 173, 172, 9 and 145.  On both paths the WLAN interrupt
    [omap5_sdp5430_wlan_data.irq] becomes [OMAP_GPIO_IRQ(gpio_wlan_irq)]
    under [CONFIG_WL12XX_PLATFORM_DATA], and the five I2C bus board data
    are written by [omap_i2c_hwspinlock_init]; every other field of the
    mutable statics keeps its initial value. *)
Theorem variant_field_overrides (K : kernel) (cfg : build)
    (dt_selected_model : string) (n : nat) :
  let sd' := mem (omap_54xx_init K cfg dt_selected_model boot n) in
  variant_fields sd'
    = (if strcmp dt_selected_model "TI OMAP5 uEVM" =? 0
       then [152; 80; 15; 14; 141]
       else [67; 173; 172; 9; 145]) /\
  wl_irq (omap5_sdp5430_wlan_data sd')
    = (if CONFIG_WL12XX_PLATFORM_DATA cfg
       then OMAP_GPIO_IRQ cfg (gpio_wlan_irq sd')
       else 0) /\
  blank_runtime_fields (blank_variant_fields sd')
    = blank_runtime_fields (blank_variant_fields boot).
Proof.
  destruct (init_vs_calm K cfg dt_selected_model boot n) as (Hc & _).
  destruct (same_config_fields Hc) as (Hv & Hw & Hg & Hb).
  destruct (calm_init_statics (ret_clk_get K) cfg dt_selected_model n)
    as (Hv0 & Hw0 & Hb0).
  cbv zeta in *. revert Hv Hw Hg Hb Hv0 Hw0 Hb0.
  generalize (mem (omap_54xx_init K cfg dt_selected_model boot n)).
  generalize
    (mem (omap_54xx_init (calm (ret_clk_get K)) cfg dt_selected_model boot n)).
  intros b a Hv Hw Hg Hb Hv0 Hw0 Hb0.
  rewrite Hv, Hw, Hg, Hb. auto.
Qed.

(** C2, as stated, fails: on the sEVM path fields outside the five
    overrides change as well, among them the WLAN interrupt and the
    hardware spinlock handle of I2C bus 1. *)
Lemma variant_frame_fails :
  let sd' :=
    mem (omap_54xx_init kernel_ok build_full "TI OMAP5 sEVM" boot 0%nat) in
  wl_irq (omap5_sdp5430_wlan_data boot) = 0 /\
  wl_irq (omap5_sdp5430_wlan_data sd') = 169 /\
  sdp4430_i2c_1_bus_pdata boot = zero_bus_pdata /\
  sdp4430_i2c_1_bus_pdata sd' =
    {| handle := 0x1000;
       hwspin_lock_timeout := Some fn_hwspin_lock_timeout;
       hwspin_unlock := Some fn_hwspin_unlock |} /\
  blank_variant_fields sd' <> blank_variant_fields boot.
Proof.
  cbv zeta. repeat split; try (vm_compute; reflexivity).
  intros H.
  apply (f_equal (fun sd => wl_irq (omap5_sdp5430_wlan_data sd))) in H.
  vm_compute in H. discriminate.
Qed.

(** ** Failures during machine init *)




(** The HDMI enable callback drops the answer to its first request as
    well: only the second request is tested. *)
Lemma panel_enable_hdmi_requests (K : kernel) (sd : statics) (n : nat) :
  let r := omap5evm_panel_enable_hdmi K sd n in
  value r = 0 /\
  kernel_calls (events r) =
    [ call_gpio_request_one 257 GPIOF_OUT_INIT_HIGH "HDMI_HPD_EN";
      call_gpio_request_one 256 GPIOF_OUT_INIT_HIGH "HDMI_OE" ] /\
  logs (events r) =
    Log KERN_INFO "omap5evm_panel_enable_hdmi\n" []
    :: (if ret_gpio_request_one K (S n) 256 GPIOF_OUT_INIT_HIGH "HDMI_OE"
           =? 0
        then []
        else [ Log KERN_ERR "Failed to get HDMI OE GPIO\n" [] ]).
Proof.
  unfold omap5evm_panel_enable_hdmi, HDMI_OE_GPIO, HDMI_HPD_EN_GPIO.
  unfold_kernel. cbn.
  destruct (ret_gpio_request_one K (S n) 256 GPIOF_OUT_INIT_HIGH "HDMI_OE"
              =? 0); cbn; repeat split; reflexivity.
Qed.

(** * Further properties *)

(** ** The tables *)

(** X1: each keymap lists every position of its matrix exactly once, row
    by row: the 8x8 matrix of the OMAP keypad and the 8x16 matrix of
    the SMSC keypad. *)
Theorem keymaps_row_major :
  map key_position evm5430_keymap
    = matrix_positions (kp4_rows evm5430_keypad_data)
                       (kp4_cols evm5430_keypad_data) /\
  map key_position board_keymap
    = matrix_positions (smsc_rows omap5_kp_data) (smsc_cols omap5_kp_data).
Proof.
  split; vm_compute; reflexivity.
Qed.

(** X2: the two PMIC tables, indexed by regulator, are aligned: they
    have the same length, 21, and an entry of the register-initialisation
    table is NULL exactly where the constraint table has NULL, at the
    indexes 1, 2 and 4 (SMPS123, SMPS3 and SMPS457). *)
Theorem palmas_tables_aligned (F : regulator_flags) :
  List.length (palmas_omap5_reg F) = List.length palmas_omap_reg_init /\
  map is_some (palmas_omap5_reg F) = map is_some palmas_omap_reg_init /\
  List.length palmas_omap_reg_init = 21%nat /\
  map is_some palmas_omap_reg_init
    = [ true; false; false; true; false; true; true; true; true; true;
        true; true; true; true; true; true; true; true; true; true; true ].
Proof.
  repeat split; reflexivity.
Qed.

(** X3: on every I2C bus the devices have different addresses, and
    every address is a valid 7-bit address. *)
Theorem i2c_addresses_unique (cfg : build) :
  distinct (map i2c_addr (omap5evm_i2c_1_boardinfo cfg)) = true /\
  distinct (map i2c_addr omap5evm_i2c_5_boardinfo) = true /\
  forallb (fun b => (0x08 <=? i2c_addr b) && (i2c_addr b <=? 0x77))
          (omap5evm_i2c_1_boardinfo cfg ++ omap5evm_i2c_5_boardinfo
           ++ hdmi_i2c_eeprom) = true.
Proof.
  destruct cfg as [[] ? ? ? ?]; repeat split; reflexivity.
Qed.

(** ** Reporting of the failures machine init detects *)

Lemma stray_logs_app (a b : list event) :
  followed_by_log detected_failure a = true ->
  stray_logs (a ++ b) = stray_logs a ++ stray_logs b.
Proof.
  remember (List.length a) as k eqn:Hk.
  revert a Hk. induction k as [k IH] using lt_wf_ind. intros a Hk H.
  destruct a as [|e a]; [reflexivity|].
  destruct e as [f|c r|l f s]; cbn in *.
  - apply (IH (List.length a)); [lia | reflexivity | exact H].
  - apply andb_true_iff in H. destruct H as (H1 & H2).
    destruct (detected_failure c r).
    + destruct a as [|[f|c' r'|l f s] a]; try discriminate.
      cbn in *. apply (IH (List.length a)); [lia | reflexivity | exact H2].
    + apply (IH (List.length a)); [lia | reflexivity | exact H2].
  - f_equal. apply (IH (List.length a)); [lia | reflexivity | exact H].
Qed.

Lemma reports_ret {A : Type} (a : A) : reports (ret a) [].
Proof.
  intros sd n. split; reflexivity.
Qed.

Lemma reports_bind {A B : Type} (m : M A) (f : A -> M B) (s : list event) :
  reports m [] -> (forall a, reports (f a) s) -> reports (bind m f) s.
Proof.
  intros Hm Hf sd n. cbn.
  destruct (Hm sd n) as (H1 & H2).
  destruct (Hf (value (m sd n)) (mem (m sd n)) (ticks (m sd n)))
    as (H3 & H4).
  split.
  - apply followed_by_log_app; assumption.
  - rewrite stray_logs_app, H2, H4; [reflexivity | assumption].
Qed.

Lemma reports_banner {A : Type} lvl fmt args (k : M A) (s : list event) :
  reports k s ->
  reports (bind (emit (Log lvl fmt args)) (fun _ => k))
          (Log lvl fmt args :: s).
Proof.
  intros Hk sd n. cbn. destruct (Hk sd n) as (H1 & H2).
  split; [exact H1 | rewrite H2; reflexivity].
Qed.

Lemma reports_enter (f : routine) : reports (emit (Enter f)) [].
Proof.
  intros sd n. split; reflexivity.
Qed.

Lemma reports_when (b : bool) (m : M unit) :
  reports m [] -> reports (when b m) [].
Proof.
  intros H. destruct b; [exact H | apply reports_ret].
Qed.

Lemma reports_gets {A : Type} (f : statics -> A) : reports (gets f) [].
Proof.
  intros sd n. split; reflexivity.
Qed.

Lemma reports_modify (g : statics -> statics) : reports (modify g) [].
Proof.
  intros sd n. split; reflexivity.
Qed.

Lemma reports_kcall_void (c : kcall) : reports (kcall_void c) [].
Proof.
  intros sd n. destruct c; split; reflexivity.
Qed.

(** A call whose answer the file does not look at. *)
Lemma reports_kcall_int (c : kcall) (o : nat -> Z) :
  (forall r, detected_failure c (RInt r) = false) ->
  reports (kcall_int c o) [].
Proof.
  intros Hc sd n. cbn. rewrite Hc. split; reflexivity.
Qed.

(** The idiom [r = request(...); if (r) pr_err(...);]. *)
Lemma reports_tested {A : Type} (c : kcall) (o : nat -> Z)
    (lvl : log_level) (fmt : string) (args : Z -> list log_arg)
    (k : M A) (s : list event) :
  (forall r, detected_failure c (RInt r) = negb (r =? 0)) ->
  reports k s ->
  reports (bind (kcall_int c o)
             (fun r => bind (when (negb (r =? 0)) (emit (Log lvl fmt (args r))))
                            (fun _ => k))) s.
Proof.
  intros Hc Hk sd n. cbn. rewrite Hc.
  destruct (o n =? 0); cbn; destruct (Hk sd (S n)) as (H1 & H2);
    rewrite H1, H2; split; reflexivity.
Qed.

Lemma reports_tested_last (c : kcall) (o : nat -> Z)
    (lvl : log_level) (fmt : string) (args : Z -> list log_arg) :
  (forall r, detected_failure c (RInt r) = negb (r =? 0)) ->
  reports (bind (kcall_int c o)
             (fun r => when (negb (r =? 0)) (emit (Log lvl fmt (args r))))) [].
Proof.
  intros Hc sd n. cbn. rewrite Hc.
  destruct (o n =? 0); cbn; split; reflexivity.
Qed.

(** The idiom of the clock lookup: an error pointer is logged, a clock
    is used. *)
Lemma reports_clk {A : Type} (dev : Z) (con_id : string)
    (o : nat -> clk_ptr) lvl fmt args (use : clk_ptr -> M unit)
    (k : M A) (s : list event) :
  (forall p, reports (use p) []) ->
  reports k s ->
  reports (bind (kcall_clk (call_clk_get dev con_id) o)
             (fun p => bind (if IS_ERR p
                             then emit (Log lvl fmt args)
                             else use p)
                            (fun _ => k))) s.
Proof.
  intros Hu Hk sd n. cbn.
  destruct (o n) as [e|a]; cbn.
  - destruct (Hk sd (S n)) as (H1 & H2). rewrite H1, H2. split; reflexivity.
  - destruct (Hu (clk_at a) sd (S n)) as (H1 & H2).
    destruct (Hk (mem (use (clk_at a) sd (S n)))
                 (ticks (use (clk_at a) sd (S n)))) as (H3 & H4).
    split.
    + apply followed_by_log_app; assumption.
    + rewrite stray_logs_app, H2, H4; [reflexivity | assumption].
Qed.

Create HintDb reports discriminated.

Ltac reports_tac :=
  lazymatch goal with
  | |- reports (bind (kcall_int _ _) (fun r => bind (when _ _) _)) _ =>
      first [ apply (reports_tested _ _ _ _ (fun _ => _));
              [ intro; reflexivity | reports_tac ]
            | apply reports_tested with (args := fun r => [arg_int r]);
              [ intro; reflexivity | reports_tac ] ]
  | |- reports (bind (kcall_int _ _) (fun r => when _ _)) _ =>
      apply (reports_tested_last _ _ _ _ (fun _ => _)); intro; reflexivity
  | |- reports (bind (kcall_clk _ _) _) _ =>
      apply reports_clk; [ intro; reports_tac | reports_tac ]
  | |- reports (bind (emit (Log _ _ _)) _) _ =>
      apply reports_banner; reports_tac
  | |- reports (bind _ _) _ =>
      apply reports_bind; [ reports_tac | intro; reports_tac ]
  | |- reports (ret _) _ => apply reports_ret
  | |- reports (when _ _) _ => apply reports_when; reports_tac
  | |- reports (if ?b then _ else _) _ => destruct b; reports_tac
  | |- reports (emit (Enter _)) _ => apply reports_enter
  | |- reports (kcall_void _) _ => apply reports_kcall_void
  | |- reports (kcall_int _ _) _ =>
      apply reports_kcall_int; intro; reflexivity
  | |- reports (gets _) _ => apply reports_gets
  | |- reports (modify _) _ => apply reports_modify
  | |- _ => solve [auto with reports]
  end.

Section Reporting.
Variable K : kernel.
Variable cfg : build.

Lemma reports_hwspinlock_init bus_id spinlock_id pdata :
  reports (omap_i2c_hwspinlock_init K bus_id spinlock_id pdata) [].
Proof.
  intros sd n. unfold omap_i2c_hwspinlock_init. unfold_kernel.
  destruct (spinlock_id <? 0); cbn.
  - destruct pdata; cbn;
      destruct (ret_hwspin_lock_request K n =? NULL); cbn;
      split; reflexivity.
  - destruct pdata; cbn;
      destruct (ret_hwspin_lock_request_specific K n spinlock_id =? NULL);
      cbn; split; reflexivity.
Qed.
#[local] Hint Resolve reports_hwspinlock_init : reports.

Lemma reports_i2c_init : reports (omap_5430evm_i2c_init K cfg) [].
Proof.
  unfold omap_5430evm_i2c_init. unfold_kernel. reports_tac.
Qed.
#[local] Hint Resolve reports_i2c_init : reports.

Lemma reports_touch_init : reports (omap5evm_touch_init K) [].
Proof.
  unfold omap5evm_touch_init. unfold_kernel. reports_tac.
Qed.
#[local] Hint Resolve reports_touch_init : reports.

Lemma reports_wifi_mux_init : reports omap5_sdp5430_wifi_mux_init [].
Proof.
  unfold omap5_sdp5430_wifi_mux_init. unfold_kernel. reports_tac.
Qed.
#[local] Hint Resolve reports_wifi_mux_init : reports.

Lemma reports_wifi_init : reports (omap5_sdp5430_wifi_init K cfg) [].
Proof.
  unfold omap5_sdp5430_wifi_init. unfold_kernel. reports_tac.
Qed.
#[local] Hint Resolve reports_wifi_init : reports.

Lemma reports_ehci_ohci_init : reports omap_ehci_ohci_init [].
Proof.
  unfold omap_ehci_ohci_init. unfold_kernel. reports_tac.
Qed.
#[local] Hint Resolve reports_ehci_ohci_init : reports.

Lemma reports_lcd_init : reports (omap5evm_lcd_init K) [].
Proof.
  unfold omap5evm_lcd_init. unfold_kernel. reports_tac.
Qed.
#[local] Hint Resolve reports_lcd_init : reports.

Lemma reports_hdmi_init : reports (omap5evm_hdmi_init K) [].
Proof.
  unfold omap5evm_hdmi_init. unfold_kernel. reports_tac.
Qed.
#[local] Hint Resolve reports_hdmi_init : reports.

Lemma reports_display_init : reports (omap5evm_display_init K) [].
Proof.
  unfold omap5evm_display_init. unfold_kernel. reports_tac.
Qed.
#[local] Hint Resolve reports_display_init : reports.

Lemma reports_common_init : reports (omap54xx_common_init K cfg) [].
Proof.
  unfold omap54xx_common_init. unfold_kernel. reports_tac.
Qed.
#[local] Hint Resolve reports_common_init : reports.

Lemma reports_sevm_init :
  reports (omap_5430_sevm_init K cfg)
          [ Log KERN_INFO "Starting 5430 sEVM setup\n" [] ].
Proof.
  unfold omap_5430_sevm_init. unfold_kernel. reports_tac.
Qed.

Lemma reports_uevm_init :
  reports (omap_5432_uevm_init K cfg)
          [ Log KERN_INFO "Starting 5432 uEVM setup" [] ].
Proof.
  unfold omap_5432_uevm_init. unfold_kernel. reports_tac.
Qed.

End Reporting.

(** X4: machine init logs every failure it detects right after the
    failing call (a NULL hardware spinlock, an error pointer from
    [clk_get], a non-zero answer to [gpio_request_one],
    [wl12xx_set_platform_data] or [omap4_keyboard_init]), and apart
    from these messages it logs only the banner of the board variant:
    one message per detected failure. *)
Theorem init_reports_detected_failures (K : kernel) (cfg : build)
    (dt_selected_model : string) (sd : statics) (n : nat) :
  let tr := events (omap_54xx_init K cfg dt_selected_model sd n) in
  followed_by_log detected_failure tr = true /\
  stray_logs tr =
    [ if strcmp dt_selected_model "TI OMAP5 uEVM" =? 0
      then Log KERN_INFO "Starting 5432 uEVM setup" []
      else Log KERN_INFO "Starting 5430 sEVM setup\n" [] ].
Proof.
  cbv zeta. revert sd n.
  change (reports (omap_54xx_init K cfg dt_selected_model)
            [ if strcmp dt_selected_model "TI OMAP5 uEVM" =? 0
              then Log KERN_INFO "Starting 5432 uEVM setup" []
              else Log KERN_INFO "Starting 5430 sEVM setup\n" [] ]).
  unfold omap_54xx_init. unfold_kernel.
  apply reports_bind; [apply reports_enter | intros _].
  apply reports_bind; [apply reports_kcall_void | intros _].
  destruct (strcmp dt_selected_model "TI OMAP5 uEVM" =? 0);
    [apply reports_uevm_init | apply reports_sevm_init].
Qed.

(** ** The I2C bus board data after machine init *)

Lemma keeps_ret {A : Type} (a : A) : keeps_bus_pdata (ret a).
Proof.
  intros sd n. reflexivity.
Qed.

Lemma keeps_bind {A B : Type} (m : M A) (f : A -> M B) :
  keeps_bus_pdata m -> (forall a, keeps_bus_pdata (f a)) ->
  keeps_bus_pdata (bind m f).
Proof.
  intros Hm Hf sd n. cbn. rewrite Hf. apply Hm.
Qed.

Lemma keeps_emit (e : event) : keeps_bus_pdata (emit e).
Proof.
  intros sd n. reflexivity.
Qed.

Lemma keeps_kcall_void (c : kcall) : keeps_bus_pdata (kcall_void c).
Proof.
  intros sd n. reflexivity.
Qed.

Lemma keeps_kcall_int (c : kcall) (o : nat -> Z) :
  keeps_bus_pdata (kcall_int c o).
Proof.
  intros sd n. reflexivity.
Qed.

Lemma keeps_kcall_clk (c : kcall) (o : nat -> clk_ptr) :
  keeps_bus_pdata (kcall_clk c o).
Proof.
  intros sd n. reflexivity.
Qed.

Lemma keeps_gets {A : Type} (f : statics -> A) : keeps_bus_pdata (gets f).
Proof.
  intros sd n. reflexivity.
Qed.

Lemma keeps_modify (g : statics -> statics) :
  (forall sd, bus_board_data (g sd) = bus_board_data sd) ->
  keeps_bus_pdata (modify g).
Proof.
  intros Hg sd n. apply Hg.
Qed.

Lemma keeps_when (b : bool) (m : M unit) :
  keeps_bus_pdata m -> keeps_bus_pdata (when b m).
Proof.
  intros H. destruct b; [exact H | apply keeps_ret].
Qed.

Create HintDb keeps discriminated.

Ltac keeps_tac :=
  lazymatch goal with
  | |- keeps_bus_pdata (bind _ _) =>
      apply keeps_bind; [ keeps_tac | intro; keeps_tac ]
  | |- keeps_bus_pdata (ret _) => apply keeps_ret
  | |- keeps_bus_pdata (when _ _) => apply keeps_when; keeps_tac
  | |- keeps_bus_pdata (if ?b then _ else _) => destruct b; keeps_tac
  | |- keeps_bus_pdata (emit _) => apply keeps_emit
  | |- keeps_bus_pdata (kcall_void _) => apply keeps_kcall_void
  | |- keeps_bus_pdata (kcall_int _ _) => apply keeps_kcall_int
  | |- keeps_bus_pdata (kcall_clk _ _) => apply keeps_kcall_clk
  | |- keeps_bus_pdata (gets _) => apply keeps_gets
  | |- keeps_bus_pdata (modify _) =>
      apply keeps_modify; intro; reflexivity
  | |- _ => solve [auto with keeps]
  end.

Lemma locks_after (K : kernel) {A B : Type} (m : M A) (f : A -> M B) :
  locks_bus_data K m -> (forall a, keeps_bus_pdata (f a)) ->
  locks_bus_data K (bind m f).
Proof.
  intros Hm Hf sd n. destruct (Hm sd n) as (t0 & H).
  exists t0. cbn. rewrite Hf. exact H.
Qed.

Lemma locks_before (K : kernel) {A B : Type} (m : M A) (f : A -> M B) :
  keeps_bus_pdata m -> (forall a, locks_bus_data K (f a)) ->
  locks_bus_data K (bind m f).
Proof.
  intros Hm Hf sd n.
  destruct (Hf (value (m sd n)) (mem (m sd n)) (ticks (m sd n)))
    as (t0 & H).
  exists t0. cbn. rewrite H, Hm. reflexivity.
Qed.

Lemma lock_outcome_zero_consistent (h : Z) :
  bus_pdata_consistent (lock_outcome h zero_bus_pdata) = true.
Proof.
  unfold lock_outcome, bus_pdata_consistent.
  destruct (h =? NULL) eqn:E; cbn; [reflexivity | rewrite E; reflexivity].
Qed.

Section BusData.
Variable K : kernel.
Variable cfg : build.

Lemma keeps_touch_init : keeps_bus_pdata (omap5evm_touch_init K).
Proof.
  unfold omap5evm_touch_init. unfold_kernel. keeps_tac.
Qed.
#[local] Hint Resolve keeps_touch_init : keeps.

Lemma keeps_wifi_mux_init : keeps_bus_pdata omap5_sdp5430_wifi_mux_init.
Proof.
  unfold omap5_sdp5430_wifi_mux_init. unfold_kernel. keeps_tac.
Qed.
#[local] Hint Resolve keeps_wifi_mux_init : keeps.

Lemma keeps_wifi_init : keeps_bus_pdata (omap5_sdp5430_wifi_init K cfg).
Proof.
  unfold omap5_sdp5430_wifi_init. unfold_kernel. keeps_tac.
Qed.
#[local] Hint Resolve keeps_wifi_init : keeps.

Lemma keeps_ehci_ohci_init : keeps_bus_pdata omap_ehci_ohci_init.
Proof.
  unfold omap_ehci_ohci_init. unfold_kernel. keeps_tac.
Qed.
#[local] Hint Resolve keeps_ehci_ohci_init : keeps.

Lemma keeps_lcd_init : keeps_bus_pdata (omap5evm_lcd_init K).
Proof.
  unfold omap5evm_lcd_init. unfold_kernel. keeps_tac.
Qed.
#[local] Hint Resolve keeps_lcd_init : keeps.

Lemma keeps_hdmi_init : keeps_bus_pdata (omap5evm_hdmi_init K).
Proof.
  unfold omap5evm_hdmi_init. unfold_kernel. keeps_tac.
Qed.
#[local] Hint Resolve keeps_hdmi_init : keeps.

Lemma keeps_display_init : keeps_bus_pdata (omap5evm_display_init K).
Proof.
  unfold omap5evm_display_init. unfold_kernel. keeps_tac.
Qed.
#[local] Hint Resolve keeps_display_init : keeps.

Lemma locks_i2c_init : locks_bus_data K (omap_5430evm_i2c_init K cfg).
Proof.
  intros sd n. exists n.
  destruct (i2c_init_board_data K cfg sd n)
    as (H1 & H2 & H3 & H4 & H5 & _).
  unfold bus_board_data at 1. rewrite H1, H2, H3, H4, H5. reflexivity.
Qed.

Ltac locks_tac :=
  lazymatch goal with
  | |- locks_bus_data _ (bind (omap_5430evm_i2c_init _ _) _) =>
      apply locks_after; [ apply locks_i2c_init | intro; keeps_tac ]
  | |- locks_bus_data _ (bind _ _) =>
      apply locks_before; [ keeps_tac | intro; locks_tac ]
  | |- locks_bus_data _ (if ?b then _ else _) => destruct b; locks_tac
  end.

Lemma locks_common_init : locks_bus_data K (omap54xx_common_init K cfg).
Proof.
  unfold omap54xx_common_init. unfold_kernel. locks_tac.
Qed.

Lemma locks_sevm_init : locks_bus_data K (omap_5430_sevm_init K cfg).
Proof.
  unfold omap_5430_sevm_init. unfold_kernel.
  do 6 (apply locks_before; [keeps_tac | intros _]).
  apply locks_after; [apply locks_common_init | intros _; keeps_tac].
Qed.

Lemma locks_uevm_init : locks_bus_data K (omap_5432_uevm_init K cfg).
Proof.
  unfold omap_5432_uevm_init. unfold_kernel.
  apply locks_before; [keeps_tac | intros _].
  apply locks_before; [keeps_tac | intros _].
  apply locks_before; [keeps_tac | intros _].
  apply locks_before; [keeps_tac | intros _].
  apply locks_before; [keeps_tac | intros _].
  apply locks_before; [keeps_tac | intros _].
  apply locks_before; [keeps_tac | intros phy_ref_clk].
  apply locks_before; [keeps_tac | intros _].
  apply locks_before; [keeps_tac | intros _].
  apply locks_before; [keeps_tac | intros _].
  apply locks_common_init.
Qed.

Lemma locks_54xx_init (dt_selected_model : string) :
  locks_bus_data K (omap_54xx_init K cfg dt_selected_model).
Proof.
  unfold omap_54xx_init. unfold_kernel.
  apply locks_before; [keeps_tac | intros _].
  apply locks_before; [keeps_tac | intros _].
  destruct (strcmp dt_selected_model "TI OMAP5 uEVM" =? 0);
    [apply locks_uevm_init | apply locks_sevm_init].
Qed.

End BusData.

(** X5: after machine init the board data of I2C bus [k] holds the
    kernel's answer to the request of lock [k - 1], with the two lock
    callbacks installed exactly when that answer is not NULL; no other
    routine of the init path touches the five board data. *)
Theorem init_bus_board_data (K : kernel) (cfg : build)
    (dt_selected_model : string) (n : nat) :
  let sd' := mem (omap_54xx_init K cfg dt_selected_model boot n) in
  (exists t0,
     bus_board_data sd'
     = map (fun i =>
              lock_outcome
                (ret_hwspin_lock_request_specific K (i + t0) (Z.of_nat i))
                zero_bus_pdata)
           (seq 0 5)) /\
  forallb bus_pdata_consistent (bus_board_data sd') = true.
Proof.
  cbv zeta.
  destruct (locks_54xx_init K cfg dt_selected_model boot n) as (t0 & H).
  rewrite H. split.
  - exists t0. reflexivity.
  - cbn. rewrite !lock_outcome_zero_consistent. reflexivity.
Qed.

(** ** What the drivers are handed *)

Lemma calm_drivers_tables (g : nat -> string -> clk_ptr) (cfg : build)
    (model : string) (sd : statics) (n : nat) :
  let r := omap_54xx_init (calm g) cfg model sd n in
  let cs := kernel_calls (events r) in
  registered_mmc cs = [ mmc (mem r) ] /\
  registered_usbhs cs = [ usbhs_bdata (mem r) ] /\
  registered_wlan cs
    = (if CONFIG_WL12XX_PLATFORM_DATA cfg
       then [ omap5_sdp5430_wlan_data (mem r) ] else []) /\
  muxed_gpios cs
    = (if CONFIG_WL12XX_PLATFORM_DATA cfg
       then [ gpio_wlan_irq (mem r); GPIO_WIFI_PMENA ] else []).
Proof.
  unfold omap_54xx_init.
  destruct (strcmp model "TI OMAP5 uEVM" =? 0); split_build cfg;
    vm_compute; split_clk; repeat split; reflexivity.
Qed.

(** X6: the MMC, USB host and WLAN drivers are each registered once, and
    the table a driver receives is the table as machine init leaves
    it: the overrides of the board variant are in place before any
    driver sees the table.  The WLAN pin muxed is the interrupt line of
    the variant. *)
Theorem drivers_receive_final_tables (K : kernel) (cfg : build)
    (dt_selected_model : string) (sd : statics) (n : nat) :
  let r := omap_54xx_init K cfg dt_selected_model sd n in
  let cs := kernel_calls (events r) in
  registered_mmc cs = [ mmc (mem r) ] /\
  registered_usbhs cs = [ usbhs_bdata (mem r) ] /\
  registered_wlan cs
    = (if CONFIG_WL12XX_PLATFORM_DATA cfg
       then [ omap5_sdp5430_wlan_data (mem r) ] else []) /\
  muxed_gpios cs
    = (if CONFIG_WL12XX_PLATFORM_DATA cfg
       then [ gpio_wlan_irq (mem r); GPIO_WIFI_PMENA ] else []).
Proof.
  destruct (init_vs_calm K cfg dt_selected_model sd n) as (Hc & Hs).
  apply same_skeleton_calls in Hs.
  destruct (calm_drivers_tables (ret_clk_get K) cfg dt_selected_model sd n)
    as (H1 & H2 & H3 & H4).
  destruct Hc as (Eg & _ & Em & Ew & Eu).
  cbv zeta in *. rewrite Hs, Eg, Em, Ew, Eu. auto.
Qed.

(** ** The GPIO lines *)

Lemma calm_gpio_lines (g : nat -> string -> clk_ptr) (cfg : build)
    (model : string) (n : nat) :
  distinct (gpio_lines (mem (omap_54xx_init (calm g) cfg model boot n)))
  = true.
Proof.
  unfold omap_54xx_init.
  destruct (strcmp model "TI OMAP5 uEVM" =? 0); split_build cfg;
    vm_compute; split_clk; reflexivity.
Qed.

Lemma same_config_gpio_lines (a b : statics) :
  same_config a b -> gpio_lines a = gpio_lines b.
Proof.
  unfold gpio_lines. intros (-> & -> & -> & _ & ->). reflexivity.
Qed.

(** X7: on both board variants no GPIO line is given two functions: the
    lines of the LEDs, the touch screen, WLAN, HDMI, the LCD reset, the
    EDID bus, the audio power-on, the card detect and the USB resets
    are pairwise different, before and after machine init. *)
Theorem gpio_lines_without_conflict (K : kernel) (cfg : build)
    (dt_selected_model : string) (n : nat) :
  distinct (gpio_lines boot) = true /\
  distinct
    (gpio_lines (mem (omap_54xx_init K cfg dt_selected_model boot n)))
  = true.
Proof.
  split; [reflexivity|].
  destruct (init_vs_calm K cfg dt_selected_model boot n) as (Hc & _).
  rewrite (same_config_gpio_lines Hc). apply calm_gpio_lines.
Qed.

(** ** Which routines and calls a run contains *)

Lemma same_skeleton_all_entries (a b : list event) :
  skeleton a = skeleton b ->
  map (fun f => entries f a) all_routines
  = map (fun f => entries f b) all_routines.
Proof.
  intros H. apply map_ext. intros f. apply same_skeleton_entries, H.
Qed.

Lemma calm_routine_entries (g : nat -> string -> clk_ptr) (cfg : build)
    (model : string) (sd : statics) (n : nat) :
  let tr := events (omap_54xx_init (calm g) cfg model sd n) in
  let u := if strcmp model "TI OMAP5 uEVM" =? 0 then 1%nat else 0%nat in
  let s := if strcmp model "TI OMAP5 uEVM" =? 0 then 0%nat else 1%nat in
  let w := if CONFIG_WL12XX_PLATFORM_DATA cfg then 1%nat else 0%nat in
  map (fun f => entries f tr) all_routines
  = [1; u; s; 1; 1; 5; w; w; 1; 1; 1; 1; s; 0; 0]%nat.
Proof.
  unfold omap_54xx_init.
  destruct (strcmp model "TI OMAP5 uEVM" =? 0); split_build cfg;
    vm_compute; split_clk; reflexivity.
Qed.

(** X8: in one machine init every routine of the file runs at most once,
    except [omap_i2c_hwspinlock_init], which runs five times: machine
    init, the common init, the I2C, USB and display routines always
    run once, the variant routines and the touch screen routine by the
    model, the WLAN routines by the build, and the two HDMI callbacks
    never. *)
Theorem init_routine_entries (K : kernel) (cfg : build)
    (dt_selected_model : string) (sd : statics) (n : nat) :
  let tr := events (omap_54xx_init K cfg dt_selected_model sd n) in
  let u :=
    if strcmp dt_selected_model "TI OMAP5 uEVM" =? 0 then 1%nat else 0%nat in
  let s :=
    if strcmp dt_selected_model "TI OMAP5 uEVM" =? 0 then 0%nat else 1%nat in
  let w := if CONFIG_WL12XX_PLATFORM_DATA cfg then 1%nat else 0%nat in
  map (fun f => entries f tr) all_routines
  = [1; u; s; 1; 1; 5; w; w; 1; 1; 1; 1; s; 0; 0]%nat.
Proof.
  destruct (init_vs_calm K cfg dt_selected_model sd n) as (_ & Hs).
  cbv zeta.
  etransitivity; [apply (same_skeleton_all_entries _ _ Hs)|].
  apply calm_routine_entries.
Qed.

Lemma calm_variant_calls (g : nat -> string -> clk_ptr) (cfg : build)
    (model : string) (sd : statics) (n : nat) :
  let cs := kernel_calls (events (omap_54xx_init (calm g) cfg model sd n)) in
  (if strcmp model "TI OMAP5 uEVM" =? 0
   then filter sevm_only_call cs
   else filter is_clk_call cs) = [] /\
  freed_gpios cs = [] /\
  existsb (Z.eqb HDMI_HPD_EN_GPIO) (requested_gpios cs) = true.
Proof.
  unfold omap_54xx_init.
  destruct (strcmp model "TI OMAP5 uEVM" =? 0); split_build cfg;
    vm_compute; split_clk; repeat split;
    first [ reflexivity
          | match goal with
            | |- (if ?c then true else true) = true =>
                destruct c; reflexivity
            end ].
Qed.

(** X9: the uEVM variant never touches the devices only the sEVM has:
    it makes no [gpio_request], GPIO direction, delay, sensor, keypad,
    register write or camera regulator call; the sEVM variant makes no
    clock call. *)
Theorem variant_calls_exclusive (K : kernel) (cfg : build)
    (dt_selected_model : string) (sd : statics) (n : nat) :
  let cs :=
    kernel_calls (events (omap_54xx_init K cfg dt_selected_model sd n)) in
  (if strcmp dt_selected_model "TI OMAP5 uEVM" =? 0
   then filter sevm_only_call cs
   else filter is_clk_call cs) = [].
Proof.
  destruct (init_vs_calm K cfg dt_selected_model sd n) as (_ & Hs).
  apply same_skeleton_calls in Hs. cbv zeta. rewrite Hs.
  apply calm_variant_calls.
Qed.

(** ** The HDMI callbacks *)

(** X10: machine init requests the HDMI hot-plug enable line (GPIO 257)
    and frees no GPIO.  The enable callback requests that line again,
    and then the output enable line (GPIO 256), whatever the answers;
    the disable callback frees only GPIO 256, and this holds for each
    callback on its own as for the two in sequence.  So the request of
    GPIO 257 by the enable callback is a repeated request, and nothing
    in the file gives the line back. *)
Theorem hdmi_enable_repeats_request (K : kernel) (cfg : build)
    (dt_selected_model : string) (sd sd1 : statics) (n n1 : nat) :
  let init :=
    kernel_calls (events (omap_54xx_init K cfg dt_selected_model sd n)) in
  let callbacks :=
    kernel_calls
      (events (bind (omap5evm_panel_enable_hdmi K)
                    (fun _ => omap5evm_panel_disable_hdmi) sd1 n1)) in
  let enable := kernel_calls (events (omap5evm_panel_enable_hdmi K sd1 n1)) in
  let disable := kernel_calls (events (omap5evm_panel_disable_hdmi sd1 n1)) in
  existsb (Z.eqb HDMI_HPD_EN_GPIO) (requested_gpios init) = true /\
  freed_gpios init = [] /\
  requested_gpios callbacks = [ HDMI_HPD_EN_GPIO; HDMI_OE_GPIO ] /\
  freed_gpios callbacks = [ HDMI_OE_GPIO ] /\
  requested_gpios enable = [ HDMI_HPD_EN_GPIO; HDMI_OE_GPIO ] /\
  freed_gpios enable = [] /\
  requested_gpios disable = [] /\
  freed_gpios disable = [ HDMI_OE_GPIO ].
Proof.
  destruct (init_vs_calm K cfg dt_selected_model sd n) as (_ & Hs).
  apply same_skeleton_calls in Hs.
  destruct (calm_variant_calls (ret_clk_get K) cfg dt_selected_model sd n)
    as (_ & Hf & Hr).
  cbv zeta in *. rewrite Hs. split; [exact Hr|]. split; [exact Hf|].
  unfold omap5evm_panel_enable_hdmi, omap5evm_panel_disable_hdmi.
  unfold_kernel. cbn.
  destruct (negb _); repeat split; reflexivity.
Qed.

(** ** The kernel's answers and the course of machine init *)

(** X11: two kernels that answer [clk_get] alike see the same kernel
    calls, in the same order and with the same arguments, and are left
    with the same configuration, however differently they answer the
    GPIO, spinlock, WLAN and keypad requests. *)
Theorem answers_do_not_steer_init (K1 K2 : kernel) (cfg : build)
    (dt_selected_model : string) (sd : statics) (n : nat) :
  (forall i s, ret_clk_get K1 i s = ret_clk_get K2 i s) ->
  let r1 := omap_54xx_init K1 cfg dt_selected_model sd n in
  let r2 := omap_54xx_init K2 cfg dt_selected_model sd n in
  kernel_calls (events r1) = kernel_calls (events r2) /\
  same_config (mem r1) (mem r2) /\
  ticks r1 = ticks r2.
Proof.
  intros Hclk.
  destruct (@sim_54xx_init K1 K2 cfg Hclk dt_selected_model sd sd n
              (same_config_refl sd)) as (Hc & Ht & Hs).
  cbv zeta. split; [apply same_skeleton_calls, Hs | auto].
Qed.

Lemma answers_do_not_steer_init_witness :
  (forall i s, ret_clk_get kernel_busy i s = ret_clk_get kernel_nolock i s) /\
  let r1 := omap_54xx_init kernel_busy build_full "TI OMAP5 sEVM" boot 0%nat in
  let r2 := omap_54xx_init kernel_nolock build_full "TI OMAP5 sEVM" boot 0%nat in
  kernel_calls (events r1) = kernel_calls (events r2) /\
  same_config (mem r1) (mem r2) /\
  ticks r1 = ticks r2.
Proof.
  split; [reflexivity|].
  apply (@answers_do_not_steer_init kernel_busy kernel_nolock build_full
           "TI OMAP5 sEVM" boot 0%nat).
  reflexivity.
Defined.

(** ** The overridden tables *)

Lemma calm_tables_ok (g : nat -> string -> clk_ptr) (cfg : build)
    (model : string) (n : nat) :
  let sd' := mem (omap_54xx_init (calm g) cfg model boot n) in
  let uevm := strcmp model "TI OMAP5 uEVM" =? 0 in
  mmc sd' =
    [ nth 0 mmc_init mmc_terminator;
      set_gpio_cd (if uevm then 152 else 67) (nth 1 mmc_init mmc_terminator);
      nth 2 mmc_init mmc_terminator;
      mmc_terminator ] /\
  usbhs_bdata sd' =
    {| port_mode := port_mode usbhs_bdata_init;
       phy_reset := phy_reset usbhs_bdata_init;
       reset_gpio_port :=
         if uevm
         then [ - EINVAL; GPIO_HUB_NRESET_UEVM; GPIO_ETH_NRESET_UEVM ]
         else [ - EINVAL; GPIO_HUB_NRESET_SEVM; GPIO_ETH_NRESET_SEVM ] |} /\
  mmc_table_ok (mmc sd') = true /\
  map mmc_ctrl (mmc_controllers (mmc sd')) = [2; 1; 3] /\
  usbhs_table_ok (usbhs_bdata sd') = true.
Proof.
  unfold omap_54xx_init.
  destruct (strcmp model "TI OMAP5 uEVM" =? 0); split_build cfg;
    vm_compute; split_clk; repeat split; reflexivity.
Qed.

(** X12: the overrides of a board variant hit the entries they are
    meant for and nothing else.  After machine init the MMC table is
    the initial table with the card-detect line of its second entry
    (controller 1) at 152 on the uEVM and at 67 on the sEVM, the other
    two controllers and the terminator, every field of which is zero,
    as they were; the USB host table is the initial one with the reset
    lines of ports 1 and 2 at 80 and 15 on the uEVM and at 173 and 172
    on the sEVM.  Both tables stay well formed: three controllers 2, 1
    and 3 before one terminator, three ports with a reset line exactly
    on the ports in use. *)
Theorem overridden_tables_well_formed (K : kernel) (cfg : build)
    (dt_selected_model : string) (n : nat) :
  let sd' := mem (omap_54xx_init K cfg dt_selected_model boot n) in
  let uevm := strcmp dt_selected_model "TI OMAP5 uEVM" =? 0 in
  mmc sd' =
    [ nth 0 mmc_init mmc_terminator;
      set_gpio_cd (if uevm then 152 else 67) (nth 1 mmc_init mmc_terminator);
      nth 2 mmc_init mmc_terminator;
      mmc_terminator ] /\
  usbhs_bdata sd' =
    {| port_mode := port_mode usbhs_bdata_init;
       phy_reset := phy_reset usbhs_bdata_init;
       reset_gpio_port :=
         if uevm
         then [ - EINVAL; GPIO_HUB_NRESET_UEVM; GPIO_ETH_NRESET_UEVM ]
         else [ - EINVAL; GPIO_HUB_NRESET_SEVM; GPIO_ETH_NRESET_SEVM ] |} /\
  mmc_table_ok (mmc sd') = true /\
  map mmc_ctrl (mmc_controllers (mmc sd')) = [2; 1; 3] /\
  usbhs_table_ok (usbhs_bdata sd') = true.
Proof.
  destruct (init_vs_calm K cfg dt_selected_model boot n)
    as ((_ & _ & Em & _ & Eu) & _).
  cbv zeta. rewrite Em, Eu. apply calm_tables_ok.
Qed.

(** A store aimed at the terminator or behind the end of a table would
    break these tables: the first leaves a terminator that is not
    zero, the second is lost. *)
Example misplaced_overrides_are_noticed :
  mmc_table_ok (array_upd 3 (set_gpio_cd 152) mmc_init) = false /\
  array_upd 4 (set_gpio_cd 152) mmc_init = mmc_init /\
  set_reset_gpio_port 5 GPIO_ETH_NRESET_UEVM usbhs_bdata_init
    = usbhs_bdata_init.
Proof.
  repeat split; reflexivity.
Qed.

(** ** The model array *)

(** X13: machine init looks at the model array up to its first NUL byte
    only: two arrays that hold the same C string give the same run,
    whatever bytes follow the string. *)
Theorem init_depends_on_c_string (K : kernel) (cfg : build)
    (model1 model2 : string) (sd : statics) (n : nat) :
  c_str model1 = c_str model2 ->
  omap_54xx_init K cfg model1 sd n = omap_54xx_init K cfg model2 sd n.
Proof.
  intros H. unfold omap_54xx_init.
  assert (E : (strcmp model1 "TI OMAP5 uEVM" =? 0)
              = (strcmp model2 "TI OMAP5 uEVM" =? 0)).
  { apply eq_true_iff_eq. rewrite !uevm_model_test, H. reflexivity. }
  rewrite E. reflexivity.
Qed.

Lemma init_depends_on_c_string_witness :
  c_str "TI OMAP5 uEVM" = c_str uevm_model_with_tail /\
  omap_54xx_init kernel_ok build_full "TI OMAP5 uEVM" boot 0%nat
  = omap_54xx_init kernel_ok build_full uevm_model_with_tail boot 0%nat.
Proof.
  split; [reflexivity|].
  apply (@init_depends_on_c_string kernel_ok build_full "TI OMAP5 uEVM"
           uevm_model_with_tail boot 0%nat).
  reflexivity.
Defined.

(** A model string that only begins with the uEVM name selects the
    sEVM variant, and so does the empty string. *)
Example longer_model_is_sevm :
  map (fun model =>
         entries rt_omap_5430_sevm_init
           (events (omap_54xx_init kernel_ok build_full model boot 0%nat)))
      [ "TI OMAP5 uEVM board"; ""; "TI OMAP5 uEV"; "ti omap5 uevm" ]
  = [1; 1; 1; 1]%nat.
Proof.
  vm_compute. reflexivity.
Qed.


(** ** One run of machine init *)



